(** * P5 proxy generator: rendition resolution and workflow path mapping

    A shallow embedding of [p5_proxy_generator.py] (with the parts of
    [aw_platform.py] it calls) and the verification of its specification.

    Conventions of the embedding:
    - Python [str] is [string]; truthiness of a string is [truthy].
    - [os.path] is [posixpath] (the macOS/Linux flavour: [os.sep] is the
      slash, [sys.platform] differs from win32); [pathlib.Path] is
      [PurePosixPath], with [stem] as in CPython 3.7 to 3.13.
    - The module-level configuration constants are the fields of [Config].
    - The file system is the finite set of paths of its regular files;
      directories are not modelled. The external processes (the
      encoder, the capability probe) are an oracle supplied by [Env].
    - [main] is a computation in a state and error monad; what it does
      to the outside is recorded, in order, in a trace of events. *)

From Stdlib Require Import ZArith Ascii String DecimalString.
From stdpp Require Import base strings list gmap.

(** ** Python string operations used by the program *)

Module Str.

(** [bool(s)] *)
Definition truthy (s : string) : bool :=
  match s with EmptyString => false | String _ _ => true end.

(** [s.startswith(pre)] *)
Definition startswith (s pre : string) : bool := String.prefix pre s.

(** [s.endswith(suf)] *)
Fixpoint endswith (s suf : string) : bool :=
  String.eqb s suf
  || match s with EmptyString => false | String _ r => endswith r suf end.

(** [s.rfind(c)] for a one-character [c]; [None] stands for Python's -1. *)
Fixpoint rfind (s : string) (c : ascii) : option nat :=
  match s with
  | EmptyString => None
  | String a r =>
      match rfind r c with
      | Some i => Some (S i)
      | None => if Ascii.eqb a c then Some 0 else None
      end
  end.

(** [s[:n]] *)
Fixpoint take (n : nat) (s : string) : string :=
  match n, s with
  | S n', String a r => String a (take n' r)
  | _, _ => EmptyString
  end.

(** [s.rstrip(c)] for a one-character [c] *)
Fixpoint rstrip (s : string) (c : ascii) : string :=
  match s with
  | EmptyString => EmptyString
  | String a r =>
      match rstrip r c with
      | EmptyString => if Ascii.eqb a c then EmptyString else String a EmptyString
      | String b r' => String a (String b r')
      end
  end.

(** [s == c * len(s)] *)
Fixpoint all_char (c : ascii) (s : string) : bool :=
  match s with
  | EmptyString => true
  | String a r => Ascii.eqb a c && all_char c r
  end.

(** [c * n] *)
Fixpoint repeat_char (c : ascii) (n : nat) : string :=
  match n with O => EmptyString | S n' => String c (repeat_char c n') end.

(** [s.split(c)]: never the empty list *)
Fixpoint split (s : string) (c : ascii) : list string :=
  match s with
  | EmptyString => [EmptyString]
  | String a r =>
      if Ascii.eqb a c then EmptyString :: split r c
      else match split r c with
           | x :: xs => String a x :: xs
           | [] => [String a EmptyString]
           end
  end.

(** [sepr.join(l)] *)
Fixpoint join_with (sepr : string) (l : list string) : string :=
  match l with
  | [] => EmptyString
  | [x] => x
  | x :: xs => x +:+ sepr +:+ join_with sepr xs
  end.

(** [sub in s] *)
Fixpoint contains (s sub : string) : bool :=
  String.prefix sub s
  || match s with EmptyString => false | String _ r => contains r sub end.

(** The rest of [s] after the prefix [pre], when [s] starts with it. *)
Fixpoint strip_prefix (pre s : string) : option string :=
  match pre, s with
  | EmptyString, _ => Some s
  | String a p', String b s' =>
      if Ascii.eqb a b then strip_prefix p' s' else None
  | String _ _, EmptyString => None
  end.

(** [str(n)] for an [int] *)
Definition of_Z (n : Z) : string := NilZero.string_of_int (Z.to_int n).
Definition of_nat (n : nat) : string := NilZero.string_of_uint (Nat.to_uint n).

(** [s[n:]] for [n >= 0] *)
Fixpoint drop (n : nat) (s : string) : string :=
  match n, s with
  | S n', String _ r => drop n' r
  | _, _ => s
  end.

(** [s[start:stop]]: a negative index counts from the end, and both
    indices are clipped to the string. *)
Definition slice (s : string) (start stop : Z) : string :=
  let n := Z.of_nat (String.length s) in
  let clip i := if (i <? 0)%Z then Z.max (i + n) 0 else Z.min i n in
  take (Z.to_nat (clip stop - clip start)) (drop (Z.to_nat (clip start)) s).

(** [s.replace(old, new)] for one-character [old] and [new] *)
Fixpoint replace_char (s : string) (old new : ascii) : string :=
  match s with
  | EmptyString => EmptyString
  | String a r =>
      String (if Ascii.eqb a old then new else a) (replace_char r old new)
  end.

End Str.

(** ** [posixpath] *)

Module posixpath.
Import Str.

Definition sep : ascii := "/"%char.
Definition sep_str : string := String sep EmptyString.

(** [os.path.dirname]:
    [i = p.rfind(sep) + 1; head = p[:i];
     if head and head != sep*len(head): head = head.rstrip(sep)] *)
Definition dirname (p : string) : string :=
  let i := match rfind p sep with Some k => S k | None => 0 end in
  let head := take i p in
  if truthy head && negb (all_char sep head) then rstrip head sep else head.

(** One round of the loop of [os.path.join]. *)
Definition join2 (path b : string) : string :=
  if startswith b sep_str then b
  else if negb (truthy path) || endswith path sep_str then path +:+ b
  else path +:+ sep_str +:+ b.

(** [os.path.join(a, *p)] *)
Definition join (a : string) (p : list string) : string := fold_left join2 p a.

(** The body of the loop of [os.path.normpath] over the components. *)
Definition normpath_step (initial_slashes : nat) (new_comps : list string)
    (comp : string) : list string :=
  if String.eqb comp EmptyString || String.eqb comp "." then new_comps
  else if negb (String.eqb comp "..")
          || (Nat.eqb initial_slashes 0 && bool_decide (new_comps = []))
          || (negb (bool_decide (new_comps = []))
              && bool_decide (last new_comps = Some ".."))
       then new_comps ++ [comp]
       else removelast new_comps.

(** [os.path.normpath] *)
Definition normpath (path : string) : string :=
  if negb (truthy path) then "."
  else
    let initial_slashes :=
      if startswith path "/" then
        if startswith path "//" && negb (startswith path "///") then 2 else 1
      else 0 in
    let comps := split path sep in
    let new_comps := fold_left (normpath_step initial_slashes) comps [] in
    let path' := repeat_char sep initial_slashes +:+ join_with sep_str new_comps in
    if truthy path' then path' else ".".

(** [pathlib.PurePosixPath(p).name]: the last component that is neither
    empty nor a single dot; empty when there is none. *)
Definition name (p : string) : string :=
  let parts :=
    List.filter (fun x => negb (String.eqb x EmptyString || String.eqb x "."))
                (split p sep) in
  default EmptyString (last parts).

(** [pathlib.PurePosixPath(p).stem]:
    [i = name.rfind('.'); name[:i] if 0 < i < len(name) - 1 else name] *)
Definition stem (p : string) : string :=
  let nm := name p in
  match rfind nm "."%char with
  | Some i => if (0 <? i) && (i <? String.length nm - 1) then take i nm else nm
  | None => nm
  end.

End posixpath.

(** ** Configuration

    The module-level constants of [p5_proxy_generator.py]. *)

Record Config := {
  ENABLE_P5_PREVIEW : bool;
  P5_PREVIEW_SOURCE : string;
  ENABLE_WORKFLOW_STORE : bool;
  WORKFLOW_STORE_SOURCE : string;
  FFMPEG_PATH : string;
  WORKFLOW_PROJECT_FOLDER : string;
  WORKFLOW_NEW_BASE : string;
  WORKFLOW_REMOVE_LEVELS : Z;
  WORKFLOW_REPLACE_WITH : string;
  PREVIEW_SCALE : string;
  PREVIEW_ABITRATE : string;
  PREVIEW_CODEC : string;
  PREVIEW_CODEC_PROFILE : string;
  PREVIEW_CONTAINER : string;
  PREVIEW_VBITRATE : string;
  PREVIEW_CRF : string;
  PREVIEW_PRESET : string;
  PREVIEW_TUNE : string;
  WORKFLOW_SCALE : string;
  WORKFLOW_ABITRATE : string;
  WORKFLOW_CODEC : string;
  WORKFLOW_CODEC_PROFILE : string;
  WORKFLOW_CONTAINER : string;
  WORKFLOW_VBITRATE : string;
  WORKFLOW_CRF : string;
  WORKFLOW_PRESET : string;
  WORKFLOW_TUNE : string
}.

(** The values the repository ships with. *)
Definition shipped_config : Config := {|
  ENABLE_P5_PREVIEW := true;
  P5_PREVIEW_SOURCE := "preview";
  ENABLE_WORKFLOW_STORE := true;
  WORKFLOW_STORE_SOURCE := "workflow";
  FFMPEG_PATH := EmptyString;
  WORKFLOW_PROJECT_FOLDER := EmptyString;
  WORKFLOW_NEW_BASE := EmptyString;
  WORKFLOW_REMOVE_LEVELS := 1;
  WORKFLOW_REPLACE_WITH := "proxies";
  PREVIEW_SCALE := "320";
  PREVIEW_ABITRATE := "64k";
  PREVIEW_CODEC := "h264";
  PREVIEW_CODEC_PROFILE := EmptyString;
  PREVIEW_CONTAINER := EmptyString;
  PREVIEW_VBITRATE := "256k";
  PREVIEW_CRF := "28";
  PREVIEW_PRESET := "veryfast";
  PREVIEW_TUNE := "fastdecode";
  WORKFLOW_SCALE := "1920";
  WORKFLOW_ABITRATE := "128k";
  WORKFLOW_CODEC := "h264";
  WORKFLOW_CODEC_PROFILE := EmptyString;
  WORKFLOW_CONTAINER := EmptyString;
  WORKFLOW_VBITRATE := "5000k";
  WORKFLOW_CRF := "18";
  WORKFLOW_PRESET := "medium";
  WORKFLOW_TUNE := EmptyString
|}.

(** ** [get_container] *)

Definition get_container (codec custom : string) : string :=
  if Str.truthy custom then custom
  else if String.eqb codec "h264" then "mp4"
  else if String.eqb codec "prores" then "mov"
  else if String.eqb codec "dnxhd" then "mxf"
  else "mp4".

(** ** [build_workflow_path]

    The function only reads the configuration and logs one warning, so
    it is embedded as a pure function that returns the destination
    together with the lines it hands to [aw.log]. *)

Section PathMapping.
Import Str.

Definition backslash : ascii := ascii_of_nat 92.

(** The character class of the pattern: a slash or a backslash. *)
Definition is_slash (c : ascii) : bool :=
  Ascii.eqb c "/"%char || Ascii.eqb c backslash.

(** [pattern.search(s)] for the pattern
    [[/\\]] + [re.escape(marker)] + [[/\\]]: the leftmost match, given as
    [s[match.end():]]; [None] when the pattern does not occur. *)
Fixpoint search_marker (marker s : string) : option string :=
  match s with
  | EmptyString => None
  | String c r =>
      if is_slash c then
        match strip_prefix marker r with
        | Some (String d rest) =>
            if is_slash d then Some rest else search_marker marker r
        | _ => search_marker marker r
        end
      else search_marker marker r
  end.

Variable cfg : Config.

(** Step 1: replace the base path if configured. *)
Definition replace_base (src_dir : string) : string * list string :=
  if truthy (WORKFLOW_PROJECT_FOLDER cfg) && truthy (WORKFLOW_NEW_BASE cfg) then
    match search_marker (WORKFLOW_PROJECT_FOLDER cfg) src_dir with
    | Some after_marker =>
        (posixpath.join (WORKFLOW_NEW_BASE cfg)
           [WORKFLOW_PROJECT_FOLDER cfg; after_marker], [])
    | None =>
        if endswith src_dir (posixpath.sep_str +:+ WORKFLOW_PROJECT_FOLDER cfg)
        then (posixpath.join (WORKFLOW_NEW_BASE cfg) [WORKFLOW_PROJECT_FOLDER cfg], [])
        else (src_dir,
              ["WARNING: Project folder '" +:+ WORKFLOW_PROJECT_FOLDER cfg
               +:+ "' not found"])
    end
  else (src_dir, []).

(** Step 2: [for _ in range(levels): target_dir = os.path.dirname(target_dir)];
    a negative count gives an empty range. *)
Definition remove_levels (levels : Z) (dir : string) : string :=
  Nat.iter (Z.to_nat levels) posixpath.dirname dir.

(** Step 3: append the replacement folder. *)
Definition append_folder (target_dir : string) : string :=
  if truthy (WORKFLOW_REPLACE_WITH cfg)
  then posixpath.join target_dir [WORKFLOW_REPLACE_WITH cfg]
  else target_dir.

(** The directory computed by the three steps from the source file. *)
Definition workflow_target_dir (src_file : string) : string * list string :=
  let src_dir := posixpath.dirname src_file in
  let '(src_dir', warnings) := replace_base src_dir in
  (append_folder (remove_levels (WORKFLOW_REMOVE_LEVELS cfg) src_dir'), warnings).

(** The base name of the output: [_proxy] is added only if the output
    lands in the directory of the source. *)
Definition output_basename (src_file target_dir : string) : string :=
  let src_basename := posixpath.stem src_file in
  let original_dir := posixpath.dirname src_file in
  if String.eqb (posixpath.normpath target_dir) (posixpath.normpath original_dir)
  then src_basename +:+ "_proxy"
  else src_basename.

Definition build_workflow_path (src_file container : string)
    : string * list string :=
  let '(target_dir, warnings) := workflow_target_dir src_file in
  (posixpath.join target_dir
     [output_basename src_file target_dir +:+ "." +:+ container],
   warnings).

End PathMapping.


(** ** The run: environment, state and effects *)

(** What [subprocess.run(cmd, capture_output=True, text=True)] returns. *)
Record Completed := {
  returncode : Z;
  stdout : string;
  stderr : string
}.

(** The surroundings of one run: the two paths taken from
    [aw_platform], the process id, and the external processes.
    [subprocess_run cmd fs] is the process started with the argument
    list [cmd] on the file set [fs]: [None] when it cannot be started
    (an [OSError]), otherwise what it returns and the file set it leaves
    behind. In [aw_platform], [AW_TEMP] is [join(AW_PATH, 'temp')] or
    [tempfile.gettempdir()], so it is never empty; the theorems about
    runs assume that. *)
Record Env := {
  AW_TEMP : string;
  AW_BIN : string;
  getpid : nat;
  subprocess_run : list string -> gset string -> option (Completed * gset string)
}.

(** What the run does to the outside, in the order it does it. A call
    of an external process is recorded with its argument list and with
    what it returned ([None] when it could not be started). *)
Inductive Event :=
  | EvLog (message : string)
  | EvMakedirs (path : string)
  | EvProbe (cmd : list string) (result : option Completed)
  | EvTranscode (proxy_type : string) (cmd : list string)
      (result : option Completed)
  | EvPlaceholder (cmd : list string) (result : option Completed)
  | EvCopy (source_path dest : string)
  | EvRemove (path : string)
  | EvPrint (line : string).

(** The mutable state: the files, the two globals set by [init_ffmpeg]
    ([FFMPEG] is [None] until then) and the events so far. *)
Record State := {
  files : gset string;
  FFMPEG : option string;
  USE_LIBX264 : bool;
  trace : list Event
}.

(** How a computation stops early: [sys.exit(code)] or an uncaught
    exception. *)
Inductive Halt :=
  | SysExit (code : Z)
  | Uncaught (exception : string).

Inductive Result (A : Type) :=
  | Ok (a : A)
  | Stop (why : Halt).
Arguments Ok {A} a.
Arguments Stop {A} why.

Definition M (A : Type) : Type := State -> Result A * State.

Definition ret {A} (a : A) : M A := fun st => (Ok a, st).

Definition bind {A B} (m : M A) (k : A -> M B) : M B :=
  fun st =>
    match m st with
    | (Ok a, st') => k a st'
    | (Stop e, st') => (Stop e, st')
    end.

Notation "x <- m ;; k" := (bind m (fun x => k))
  (at level 200, m at level 99, k at level 200, right associativity).
Notation "m ;;; k" := (bind m (fun _ => k))
  (at level 200, k at level 200, right associativity).

Definition raise {A} (exception : string) : M A :=
  fun st => (Stop (Uncaught exception), st).

Definition emit (e : Event) : M unit :=
  fun st => (Ok tt, {| files := files st; FFMPEG := FFMPEG st;
                       USE_LIBX264 := USE_LIBX264 st;
                       trace := trace st ++ [e] |}).

Definition set_files (fs : gset string) : M unit :=
  fun st => (Ok tt, {| files := fs; FFMPEG := FFMPEG st;
                       USE_LIBX264 := USE_LIBX264 st; trace := trace st |}).

Definition set_ffmpeg (path : string) (libx264 : bool) : M unit :=
  fun st => (Ok tt, {| files := files st; FFMPEG := Some path;
                       USE_LIBX264 := libx264; trace := trace st |}).

Definition get_files : M (gset string) := fun st => (Ok (files st), st).
Definition get_USE_LIBX264 : M bool := fun st => (Ok (USE_LIBX264 st), st).

(** Reading [FFMPEG] into an argument list: [None] there is a
    [TypeError] of [subprocess.run]. *)
Definition get_FFMPEG : M string :=
  fun st => match FFMPEG st with
            | Some f => (Ok f, st)
            | None => (Stop (Uncaught "TypeError"), st)
            end.

(** *** [aw_platform]: [log] and [error_exit]

    [set_logfile] has run at import, so [log] always writes. The line is
    appended to the log file, which is not tracked in the file set;
    failures of the write are swallowed, and the time stamp is left
    out. *)
Definition log (message : string) : M unit := emit (EvLog message).

Definition error_exit {A} (message : string) : M A :=
  log ("ERROR: " +:+ message) ;;;
  fun st => (Stop (SysExit 1), st).

(** *** [os] and [shutil] *)

Definition isfile (path : string) : M bool :=
  fun st => (Ok (bool_decide (path ∈ files st)), st).

(** [os.makedirs(path, exist_ok=True)]: directories are not part of the
    file set; creating one succeeds, except for the empty path. *)
Definition makedirs (path : string) : M unit :=
  emit (EvMakedirs path) ;;;
  if Str.truthy path then ret tt else raise "FileNotFoundError".

(** [shutil.copy2(src, dst)]: [src] has to be a regular file and differ
    from [dst]. *)
Definition copy2 (src dst : string) : M unit :=
  emit (EvCopy src dst) ;;;
  fs <- get_files ;;
  if negb (bool_decide (src ∈ fs)) then raise "FileNotFoundError"
  else if String.eqb src dst then raise "SameFileError"
  else set_files ({[ dst ]} ∪ fs).

(** [os.remove(path)] *)
Definition remove (path : string) : M unit :=
  emit (EvRemove path) ;;;
  fs <- get_files ;;
  if bool_decide (path ∈ fs) then set_files (fs ∖ {[ path ]})
  else raise "FileNotFoundError".

(** [subprocess.run(cmd, capture_output=True, ...)], recorded as the
    event [ev]; [None] when the call raises. *)
Definition try_run (env : Env) (ev : option Completed -> Event)
    (cmd : list string) : M (option Completed) :=
  fs <- get_files ;;
  match subprocess_run env cmd fs with
  | Some (result, fs') =>
      set_files fs' ;;; emit (ev (Some result)) ;;; ret (Some result)
  | None => emit (ev None) ;;; ret None
  end.

Definition run (env : Env) (ev : option Completed -> Event)
    (cmd : list string) : M Completed :=
  r <- try_run env ev cmd ;;
  match r with
  | Some result => ret result
  | None => raise "OSError"
  end.

(** ** [init_ffmpeg] *)

Definition init_ffmpeg (env : Env) (cfg : Config) : M unit :=
  let ffmpeg_exe := "ffmpeg" in
  let builtin := posixpath.join (AW_BIN env) [ffmpeg_exe] in
  is_file <- isfile (FFMPEG_PATH cfg) ;;
  returned <-
    (if Str.truthy (FFMPEG_PATH cfg) && is_file then
       let cmd := [FFMPEG_PATH cfg; "-encoders"] in
       r <- try_run env (EvProbe cmd) cmd ;;
       found <-
         match r with
         | Some result =>
             if Str.contains (stdout result) "libx264" then
               set_ffmpeg (FFMPEG_PATH cfg) true ;;;
               log ("Using custom FFmpeg with libx264: " +:+ FFMPEG_PATH cfg) ;;;
               ret true
             else ret false
         | None => ret false
         end ;;
       if found : bool then ret true
       else log "WARNING: Custom FFmpeg invalid, using P5 built-in" ;;; ret false
     else ret false) ;;
  if returned : bool then ret tt else set_ffmpeg builtin false.

(** ** [generate_proxy] *)

(** The codec-specific part of the command line (the encode recipe). *)
Definition codec_arguments (use_libx264 : bool)
    (scale vbitrate abitrate codec codec_profile crf preset tune : string)
    : list string :=
  if String.eqb codec "h264" then
    ["-vf"; "scale=" +:+ scale +:+ ":-2"; "-pix_fmt"; "yuv420p"]
    ++ (if use_libx264 then
          ["-c:v"; "libx264"; "-crf"; crf; "-preset"; preset]
          ++ (if Str.truthy tune then ["-tune"; tune] else [])
        else ["-c:v"; "libopenh264"; "-b:v"; vbitrate])
    ++ ["-c:a"; "aac"; "-b:a"; abitrate; "-movflags"; "+faststart"]
  else if String.eqb codec "prores" then
    let profile :=
      if String.eqb codec_profile "proxy" then "0"
      else if String.eqb codec_profile "lt" then "1"
      else if String.eqb codec_profile "standard" then "2"
      else if String.eqb codec_profile "hq" then "3"
      else "1" in
    ["-vf"; "scale=" +:+ scale +:+ ":-2"; "-c:v"; "prores_ks";
     "-profile:v"; profile; "-c:a"; "pcm_s16le"; "-ar"; "48000"]
  else if String.eqb codec "dnxhd" then
    let profile := if Str.truthy codec_profile then codec_profile else "dnxhr_sq" in
    ["-vf"; "scale=" +:+ scale +:+ ":-2"; "-pix_fmt"; "yuv422p";
     "-c:v"; "dnxhd"; "-profile:v"; profile;
     "-c:a"; "pcm_s16le"; "-ar"; "48000"]
  else
    ["-vf"; "scale=" +:+ scale +:+ ":-2"; "-pix_fmt"; "yuv420p";
     "-c:v"; "libopenh264"; "-b:v"; vbitrate;
     "-c:a"; "aac"; "-b:a"; abitrate; "-movflags"; "+faststart"].

(** The whole FFmpeg command of [generate_proxy]. *)
Definition ffmpeg_command (ffmpeg : string) (use_libx264 : bool)
    (input_file output_file scale vbitrate abitrate codec codec_profile
     container crf preset tune : string) : list string :=
  [ffmpeg; "-i"; input_file]
  ++ codec_arguments use_libx264 scale vbitrate abitrate codec codec_profile
       crf preset tune
  ++ ["-f"; container; "-loglevel"; "error"; "-y"; output_file].

Definition generate_proxy (env : Env)
    (input_file output_file scale vbitrate abitrate proxy_type codec
     codec_profile container crf preset tune : string) : M bool :=
  makedirs (posixpath.dirname output_file) ;;;
  log ("Generating " +:+ proxy_type +:+ " (" +:+ codec +:+ "): " +:+ output_file) ;;;
  ffmpeg <- get_FFMPEG ;;
  use_libx264 <- get_USE_LIBX264 ;;
  let cmd := ffmpeg_command ffmpeg use_libx264 input_file output_file scale
               vbitrate abitrate codec codec_profile container crf preset tune in
  result <- run env (EvTranscode proxy_type cmd) cmd ;;
  (if Str.truthy (stderr result) then log (stderr result) else ret tt) ;;;
  if negb (returncode result =? 0)%Z then
    log ("ERROR: FFmpeg failed with exit code " +:+ Str.of_Z (returncode result)) ;;;
    ret false
  else
    log ("Successfully created: " +:+ output_file) ;;;
    ret true.

(** ** [main] *)

Section Main.
Variable env : Env.
Variable cfg : Config.

(** Which quality tiers are needed. *)
Definition need_preview : bool :=
  (ENABLE_P5_PREVIEW cfg && String.eqb (P5_PREVIEW_SOURCE cfg) "preview")
  || (ENABLE_WORKFLOW_STORE cfg && String.eqb (WORKFLOW_STORE_SOURCE cfg) "preview").

Definition need_workflow : bool :=
  (ENABLE_P5_PREVIEW cfg && String.eqb (P5_PREVIEW_SOURCE cfg) "workflow")
  || (ENABLE_WORKFLOW_STORE cfg && String.eqb (WORKFLOW_STORE_SOURCE cfg) "workflow").

(** Where the two tiers are encoded to in the temp area. *)
Definition preview_temp_path (input_file : string) : string :=
  let basename := posixpath.stem input_file in
  let ext := get_container (PREVIEW_CODEC cfg) (PREVIEW_CONTAINER cfg) in
  posixpath.join (AW_TEMP env) [basename +:+ "_preview." +:+ ext].

Definition workflow_temp_path (input_file : string) : string :=
  let basename := posixpath.stem input_file in
  let ext := get_container (WORKFLOW_CODEC cfg) (WORKFLOW_CONTAINER cfg) in
  posixpath.join (AW_TEMP env) [basename +:+ "_workflow." +:+ ext].

(** The encoder commands of the two tiers, for the encoder [ffmpeg]. *)
Definition preview_command (ffmpeg : string) (use_libx264 : bool)
    (input_file : string) : list string :=
  ffmpeg_command ffmpeg use_libx264 input_file (preview_temp_path input_file)
    (PREVIEW_SCALE cfg) (PREVIEW_VBITRATE cfg) (PREVIEW_ABITRATE cfg)
    (PREVIEW_CODEC cfg) (PREVIEW_CODEC_PROFILE cfg)
    (get_container (PREVIEW_CODEC cfg) (PREVIEW_CONTAINER cfg))
    (PREVIEW_CRF cfg) (PREVIEW_PRESET cfg) (PREVIEW_TUNE cfg).

Definition workflow_command (ffmpeg : string) (use_libx264 : bool)
    (input_file : string) : list string :=
  ffmpeg_command ffmpeg use_libx264 input_file (workflow_temp_path input_file)
    (WORKFLOW_SCALE cfg) (WORKFLOW_VBITRATE cfg) (WORKFLOW_ABITRATE cfg)
    (WORKFLOW_CODEC cfg) (WORKFLOW_CODEC_PROFILE cfg)
    (get_container (WORKFLOW_CODEC cfg) (WORKFLOW_CONTAINER cfg))
    (WORKFLOW_CRF cfg) (WORKFLOW_PRESET cfg) (WORKFLOW_TUNE cfg).

(** The artifact the workflow store copies and the one handed back when
    the preview output is enabled. *)
Definition store_source (preview_proxy_path workflow_proxy_path : string) : string :=
  if String.eqb (WORKFLOW_STORE_SOURCE cfg) "preview"
  then preview_proxy_path else workflow_proxy_path.

Definition preview_source (preview_proxy_path workflow_proxy_path : string) : string :=
  if String.eqb (P5_PREVIEW_SOURCE cfg) "preview"
  then preview_proxy_path else workflow_proxy_path.

(** Generate the preview quality proxy; the result is
    [preview_proxy_path]. *)
Definition generate_preview (input_file : string) : M string :=
  if need_preview then
    let ext := get_container (PREVIEW_CODEC cfg) (PREVIEW_CONTAINER cfg) in
    let preview_proxy_path := preview_temp_path input_file in
    ok <- generate_proxy env input_file preview_proxy_path
            (PREVIEW_SCALE cfg) (PREVIEW_VBITRATE cfg) (PREVIEW_ABITRATE cfg)
            "preview_quality" (PREVIEW_CODEC cfg) (PREVIEW_CODEC_PROFILE cfg)
            ext (PREVIEW_CRF cfg) (PREVIEW_PRESET cfg) (PREVIEW_TUNE cfg) ;;
    if ok : bool then ret preview_proxy_path
    else error_exit "Failed to generate preview quality proxy"
  else ret EmptyString.

(** Generate the workflow quality proxy; the result is
    [workflow_proxy_path]. *)
Definition generate_workflow (input_file : string) : M string :=
  if need_workflow then
    let ext := get_container (WORKFLOW_CODEC cfg) (WORKFLOW_CONTAINER cfg) in
    let workflow_proxy_path := workflow_temp_path input_file in
    ok <- generate_proxy env input_file workflow_proxy_path
            (WORKFLOW_SCALE cfg) (WORKFLOW_VBITRATE cfg) (WORKFLOW_ABITRATE cfg)
            "workflow_quality" (WORKFLOW_CODEC cfg) (WORKFLOW_CODEC_PROFILE cfg)
            ext (WORKFLOW_CRF cfg) (WORKFLOW_PRESET cfg) (WORKFLOW_TUNE cfg) ;;
    if ok : bool then ret workflow_proxy_path
    else error_exit "Failed to generate workflow quality proxy"
  else ret EmptyString.

(** Copy the workflow proxy to its destination. *)
Definition store_workflow (input_file preview_proxy_path workflow_proxy_path : string)
    : M unit :=
  if ENABLE_WORKFLOW_STORE cfg then
    let from_preview := String.eqb (WORKFLOW_STORE_SOURCE cfg) "preview" in
    let source_path :=
      if from_preview then preview_proxy_path else workflow_proxy_path in
    let ext :=
      get_container
        (if from_preview then PREVIEW_CODEC cfg else WORKFLOW_CODEC cfg)
        (if from_preview then PREVIEW_CONTAINER cfg else WORKFLOW_CONTAINER cfg) in
    let '(workflow_dest, warnings) := build_workflow_path cfg input_file ext in
    foldr (fun w k => log w ;;; k) (ret tt) warnings ;;;
    makedirs (posixpath.dirname workflow_dest) ;;;
    copy2 source_path workflow_dest ;;;
    log ("Stored workflow proxy: " +:+ workflow_dest)
  else ret tt.

(** Where the placeholder image goes. *)
Definition placeholder_path : string :=
  posixpath.join (AW_TEMP env)
    ["proxy_dummy_" +:+ Str.of_nat (getpid env) +:+ ".jpg"].

(** The command that makes the placeholder image. *)
Definition placeholder_command (ffmpeg return_path : string) : list string :=
  [ffmpeg; "-hide_banner"; "-loglevel"; "error"; "-f"; "lavfi";
   "-i"; "color=c=gray:s=64x64:d=1"; "-frames:v"; "1"; "-y"; return_path].

(** Determine which file to return to P5. *)
Definition choose_return (preview_proxy_path workflow_proxy_path : string)
    : M string :=
  if ENABLE_P5_PREVIEW cfg then
    ret (if String.eqb (P5_PREVIEW_SOURCE cfg) "preview"
         then preview_proxy_path else workflow_proxy_path)
  else
    let return_path := placeholder_path in
    ffmpeg <- get_FFMPEG ;;
    let cmd := placeholder_command ffmpeg return_path in
    run env (EvPlaceholder cmd) cmd ;;;
    log "P5 preview disabled, returning dummy image" ;;;
    ret return_path.

(** Verify that the return file exists. *)
Definition verify_return (return_path : string) : M unit :=
  return_is_file <- isfile return_path ;;
  if negb (Str.truthy return_path) || negb return_is_file
  then error_exit ("Return path invalid: " +:+ return_path)
  else ret tt.

(** Cleanup of the temp files not returned to P5: the loop over
    [[preview_proxy_path, workflow_proxy_path]]. *)
Definition cleanup_one (return_path path : string) : M unit :=
  is_file <- isfile path ;;
  if Str.truthy path && is_file && negb (String.eqb path return_path)
  then remove path
  else ret tt.

Definition cleanup (return_path : string) (paths : list string) : M unit :=
  foldr (fun path k => cleanup_one return_path path ;;; k) (ret tt) paths.

Definition main (argv : list string) : M unit :=
  match argv with
  | _ :: input_file :: _ =>
      init_ffmpeg env cfg ;;;
      log "========================================" ;;;
      log ("Processing: " +:+ input_file) ;;;
      input_is_file <- isfile input_file ;;
      (if input_is_file : bool then ret tt
       else error_exit ("Input file not found: " +:+ input_file)) ;;;
      preview_proxy_path <- generate_preview input_file ;;
      workflow_proxy_path <- generate_workflow input_file ;;
      store_workflow input_file preview_proxy_path workflow_proxy_path ;;;
      return_path <- choose_return preview_proxy_path workflow_proxy_path ;;
      verify_return return_path ;;;
      cleanup return_path [preview_proxy_path; workflow_proxy_path] ;;;
      log ("Returning to P5: " +:+ return_path) ;;;
      log "========================================" ;;;
      emit (EvPrint return_path)
  | _ => error_exit "No input file specified"
  end.

End Main.

(** The state at the start of the script, on the file set [fs]. *)
Definition initial_state (fs : gset string) : State :=
  {| files := fs; FFMPEG := None; USE_LIBX264 := false; trace := [] |}.

(** A whole run of the script on the file set [fs]: how it ends and the
    state it leaves. *)
Definition run_main (env : Env) (cfg : Config) (argv : list string)
    (fs : gset string) : Result unit * State :=
  main env cfg argv (initial_state fs).

(** The files at the time [main] checks its input, that is, after the
    probe of [init_ffmpeg]. *)
Definition files_at_check (env : Env) (cfg : Config) (fs : gset string)
    : gset string :=
  files (snd (init_ffmpeg env cfg (initial_state fs))).

(** ** Observations on a run *)

(** The encoder was started for a tier. *)
Definition is_transcode (e : Event) : bool :=
  match e with EvTranscode _ _ _ => true | _ => false end.

(** The transcode invocations of a trace, in order. *)
Definition transcodes (t : list Event) : list Event := List.filter is_transcode t.

(** The tiers the encoder was started for, by the name [generate_proxy]
    is given for them, in order. *)
Definition transcoded_tiers (t : list Event) : list string :=
  omap (fun e => match e with EvTranscode tier _ _ => Some tier | _ => None end) t.

(** The lines written to standard output. *)
Definition printed (t : list Event) : list string :=
  omap (fun e => match e with EvPrint l => Some l | _ => None end) t.

(** The source paths handed to [shutil.copy2]. *)
Definition copy_sources (t : list Event) : list string :=
  omap (fun e => match e with EvCopy s _ => Some s | _ => None end) t.

(** The external call returned 0. *)
Definition succeeded (result : option Completed) : bool :=
  match result with
  | Some r => (returncode r =? 0)%Z
  | None => false
  end.

(** Events that are neither a transcode, nor a copy, nor a line on
    standard output. *)
Definition quiet (e : Event) : bool :=
  match e with
  | EvTranscode _ _ _ | EvCopy _ _ | EvPrint _ => false
  | _ => true
  end.

(** The state [st] after more events, with the file set [fs]. *)
Definition extend (st : State) (fs : gset string) (evs : list Event) : State :=
  {| files := fs; FFMPEG := FFMPEG st; USE_LIBX264 := USE_LIBX264 st;
     trace := trace st ++ evs |}.

(** An encoder that does its job: it writes its last argument and
    returns 0 with nothing on its streams. *)
Definition ideal_encoder (cmd : list string) (fs : gset string)
    : option (Completed * gset string) :=
  Some ({| returncode := 0; stdout := EmptyString; stderr := EmptyString |},
        match last cmd with Some out => {[ out ]} ∪ fs | None => fs end).

Definition ideal_env : Env :=
  {| AW_TEMP := "/usr/local/aw/temp"; AW_BIN := "/usr/local/aw/bin";
     getpid := 4242; subprocess_run := ideal_encoder |}.

(** An encoder that always returns the code [rc] and writes nothing. *)
Definition failing_encoder (rc : Z) (cmd : list string) (fs : gset string)
    : option (Completed * gset string) :=
  Some ({| returncode := rc; stdout := EmptyString; stderr := "failed" |}, fs).

(** The source file and the file set of the examples. *)
Definition A001 : string :=
  "/Volumes/RAW/Projects/2024/BMW/Footage/A-Cam/A001.mov".

Definition A001_only : gset string := {[ A001 ]}.

(** Changing the output selection, resp. the path mapping, of a
    configuration. *)
Definition with_outputs (cfg : Config)
    (enable_preview : bool) (preview_source : string)
    (enable_workflow : bool) (workflow_source : string) : Config :=
  {| ENABLE_P5_PREVIEW := enable_preview;
     P5_PREVIEW_SOURCE := preview_source;
     ENABLE_WORKFLOW_STORE := enable_workflow;
     WORKFLOW_STORE_SOURCE := workflow_source;
     FFMPEG_PATH := FFMPEG_PATH cfg;
     WORKFLOW_PROJECT_FOLDER := WORKFLOW_PROJECT_FOLDER cfg;
     WORKFLOW_NEW_BASE := WORKFLOW_NEW_BASE cfg;
     WORKFLOW_REMOVE_LEVELS := WORKFLOW_REMOVE_LEVELS cfg;
     WORKFLOW_REPLACE_WITH := WORKFLOW_REPLACE_WITH cfg;
     PREVIEW_SCALE := PREVIEW_SCALE cfg;
     PREVIEW_ABITRATE := PREVIEW_ABITRATE cfg;
     PREVIEW_CODEC := PREVIEW_CODEC cfg;
     PREVIEW_CODEC_PROFILE := PREVIEW_CODEC_PROFILE cfg;
     PREVIEW_CONTAINER := PREVIEW_CONTAINER cfg;
     PREVIEW_VBITRATE := PREVIEW_VBITRATE cfg;
     PREVIEW_CRF := PREVIEW_CRF cfg;
     PREVIEW_PRESET := PREVIEW_PRESET cfg;
     PREVIEW_TUNE := PREVIEW_TUNE cfg;
     WORKFLOW_SCALE := WORKFLOW_SCALE cfg;
     WORKFLOW_ABITRATE := WORKFLOW_ABITRATE cfg;
     WORKFLOW_CODEC := WORKFLOW_CODEC cfg;
     WORKFLOW_CODEC_PROFILE := WORKFLOW_CODEC_PROFILE cfg;
     WORKFLOW_CONTAINER := WORKFLOW_CONTAINER cfg;
     WORKFLOW_VBITRATE := WORKFLOW_VBITRATE cfg;
     WORKFLOW_CRF := WORKFLOW_CRF cfg;
     WORKFLOW_PRESET := WORKFLOW_PRESET cfg;
     WORKFLOW_TUNE := WORKFLOW_TUNE cfg |}.

Definition with_rule (cfg : Config)
    (marker new_base : string) (levels : Z) (append : string) : Config :=
  {| ENABLE_P5_PREVIEW := ENABLE_P5_PREVIEW cfg;
     P5_PREVIEW_SOURCE := P5_PREVIEW_SOURCE cfg;
     ENABLE_WORKFLOW_STORE := ENABLE_WORKFLOW_STORE cfg;
     WORKFLOW_STORE_SOURCE := WORKFLOW_STORE_SOURCE cfg;
     FFMPEG_PATH := FFMPEG_PATH cfg;
     WORKFLOW_PROJECT_FOLDER := marker;
     WORKFLOW_NEW_BASE := new_base;
     WORKFLOW_REMOVE_LEVELS := levels;
     WORKFLOW_REPLACE_WITH := append;
     PREVIEW_SCALE := PREVIEW_SCALE cfg;
     PREVIEW_ABITRATE := PREVIEW_ABITRATE cfg;
     PREVIEW_CODEC := PREVIEW_CODEC cfg;
     PREVIEW_CODEC_PROFILE := PREVIEW_CODEC_PROFILE cfg;
     PREVIEW_CONTAINER := PREVIEW_CONTAINER cfg;
     PREVIEW_VBITRATE := PREVIEW_VBITRATE cfg;
     PREVIEW_CRF := PREVIEW_CRF cfg;
     PREVIEW_PRESET := PREVIEW_PRESET cfg;
     PREVIEW_TUNE := PREVIEW_TUNE cfg;
     WORKFLOW_SCALE := WORKFLOW_SCALE cfg;
     WORKFLOW_ABITRATE := WORKFLOW_ABITRATE cfg;
     WORKFLOW_CODEC := WORKFLOW_CODEC cfg;
     WORKFLOW_CODEC_PROFILE := WORKFLOW_CODEC_PROFILE cfg;
     WORKFLOW_CONTAINER := WORKFLOW_CONTAINER cfg;
     WORKFLOW_VBITRATE := WORKFLOW_VBITRATE cfg;
     WORKFLOW_CRF := WORKFLOW_CRF cfg;
     WORKFLOW_PRESET := WORKFLOW_PRESET cfg;
     WORKFLOW_TUNE := WORKFLOW_TUNE cfg |}.

(** ** Notions used to state the properties *)

Section Notions.
Import Str posixpath.

(** [c in s] for a character, used to say what a component is free of. *)
Fixpoint has_char (c : ascii) (s : string) : bool :=
  match s with
  | EmptyString => false
  | String a r => Ascii.eqb a c || has_char c r
  end.

(** The directory part that [join] puts before a relative component:
    the path itself when it is empty or ends with a slash, otherwise the
    path and a slash. *)
Definition dir_prefix (path : string) : string :=
  if negb (truthy path) || endswith path sep_str then path
  else path +:+ sep_str.

(** [p[:p.rfind(sep) + 1]], the first step of [dirname]. *)
Definition head_of (p : string) : string :=
  take (match rfind p sep with Some k => S k | None => 0 end) p.

(** An absolute path starts with a slash. *)
Definition absolute (p : string) : bool := startswith p sep_str.

(** The root: a nonempty path of slashes only. *)
Definition is_root (p : string) : bool := truthy p && all_char sep p.

(** No character of [s] is a slash or a backslash. *)
Fixpoint free_of_slashes (s : string) : bool :=
  match s with
  | EmptyString => true
  | String a r => negb (is_slash a) && free_of_slashes r
  end.

(** The components [l] as the rest of a path: each one after a slash. *)
Fixpoint rest_of_path (l : list string) : string :=
  match l with
  | [] => EmptyString
  | x :: l' => String sep (x +:+ rest_of_path l')
  end.

End Notions.

(** The file [path] was written by a call of the encoder, for a tier,
    that is in the trace [t] and returned 0. *)
Definition encoded_in (t : list Event) (path : string) : Prop :=
  exists proxy_type cmd result,
    In (EvTranscode proxy_type cmd (Some result)) t
    /\ returncode result = 0%Z
    /\ last cmd = Some path.

(** The tier artifacts a run on [input_file] produces in the temp area. *)
Definition produced_artifacts (env : Env) (cfg : Config) (input_file : string)
    : list string :=
  (if need_preview cfg then [preview_temp_path env cfg input_file] else [])
  ++ (if need_workflow cfg then [workflow_temp_path env cfg input_file] else []).

(** ** [aw_platform]

    The module is imported once; what it finds on the machine is a
    [Host]: the platform name, the flavour of [os.path] that goes with
    it, the directories that exist, the environment and the temp
    directory of [tempfile]. On macOS and Linux [os.path] is
    [posixpath]. *)

Record Host := {
  sys_platform : string;
  os_path_normpath : string -> string;
  os_path_join : string -> list string -> string;
  os_path_isdir : string -> bool;
  os_environ : gmap string string;
  tempfile_gettempdir : string
}.

(** A macOS or Linux host. *)
Definition posix_host (platform : string) (isdir : string -> bool)
    (environ : gmap string string) (tempdir : string) : Host :=
  {| sys_platform := platform;
     os_path_normpath := posixpath.normpath;
     os_path_join := posixpath.join;
     os_path_isdir := isdir;
     os_environ := environ;
     tempfile_gettempdir := tempdir |}.

Module aw_platform.
Import Str.

Section Paths.
Variable host : Host.

Definition win32 : bool := String.eqb (sys_platform host) "win32".

(** [_normalize_path] *)
Definition _normalize_path (path : string) : string :=
  let path :=
    if startswith path "{" && endswith path "}" then slice path 1 (-1)
    else path in
  if win32 && startswith path "/" && (2 <? String.length path)
     && bool_decide (String.get 2 path = Some "/"%char)
  then
    String (default "/"%char (String.get 1 path))
      (":" +:+ replace_char (drop 2 path) "/" backslash)
  else os_path_normpath host path.

(** The P5 installation path. *)
Definition AW_PATH : string :=
  match os_environ host !! "AWPST_SRV_HOME" with
  | Some home =>
      if truthy home then _normalize_path home
      else if win32
           then "C:\Program Files\ARCHIWARE\Data_Lifecycle_Management_Suite"
           else "/usr/local/aw"
  | None =>
      if win32
      then "C:\Program Files\ARCHIWARE\Data_Lifecycle_Management_Suite"
      else "/usr/local/aw"
  end.

(** The temp directory. *)
Definition AW_TEMP : string :=
  let AW_TEMP := os_path_join host AW_PATH ["temp"] in
  if negb (os_path_isdir host AW_TEMP) then tempfile_gettempdir host
  else AW_TEMP.

(** The binary directory. *)
Definition AW_BIN : string :=
  if win32 then os_path_join host AW_PATH ["bin"; "prevgen"]
  else os_path_join host AW_PATH ["bin"].

End Paths.

(** The globals of the logging part. *)
Record Globals := {
  _logfile : option string;
  DEBUG_MODE : bool
}.

Definition at_import : Globals := {| _logfile := None; DEBUG_MODE := false |}.

Definition set_logfile (host : Host) (name : string) (g : Globals) : Globals :=
  {| _logfile := Some (os_path_join host (AW_TEMP host) [name]);
     DEBUG_MODE := DEBUG_MODE g |}.

(** [log]: nothing without a log file; otherwise one line is appended
    to it (the time stamp is left out, and a failure to write is
    swallowed). *)
Definition log (g : Globals) (message : string) : M unit :=
  if negb (match _logfile g with Some f => truthy f | None => false end)
  then ret tt
  else emit (EvLog message).

Definition debug_log (g : Globals) (message : string) : M unit :=
  if DEBUG_MODE g then log g ("DEBUG: " +:+ message) else ret tt.

Definition error_exit {A} (g : Globals) (message : string) : M A :=
  log g ("ERROR: " +:+ message) ;;;
  fun st => (Stop (SysExit 1), st).

End aw_platform.

(** The surroundings of a run of the script on a host: the two paths
    are the ones [aw_platform] has computed. *)
Definition env_on (host : Host) (pid : nat)
    (processes : list string -> gset string -> option (Completed * gset string))
    : Env :=
  {| AW_TEMP := aw_platform.AW_TEMP host;
     AW_BIN := aw_platform.AW_BIN host;
     getpid := pid;
     subprocess_run := processes |}.

(** The globals of [aw_platform] once [p5_proxy_generator] is loaded:
    [aw.set_logfile("proxy_generator.log")]. *)
Definition script_globals (host : Host) : aw_platform.Globals :=
  aw_platform.set_logfile host "proxy_generator.log" aw_platform.at_import.

(** ** Notions used to state the properties of runs *)

(** The custom FFmpeg of the configuration is usable on the files [fs]:
    the path is set, it names a file, the probe can be started and its
    output mentions libx264. *)
Definition custom_ffmpeg_usable (env : Env) (cfg : Config) (fs : gset string)
    : bool :=
  Str.truthy (FFMPEG_PATH cfg) && bool_decide (FFMPEG_PATH cfg ∈ fs)
  && match subprocess_run env [FFMPEG_PATH cfg; "-encoders"] fs with
     | Some (result, _) => Str.contains (stdout result) "libx264"
     | None => false
     end.

(** The built-in FFmpeg of P5. *)
Definition builtin_ffmpeg (env : Env) : string :=
  posixpath.join (AW_BIN env) ["ffmpeg"].

(** The FFmpeg that [init_ffmpeg] chooses on the files [fs]. *)
Definition chosen_ffmpeg (env : Env) (cfg : Config) (fs : gset string) : string :=
  if custom_ffmpeg_usable env cfg fs then FFMPEG_PATH cfg else builtin_ffmpeg env.

(** Surroundings in which every external process returns [rc] and
    writes nothing. *)
Definition failing_env (rc : Z) : Env :=
  {| AW_TEMP := AW_TEMP ideal_env; AW_BIN := AW_BIN ideal_env;
     getpid := getpid ideal_env; subprocess_run := failing_encoder rc |}.

(** The external processes never take a file away. *)
Definition monotone (env : Env) : Prop :=
  forall cmd fs result fs',
    subprocess_run env cmd fs = Some (result, fs') -> fs ⊆ fs'.

(** The process started with [cmd] does what an encoder is for: on any
    files it can be started, returns 0, has written the file named last
    on its command line, and has taken no file away. *)
Definition encodes (env : Env) (cmd : list string) : Prop :=
  forall fs, exists result fs',
    subprocess_run env cmd fs = Some (result, fs')
    /\ returncode result = 0%Z
    /\ fs ⊆ fs'
    /\ (forall out, last cmd = Some out -> out ∈ fs').

(** A directory part as [join] makes it: empty, or ending with a
    slash. *)
Definition dir_like (d : string) : Prop :=
  d = EmptyString \/ Str.endswith d posixpath.sep_str = true.

(** [stem] in terms of the name. *)
Definition stem_of_name (nm : string) : string :=
  match Str.rfind nm "."%char with
  | Some i =>
      if (0 <? i) && (i <? String.length nm - 1) then Str.take i nm else nm
  | None => nm
  end.

(** The suffix [build_workflow_path] gives the base name of the mapped
    file. *)
Definition proxy_suffix (cfg : Config) (src_file : string) : string :=
  if String.eqb (posixpath.normpath (fst (workflow_target_dir cfg src_file)))
       (posixpath.normpath (posixpath.dirname src_file))
  then "_proxy" else EmptyString.

(** The container of the artifact that is copied to the workflow store
    (the argument of [get_container] in the store block of [main]). *)
Definition store_container (cfg : Config) : string :=
  get_container
    (if String.eqb (WORKFLOW_STORE_SOURCE cfg) "preview"
     then PREVIEW_CODEC cfg else WORKFLOW_CODEC cfg)
    (if String.eqb (WORKFLOW_STORE_SOURCE cfg) "preview"
     then PREVIEW_CONTAINER cfg else WORKFLOW_CONTAINER cfg).

(** [workflow_dest] of [main]. *)
Definition workflow_dest (cfg : Config) (input_file : string) : string :=
  fst (build_workflow_path cfg input_file (store_container cfg)).

Section RunNotions.
Variable env : Env.
Variable cfg : Config.
Variable input_file : string.

(** The values of [preview_proxy_path] and [workflow_proxy_path] once
    the two encode blocks of [main] are passed. *)
Definition preview_artifact : string :=
  if need_preview cfg then preview_temp_path env cfg input_file else EmptyString.

Definition workflow_artifact : string :=
  if need_workflow cfg then workflow_temp_path env cfg input_file else EmptyString.

(** The value of [return_path]. *)
Definition return_artifact : string :=
  if ENABLE_P5_PREVIEW cfg
  then preview_source cfg preview_artifact workflow_artifact
  else placeholder_path env.

(** What a run on [input_file], started on the files [fs], may do to the
    outside before the cleanup. *)
Definition permitted (fs : gset string) (e : Event) : Prop :=
  match e with
  | EvLog _ => True
  | EvProbe cmd _ => cmd = [FFMPEG_PATH cfg; "-encoders"]
  | EvMakedirs path =>
      path = posixpath.dirname (preview_temp_path env cfg input_file)
      \/ path = posixpath.dirname (workflow_temp_path env cfg input_file)
      \/ path = posixpath.dirname (workflow_dest cfg input_file)
  | EvTranscode proxy_type cmd _ =>
      (proxy_type = "preview_quality" /\ need_preview cfg = true
       /\ cmd = preview_command env cfg (chosen_ffmpeg env cfg fs)
                  (custom_ffmpeg_usable env cfg fs) input_file)
      \/ (proxy_type = "workflow_quality" /\ need_workflow cfg = true
          /\ cmd = workflow_command env cfg (chosen_ffmpeg env cfg fs)
                     (custom_ffmpeg_usable env cfg fs) input_file)
  | EvPlaceholder cmd _ =>
      ENABLE_P5_PREVIEW cfg = false
      /\ cmd = placeholder_command (chosen_ffmpeg env cfg fs)
                 (placeholder_path env)
  | EvCopy source_path dest =>
      ENABLE_WORKFLOW_STORE cfg = true
      /\ source_path = store_source cfg preview_artifact workflow_artifact
      /\ dest = workflow_dest cfg input_file
  | EvRemove _ => False
  | EvPrint _ => False
  end.

(** The cleanup removes tier artifacts other than the return path. *)
Definition cleanup_event (e : Event) : Prop :=
  match e with
  | EvRemove path =>
      (path = preview_temp_path env cfg input_file
       \/ path = workflow_temp_path env cfg input_file)
      /\ path <> return_artifact
  | _ => False
  end.

(** The messages [main] hands to [error_exit] once it has an input
    file. *)
Definition error_messages : list string :=
  ["Input file not found: " +:+ input_file;
   "Failed to generate preview quality proxy";
   "Failed to generate workflow quality proxy";
   "Return path invalid: " +:+ return_artifact].

(** How a run can stop early, told by the last thing it did. *)
Definition explained (h : Halt) (st : State) : Prop :=
  match h with
  | SysExit code =>
      code = 1%Z
      /\ exists message,
           In message error_messages
           /\ last (trace st) = Some (EvLog ("ERROR: " +:+ message))
  | Uncaught exception =>
      (exception = "OSError"
       /\ exists cmd,
            (exists proxy_type,
               last (trace st) = Some (EvTranscode proxy_type cmd None))
            \/ last (trace st) = Some (EvPlaceholder cmd None))
      \/ (exception = "FileNotFoundError"
          /\ (last (trace st) = Some (EvMakedirs EmptyString)
              \/ exists source_path dest,
                   last (trace st) = Some (EvCopy source_path dest)
                   /\ source_path ∉ files st))
      \/ (exception = "SameFileError"
          /\ exists path, last (trace st) = Some (EvCopy path path))
  end.

Variable fs0 : gset string.

(** The invariant of a run, started on the files [fs0], up to the
    cleanup; on the four parts of the state. *)
Definition inv4 (fs : gset string) (f : option string) (u : bool)
    (t : list Event) : Prop :=
  f = Some (chosen_ffmpeg env cfg fs0)
  /\ u = custom_ffmpeg_usable env cfg fs0
  /\ Forall (permitted fs0) t
  /\ (monotone env -> fs0 ⊆ fs).

Definition inv (st : State) : Prop :=
  inv4 (files st) (FFMPEG st) (USE_LIBX264 st) (trace st).

(** A run that has stopped early. *)
Definition stopped (h : Halt) (st : State) : Prop :=
  inv st /\ explained h st.

(** The state of a run after the cleanup. *)
Definition cleaned (st : State) : Prop :=
  exists pre rms,
    trace st = pre ++ rms
    /\ Forall (permitted fs0) pre
    /\ Forall cleanup_event rms
    /\ return_artifact ∈ files st
    /\ (forall path, In (EvRemove path) rms -> path ∉ files st)
    /\ (monotone env ->
        forall x, x ∈ fs0 ->
          x <> preview_temp_path env cfg input_file ->
          x <> workflow_temp_path env cfg input_file -> x ∈ files st)
    /\ Str.truthy return_artifact = true.

(** The state of a run that has ended normally. *)
Definition finished (st : State) : Prop :=
  exists pre rms,
    trace st
    = pre ++ rms
      ++ [EvLog ("Returning to P5: " +:+ return_artifact);
          EvLog "========================================";
          EvPrint return_artifact]
    /\ Forall (permitted fs0) pre
    /\ Forall cleanup_event rms
    /\ return_artifact ∈ files st
    /\ (forall path, In (EvRemove path) rms -> path ∉ files st)
    /\ (monotone env ->
        forall x, x ∈ fs0 ->
          x <> preview_temp_path env cfg input_file ->
          x <> workflow_temp_path env cfg input_file -> x ∈ files st)
    /\ Str.truthy return_artifact = true.

(** [FFMPEG] is set as [init_ffmpeg] has chosen on [fs0]. *)
Definition ready (st : State) : Prop :=
  FFMPEG st = Some (chosen_ffmpeg env cfg fs0)
  /\ USE_LIBX264 st = custom_ffmpeg_usable env cfg fs0.

End RunNotions.

(** ** Specifications of computations *)

(** From a state that satisfies [P], the computation [m] ends with a
    value and a state that satisfy [Q], or stops in a state that
    satisfies [E]. *)
Definition hoare {A} (P : State -> Prop) (m : M A)
    (Q : A -> State -> Prop) (E : Halt -> State -> Prop) : Prop :=
  forall st, P st ->
    match m st with
    | (Ok a, st') => Q a st'
    | (Stop h, st') => E h st'
    end.


(** ** Reading an argument list *)


(** The value FFmpeg reads for the option [opt] from a list of options,
    each followed by its value. *)
Fixpoint option_value (opt : string) (args : list string) : option string :=
  match args with
  | o :: v :: rest => if String.eqb o opt then Some v else option_value opt rest
  | _ => None
  end.

(** ** The phases of a run *)

Definition is_log (e : Event) : bool :=
  match e with EvLog _ => true | _ => false end.
Definition is_probe (e : Event) : bool :=
  match e with EvProbe _ _ => true | _ => false end.
Definition is_makedirs (e : Event) : bool :=
  match e with EvMakedirs _ => true | _ => false end.
Definition is_transcode_of (tier : string) (e : Event) : bool :=
  match e with EvTranscode t _ _ => String.eqb t tier | _ => false end.
Definition is_placeholder (e : Event) : bool :=
  match e with EvPlaceholder _ _ => true | _ => false end.
Definition is_copy (e : Event) : bool :=
  match e with EvCopy _ _ => true | _ => false end.
Definition is_remove (e : Event) : bool :=
  match e with EvRemove _ => true | _ => false end.
Definition is_print (e : Event) : bool :=
  match e with EvPrint _ => true | _ => false end.

(** How many events of a kind there are. *)
Definition occurrences (kind : Event -> bool) (evs : list Event) : nat :=
  length (List.filter kind evs).

(** [init_ffmpeg], the opening lines of the log and the check of the
    input file: log lines and at most one probe. *)
Definition startup_phase (evs : list Event) : bool :=
  forallb (fun e => is_log e || is_probe e) evs
  && (occurrences is_probe evs <=? 1).

(** The encode of one tier: log lines, at most one directory and at
    most one call of the encoder, for that tier. *)
Definition encode_phase (tier : string) (evs : list Event) : bool :=
  forallb (fun e => is_log e || is_makedirs e || is_transcode_of tier e) evs
  && (occurrences is_makedirs evs <=? 1)
  && (occurrences is_transcode evs <=? 1).

(** The workflow store: log lines, at most one directory and at most
    one copy. *)
Definition store_phase (evs : list Event) : bool :=
  forallb (fun e => is_log e || is_makedirs e || is_copy e) evs
  && (occurrences is_makedirs evs <=? 1)
  && (occurrences is_copy evs <=? 1).

(** The choice of the return path: at most the placeholder process and
    one log line. *)
Definition choose_phase (evs : list Event) : bool :=
  forallb (fun e => is_log e || is_placeholder e) evs
  && (occurrences is_placeholder evs <=? 1)
  && (length evs <=? 2).

(** The check of the return path: at most the error line. *)
Definition verify_phase (evs : list Event) : bool :=
  forallb is_log evs && (length evs <=? 1).

(** The cleanup: at most two removals. *)
Definition cleanup_phase (evs : list Event) : bool :=
  forallb is_remove evs && (length evs <=? 2).

(** The end: nothing, or two log lines and the line on standard
    output. *)
Definition finish_phase (evs : list Event) : bool :=
  match evs with
  | [] => true
  | [EvLog _; EvLog _; EvPrint _] => true
  | _ => false
  end.

(** The computation ended with a value. *)
Definition ended {A} (r : Result A) : bool :=
  match r with Ok _ => true | Stop _ => false end.

(** The computation [m] only adds events to the trace, and what it adds
    satisfies [good], which is told whether [m] ended with a value. *)
Definition appends {A} (m : M A) (good : bool -> list Event -> Prop) : Prop :=
  forall st, exists evs,
    trace (snd (m st)) = trace st ++ evs /\ good (ended (fst (m st))) evs.

(** The place of an event in the order of a run; log lines and
    directories have none. *)
Definition step_of (e : Event) : option nat :=
  match e with
  | EvLog _ | EvMakedirs _ => None
  | EvProbe _ _ => Some 0
  | EvTranscode tier _ _ => Some (if String.eqb tier "preview_quality" then 1 else 2)
  | EvCopy _ _ => Some 3
  | EvPlaceholder _ _ => Some 4
  | EvRemove _ => Some 5
  | EvPrint _ => Some 6
  end.

Fixpoint nondecreasing (l : list nat) : bool :=
  match l with
  | a :: (b :: _) as rest => (a <=? b) && nondecreasing rest
  | _ => true
  end.

(** The part of [main] before the encodes. *)
Definition main_startup (env : Env) (cfg : Config) (input_file : string)
    : M unit :=
  init_ffmpeg env cfg ;;;
  log "========================================" ;;;
  log ("Processing: " +:+ input_file) ;;;
  input_is_file <- isfile input_file ;;
  (if input_is_file : bool then ret tt
   else error_exit ("Input file not found: " +:+ input_file)).

(** The part of [main] after the cleanup. *)
Definition main_finish (return_path : string) : M unit :=
  log ("Returning to P5: " +:+ return_path) ;;;
  log "========================================" ;;;
  emit (EvPrint return_path).

(** The events of a run, phase by phase. *)
Definition in_phases (ok : bool) (evs : list Event) : Prop :=
  exists startup preview workflow store choice check cleanup finish,
    evs = startup ++ preview ++ workflow ++ store ++ choice ++ check
          ++ cleanup ++ finish
    /\ startup_phase startup = true
    /\ encode_phase "preview_quality" preview = true
    /\ encode_phase "workflow_quality" workflow = true
    /\ store_phase store = true
    /\ choose_phase choice = true
    /\ verify_phase check = true
    /\ cleanup_phase cleanup = true
    /\ finish_phase finish = true
    /\ (ok = true <-> finish <> []).

(** ** The files a run creates *)

(** The file an FFmpeg command line writes: the script ends the command
    lines that write one with [-y] and the path. *)
Fixpoint ends_with_output (args : list string) : option string :=
  match args with
  | [] => None
  | [o; out] => if String.eqb o "-y" then Some out else None
  | _ :: rest => ends_with_output rest
  end.

Definition output_of (cmd : list string) : option string :=
  match cmd with
  | [] => None
  | _ :: args => ends_with_output args
  end.

(** The external processes create no file but the one their command
    line names. *)
Definition contained (env : Env) : Prop :=
  forall cmd fs result fs',
    subprocess_run env cmd fs = Some (result, fs') ->
    forall x, x ∈ fs' -> x ∈ fs \/ output_of cmd = Some x.

(** The computation [m] creates no files but those in [created]. *)
Definition creates {A} (m : M A) (created : gset string) : Prop :=
  forall st x, x ∈ files (snd (m st)) -> x ∈ files st \/ x ∈ created.

(** What a run on [input_file] may create. *)
Definition created_files (env : Env) (cfg : Config) (input_file : string)
    : gset string :=
  (if need_preview cfg then {[ preview_temp_path env cfg input_file ]} else ∅)
  ∪ (if need_workflow cfg then {[ workflow_temp_path env cfg input_file ]} else ∅)
  ∪ (if ENABLE_WORKFLOW_STORE cfg then {[ workflow_dest cfg input_file ]} else ∅)
  ∪ (if ENABLE_P5_PREVIEW cfg then ∅ else {[ placeholder_path env ]}).

(** An FFmpeg that writes the file its command line names, and nothing
    else, and returns 0. *)
Definition writing_encoder (cmd : list string) (fs : gset string)
    : option (Completed * gset string) :=
  Some ({| returncode := 0; stdout := EmptyString; stderr := EmptyString |},
        match output_of cmd with Some out => {[ out ]} ∪ fs | None => fs end).

Definition writing_env : Env :=
  {| AW_TEMP := AW_TEMP ideal_env; AW_BIN := AW_BIN ideal_env;
     getpid := getpid ideal_env; subprocess_run := writing_encoder |}.

(** * Checks of the path functions on examples *)

Example dirname_ex1 :
  posixpath.dirname "/Volumes/RAW/Projects/2024/A001.mov" = "/Volumes/RAW/Projects/2024".
Proof. reflexivity. Qed.

Example dirname_ex2 : posixpath.dirname "/a//b" = "/a" /\ posixpath.dirname "/" = "/"
  /\ posixpath.dirname "a" = EmptyString /\ posixpath.dirname "//a" = "//".
Proof. repeat split. Qed.

Example normpath_ex :
  posixpath.normpath "/a/./b/../c//d/" = "/a/c/d"
  /\ posixpath.normpath "//a" = "//a" /\ posixpath.normpath "///a" = "/a"
  /\ posixpath.normpath "../x/.." = ".." /\ posixpath.normpath "/.." = "/"
  /\ posixpath.normpath EmptyString = ".".
Proof. vm_compute. repeat split. Qed.

Example stem_ex :
  posixpath.stem "/a/b/A001.mov" = "A001" /\ posixpath.stem "x.tar.gz" = "x.tar"
  /\ posixpath.stem ".bashrc" = ".bashrc" /\ posixpath.stem "a." = "a."
  /\ posixpath.stem "/a/b/" = "b".
Proof. vm_compute. repeat split. Qed.

(** * Facts about the string and path operations *)

Section StringFacts.
Import Str.

Lemma str_app_cons (a : ascii) (s t : string) :
  String a s +:+ t = String a (s +:+ t).
Proof. reflexivity. Qed.

Lemma str_app_nil_l (s : string) : EmptyString +:+ s = s.
Proof. reflexivity. Qed.

Lemma str_app_nil_r (s : string) : s +:+ EmptyString = s.
Proof. induction s as [|a s IH]; [reflexivity|]. rewrite str_app_cons, IH. reflexivity. Qed.

Lemma str_app_assoc (s t u : string) : (s +:+ t) +:+ u = s +:+ (t +:+ u).
Proof.
  induction s as [|a s IH]; [reflexivity|]. rewrite !str_app_cons, IH. reflexivity.
Qed.

Lemma str_length_app (s t : string) :
  String.length (s +:+ t) = String.length s + String.length t.
Proof.
  induction s as [|a s IH]; [reflexivity|]. rewrite str_app_cons. simpl. lia.
Qed.

Lemma truthy_true (s : string) : truthy s = true <-> s <> EmptyString.
Proof. destruct s; simpl; split; congruence. Qed.

Lemma truthy_app_r (s t : string) : truthy t = true -> truthy (s +:+ t) = true.
Proof. destruct s; [rewrite str_app_nil_l; auto | reflexivity]. Qed.

Lemma has_char_app (c : ascii) (s t : string) :
  has_char c (s +:+ t) = has_char c s || has_char c t.
Proof.
  induction s as [|a s IH]; [reflexivity|].
  rewrite str_app_cons. simpl. rewrite IH, orb_assoc. reflexivity.
Qed.

Lemma has_char_take (c : ascii) (n : nat) (s : string) :
  has_char c s = false -> has_char c (take n s) = false.
Proof.
  revert n. induction s as [|a s IH]; intros [|n] H; simpl in *; try reflexivity.
  apply orb_false_iff in H as [Ha Hs]. rewrite Ha, (IH n Hs). reflexivity.
Qed.

(** The pieces of [split] are free of the separator. *)
Lemma split_has_char (c : ascii) (s x : string) :
  In x (split s c) -> has_char c x = false.
Proof.
  revert x. induction s as [|a s IH]; intros x Hx; simpl in Hx.
  - destruct Hx as [<-|[]]. reflexivity.
  - destruct (Ascii.eqb a c) eqn:Hac.
    + destruct Hx as [<-|Hx]; [reflexivity | apply IH, Hx].
    + destruct (split s c) as [|y ys] eqn:Hsp.
      * destruct Hx as [<-|[]]. simpl. rewrite Hac. reflexivity.
      * destruct Hx as [<-|Hx].
        -- simpl. rewrite Hac. apply IH. left. reflexivity.
        -- apply IH. right. exact Hx.
Qed.

(** The pieces of [split] only have characters of the string. *)
Lemma split_keeps_free (c d : ascii) (s x : string) :
  has_char d s = false -> In x (split s c) -> has_char d x = false.
Proof.
  revert x. induction s as [|a s IH]; intros x Hd Hx; simpl in Hx, Hd.
  - destruct Hx as [<-|[]]. reflexivity.
  - apply orb_false_iff in Hd as [Had Hd].
    destruct (Ascii.eqb a c).
    + destruct Hx as [<-|Hx]; [reflexivity | apply IH; assumption].
    + destruct (split s c) as [|y ys] eqn:Hsp.
      * destruct Hx as [<-|[]]. simpl. rewrite Had. reflexivity.
      * destruct Hx as [<-|Hx].
        -- simpl. rewrite Had. apply IH; [assumption | left; reflexivity].
        -- apply IH; [assumption | right; exact Hx].
Qed.

Lemma split_nonempty (c : ascii) (s : string) : split s c <> [].
Proof.
  destruct s as [|a s]; simpl; [discriminate|].
  destruct (Ascii.eqb a c); [discriminate|].
  destruct (split s c); discriminate.
Qed.

(** Joining the pieces gives the string back. *)
Lemma join_split (c : ascii) (s : string) :
  join_with (String c EmptyString) (split s c) = s.
Proof.
  induction s as [|a s IH]; [reflexivity|].
  simpl. destruct (Ascii.eqb_spec a c) as [->|Hne].
  - pose proof (split_nonempty c s) as Hn.
    destruct (split s c) as [|y ys]; [congruence|].
    change (join_with (String c EmptyString) (EmptyString :: y :: ys))
      with (EmptyString +:+ String c EmptyString
            +:+ join_with (String c EmptyString) (y :: ys)).
    rewrite IH. reflexivity.
  - pose proof (split_nonempty c s) as Hn.
    destruct (split s c) as [|y ys]; [congruence|].
    destruct ys as [|z zs].
    + simpl in IH. simpl. rewrite IH. reflexivity.
    + change (join_with (String c EmptyString) (String a y :: z :: zs))
        with (String a y +:+ String c EmptyString
              +:+ join_with (String c EmptyString) (z :: zs)).
      change (join_with (String c EmptyString) (y :: z :: zs))
        with (y +:+ String c EmptyString
              +:+ join_with (String c EmptyString) (z :: zs)) in IH.
      rewrite str_app_cons, IH. reflexivity.
Qed.

Lemma startswith_cons (a b : ascii) (s : string) :
  startswith (String a s) (String b EmptyString) = Ascii.eqb b a.
Proof.
  unfold startswith. simpl.
  destruct (ascii_dec b a) as [->|Hne].
  - rewrite Ascii.eqb_refl. destruct s; reflexivity.
  - apply Ascii.eqb_neq in Hne. rewrite Hne. reflexivity.
Qed.

Lemma startswith_app_free (c : ascii) (s t : string) :
  has_char c s = false ->
  startswith t (String c EmptyString) = false ->
  startswith (s +:+ t) (String c EmptyString) = false.
Proof.
  intros Hs Ht. destruct s as [|a s]; [exact Ht|].
  rewrite str_app_cons, startswith_cons.
  simpl in Hs. apply orb_false_iff in Hs as [Ha _].
  rewrite Ascii.eqb_sym. exact Ha.
Qed.

Lemma endswith_refl (s : string) : endswith s s = true.
Proof. destruct s; cbn [endswith]; rewrite String.eqb_refl; reflexivity. Qed.

Lemma endswith_app (s t : string) : endswith (s +:+ t) t = true.
Proof.
  induction s as [|a s IH]; [apply endswith_refl|].
  rewrite str_app_cons. cbn [endswith]. rewrite IH. apply orb_true_r.
Qed.

Lemma endswith_app_r (s t suf : string) :
  endswith t suf = true -> endswith (s +:+ t) suf = true.
Proof.
  intros H. induction s as [|a s IH]; [exact H|].
  rewrite str_app_cons. cbn [endswith]. rewrite IH. apply orb_true_r.
Qed.

(** A string free of [c] does not end with a suffix that has [c]. *)
Lemma endswith_free (c : ascii) (s suf : string) :
  has_char c s = false -> has_char c suf = true -> endswith s suf = false.
Proof.
  intros Hs Hsuf. induction s as [|a s IH].
  - destruct suf; [discriminate | reflexivity].
  - simpl in Hs. apply orb_false_iff in Hs as [Ha Hs'].
    cbn [endswith]. rewrite (IH Hs'), orb_false_r.
    apply String.eqb_neq. intros <-. simpl in Hsuf. rewrite Ha, Hs' in Hsuf.
    discriminate.
Qed.

(** A string that ends in a nonempty piece free of [c] does not end
    with [c]. *)
Lemma endswith_sep_app_free (c : ascii) (s t : string) :
  has_char c t = false -> t <> EmptyString ->
  endswith (s +:+ t) (String c EmptyString) = false.
Proof.
  intros Ht Hne. induction s as [|a s IH].
  - rewrite str_app_nil_l. apply endswith_free with c; [exact Ht|].
    simpl. rewrite Ascii.eqb_refl. reflexivity.
  - rewrite str_app_cons. cbn [endswith]. rewrite IH, orb_false_r.
    apply String.eqb_neq. intros Heq. injection Heq as _ Heq.
    destruct s; [rewrite str_app_nil_l in Heq; contradiction | discriminate].
Qed.

End StringFacts.

Section PathFacts.
Import Str posixpath.

Lemma join2_relative (path b : string) :
  startswith b sep_str = false -> join2 path b = dir_prefix path +:+ b.
Proof.
  intros Hb. unfold join2, dir_prefix. rewrite Hb.
  destruct (negb (truthy path) || endswith path sep_str); [reflexivity|].
  rewrite str_app_assoc. reflexivity.
Qed.

Lemma name_free (p : string) : has_char sep (name p) = false.
Proof.
  unfold name.
  destruct (last _) as [x|] eqn:Hl; [|reflexivity].
  simpl. apply last_Some_elem_of, list_elem_of_In, filter_In in Hl as [Hin _].
  eapply split_has_char, Hin.
Qed.

(** The stem of a path has no slash. *)
Lemma stem_free (p : string) : has_char sep (stem p) = false.
Proof.
  unfold stem. pose proof (name_free p) as Hn.
  destruct (rfind (name p) ".") as [i|]; [|exact Hn].
  destruct (_ && _); [apply has_char_take, Hn | exact Hn].
Qed.

(** A file name built from the stem is relative. *)
Lemma stem_app_relative (p t : string) :
  startswith t sep_str = false -> startswith (stem p +:+ t) sep_str = false.
Proof. apply startswith_app_free, stem_free. Qed.

(** *** [dirname] *)

Lemma dirname_head (p : string) :
  dirname p =
  if truthy (head_of p) && negb (all_char sep (head_of p))
  then rstrip (head_of p) sep else head_of p.
Proof. reflexivity. Qed.

Lemma head_of_cons (a : ascii) (r : string) :
  head_of (String a r) =
  match rfind r sep with
  | Some _ => String a (head_of r)
  | None => if Ascii.eqb a sep then String a EmptyString else EmptyString
  end.
Proof.
  unfold head_of. simpl. destruct (rfind r sep) as [k|]; [reflexivity|].
  destruct (Ascii.eqb a sep); reflexivity.
Qed.

Lemma rfind_all_char (c : ascii) (s : string) :
  all_char c s = true -> s <> EmptyString -> exists k, rfind s c = Some k.
Proof.
  destruct s as [|a r]; [congruence|]. intros H _. simpl in *.
  apply andb_true_iff in H as [Ha _]. rewrite Ha.
  destruct (rfind r c); eauto.
Qed.

Lemma head_of_all_char (s : string) : all_char sep s = true -> head_of s = s.
Proof.
  induction s as [|a r IH]; [reflexivity|]. intros H.
  rewrite head_of_cons. simpl in H. apply andb_true_iff in H as [Ha Hr].
  rewrite Ha. destruct r as [|b r'].
  - reflexivity.
  - destruct (rfind_all_char sep (String b r') Hr) as [k ->]; [discriminate|].
    rewrite (IH Hr). reflexivity.
Qed.

(** A path of slashes only is its own parent. *)
Lemma dirname_all_char (d : string) : all_char sep d = true -> dirname d = d.
Proof.
  intros H. rewrite dirname_head, (head_of_all_char d H), H.
  rewrite andb_false_r. reflexivity.
Qed.

Lemma head_of_nonempty (r : string) (k : nat) :
  rfind r sep = Some k -> head_of r <> EmptyString.
Proof.
  intros H. unfold head_of. rewrite H. destruct r; [discriminate | discriminate].
Qed.

Lemma length_head_of (p : string) : String.length (head_of p) <= String.length p.
Proof.
  induction p as [|a r IH]; [reflexivity|].
  rewrite head_of_cons. destruct (rfind r sep).
  - simpl. lia.
  - destruct (Ascii.eqb a sep); simpl; lia.
Qed.

(** A prefix as long as the string is the string. *)
Lemma head_of_full (p : string) :
  String.length (head_of p) = String.length p -> head_of p = p.
Proof.
  induction p as [|a r IH]; [reflexivity|].
  rewrite head_of_cons. destruct (rfind r sep) eqn:Hr.
  - simpl. intros H. injection H as H. rewrite (IH H). reflexivity.
  - destruct (Ascii.eqb a sep); simpl; intros H; [|discriminate].
    destruct r; [reflexivity | discriminate].
Qed.

Lemma rstrip_empty_all (c : ascii) (s : string) :
  rstrip s c = EmptyString -> all_char c s = true.
Proof.
  induction s as [|a r IH]; [reflexivity|]. simpl.
  destruct (rstrip r c) eqn:Hr; [|discriminate].
  destruct (Ascii.eqb a c); [intros _; apply IH; reflexivity | discriminate].
Qed.

(** The head ends with the separator, so stripping it makes it shorter. *)
Lemma length_rstrip_head (p : string) :
  head_of p <> EmptyString ->
  String.length (rstrip (head_of p) sep) < String.length p.
Proof.
  induction p as [|a r IH]; [intros H; exfalso; apply H; reflexivity|].
  rewrite head_of_cons. destruct (rfind r sep) as [k|] eqn:Hr.
  - intros _. specialize (IH (head_of_nonempty r k Hr)).
    cbn [rstrip]. destruct (rstrip (head_of r) sep) as [|b r'].
    + destruct (Ascii.eqb a sep); simpl in *; lia.
    + simpl in *. lia.
  - destruct (Ascii.eqb a sep) eqn:Ha; [|intros H; exfalso; apply H; reflexivity].
    intros _. simpl. rewrite Ha. simpl. lia.
Qed.

(** A path that is not slashes only gets shorter. *)
Lemma dirname_shorter (d : string) :
  all_char sep d = false -> String.length (dirname d) < String.length d.
Proof.
  intros Hd. rewrite dirname_head.
  destruct (truthy (head_of d)) eqn:Ht; simpl.
  - destruct (all_char sep (head_of d)) eqn:Ha; simpl.
    + pose proof (length_head_of d) as Hle.
      destruct (Nat.eq_dec (String.length (head_of d)) (String.length d)) as [He|]; [|lia].
      rewrite (head_of_full d He) in Ha. congruence.
    + apply length_rstrip_head. apply truthy_true, Ht.
  - destruct (head_of d); [|discriminate]. destruct d; [discriminate | simpl; lia].
Qed.

Lemma rstrip_keeps_first (c a : ascii) (r : string) :
  all_char c (String a r) = false ->
  exists r', rstrip (String a r) c = String a r'.
Proof.
  intros H. cbn [rstrip]. destruct (rstrip r c) as [|b r'] eqn:Hr; [|eauto].
  apply rstrip_empty_all in Hr. simpl in H. rewrite Hr, andb_true_r in H.
  rewrite H. eauto.
Qed.

(** The parent of an absolute path is absolute. *)
Lemma dirname_absolute (d : string) :
  startswith d sep_str = true -> startswith (dirname d) sep_str = true.
Proof.
  unfold sep_str. destruct d as [|a r]; [discriminate|].
  rewrite startswith_cons. intros Ha. apply Ascii.eqb_eq in Ha as <-.
  rewrite dirname_head.
  assert (Hh : exists h, head_of (String sep r) = String sep h).
  { rewrite head_of_cons. destruct (rfind r sep); simpl; eauto. }
  destruct Hh as [h Hh]. rewrite Hh. cbn [truthy andb].
  destruct (all_char sep (String sep h)) eqn:Hall; cbn [negb].
  - apply startswith_cons.
  - destruct (rstrip_keeps_first sep sep h Hall) as [r' ->]. apply startswith_cons.
Qed.

End PathFacts.


Section JoinFacts.
Import Str posixpath.

Lemma rfind_has_char (c : ascii) (s : string) :
  has_char c s = true -> exists k, rfind s c = Some k.
Proof.
  induction s as [|a r IH]; [discriminate|]. simpl.
  destruct (has_char c r).
  - destruct IH as [k ->]; eauto.
  - rewrite orb_false_r. intros ->. destruct (rfind r c); eauto.
Qed.

Lemma startswith_has_char (c : ascii) (s : string) :
  startswith s (String c EmptyString) = true -> has_char c s = true.
Proof.
  destruct s as [|a r]; [discriminate|]. rewrite startswith_cons.
  intros H. simpl. rewrite Ascii.eqb_sym, H. reflexivity.
Qed.

Lemma endswith_has_char (c : ascii) (s : string) :
  endswith s (String c EmptyString) = true -> has_char c s = true.
Proof.
  intros H. destruct (has_char c s) eqn:Hc; [reflexivity|].
  rewrite (endswith_free c s (String c EmptyString)) in H; [discriminate | exact Hc |].
  simpl. rewrite Ascii.eqb_refl. reflexivity.
Qed.

(** A path with a slash has a nonempty parent. *)
Lemma dirname_truthy (p : string) :
  has_char sep p = true -> truthy (dirname p) = true.
Proof.
  intros H. destruct (rfind_has_char sep p H) as [k Hk].
  pose proof (head_of_nonempty p k Hk) as Hh. apply truthy_true in Hh.
  rewrite dirname_head, Hh. cbn [andb].
  destruct (all_char sep (head_of p)) eqn:Ha; cbn [negb]; [exact Hh|].
  apply truthy_true. intros He. apply rstrip_empty_all in He. congruence.
Qed.

(** Joining onto a nonempty directory gives a path with a slash. *)
Lemma join2_has_sep (path b : string) :
  truthy path = true -> has_char sep (join2 path b) = true.
Proof.
  intros Hp. unfold join2.
  destruct (startswith b sep_str) eqn:Hb; [apply startswith_has_char, Hb|].
  rewrite Hp. cbn [negb orb].
  destruct (endswith path sep_str) eqn:He.
  - rewrite has_char_app, (endswith_has_char sep path He). reflexivity.
  - rewrite !has_char_app. cbn. apply orb_true_r.
Qed.

Lemma join2_truthy (path b : string) :
  truthy b = true -> truthy (join2 path b) = true.
Proof.
  intros Hb. unfold join2. destruct (startswith b sep_str); [exact Hb|].
  destruct (negb (truthy path) || endswith path sep_str);
    repeat apply truthy_app_r; exact Hb.
Qed.

End JoinFacts.
(** * Facts about the search for the marker folder *)

Section SearchFacts.
Import Str posixpath.

Lemma free_of_has_char (s : string) :
  has_char sep s = false -> has_char backslash s = false ->
  free_of_slashes s = true.
Proof.
  induction s as [|a r IH]; [reflexivity|]. simpl.
  intros H1 H2. apply orb_false_iff in H1 as [Ha1 Hr1].
  apply orb_false_iff in H2 as [Ha2 Hr2].
  unfold is_slash. fold sep in *. rewrite Ha1, Ha2. simpl. auto.
Qed.

Lemma free_has_sep (s : string) :
  free_of_slashes s = true -> has_char sep s = false.
Proof.
  induction s as [|a r IH]; [reflexivity|]. simpl.
  intros H. apply andb_true_iff in H as [Ha Hr].
  unfold is_slash in Ha. apply negb_true_iff, orb_false_iff in Ha as [Ha _].
  fold sep in Ha. rewrite Ha. simpl. auto.
Qed.

Lemma join_with_cons (x : string) (l : list string) :
  join_with sep_str (x :: l) = x +:+ rest_of_path l.
Proof.
  revert x. induction l as [|y l IH]; intros x.
  - simpl. rewrite str_app_nil_r. reflexivity.
  - change (join_with sep_str (x :: y :: l))
      with (x +:+ sep_str +:+ join_with sep_str (y :: l)).
    rewrite IH. reflexivity.
Qed.

Lemma rest_of_path_cons (x : string) (l : list string) :
  rest_of_path (x :: l) = String sep (join_with sep_str (x :: l)).
Proof. rewrite join_with_cons. reflexivity. Qed.

(** The search passes over a piece without slashes. *)
Lemma search_marker_skip (m x t : string) :
  free_of_slashes x = true ->
  search_marker m (x +:+ t) = search_marker m t.
Proof.
  induction x as [|a r IH]; [reflexivity|]. cbn [free_of_slashes].
  intros H. apply andb_true_iff in H as [Ha Hr].
  apply negb_true_iff in Ha. rewrite str_app_cons. cbn [search_marker].
  rewrite Ha. auto.
Qed.

Lemma strip_prefix_app (m t : string) : strip_prefix m (m +:+ t) = Some t.
Proof.
  induction m as [|a m IH]; [destruct t; reflexivity|].
  rewrite str_app_cons. simpl. rewrite Ascii.eqb_refl. exact IH.
Qed.

(** After a component other than the marker the pattern does not match:
    what follows the marker text, if anything, is not a slash. *)
Lemma strip_prefix_other (m x t : string) (d : ascii) (r : string) :
  free_of_slashes m = true -> free_of_slashes x = true -> x <> m ->
  t = EmptyString \/ (exists t', t = String sep t') ->
  strip_prefix m (x +:+ t) = Some (String d r) -> is_slash d = false.
Proof.
  revert x. induction m as [|a m IH]; intros x Hm Hx Hne Ht Hs.
  - destruct x as [|b x]; [congruence|].
    rewrite str_app_cons in Hs. simpl in Hs. injection Hs as <- _.
    simpl in Hx. apply andb_true_iff in Hx as [Hb _].
    apply negb_true_iff, Hb.
  - simpl in Hm. apply andb_true_iff in Hm as [Ha Hm].
    destruct x as [|b x].
    + rewrite str_app_nil_l in Hs. destruct Ht as [->|[t' ->]]; [discriminate|].
      simpl in Hs. destruct (Ascii.eqb_spec a sep) as [->|]; [|discriminate].
      discriminate Ha.
    + rewrite str_app_cons in Hs. simpl in Hs. simpl in Hx.
      apply andb_true_iff in Hx as [_ Hx].
      destruct (Ascii.eqb_spec a b) as [->|]; [|discriminate].
      apply (IH x); auto. congruence.
Qed.

(** One component of the path. *)
Lemma search_marker_step (m x : string) (l : list string) :
  free_of_slashes m = true -> free_of_slashes x = true ->
  search_marker m (rest_of_path (x :: l)) =
  if String.eqb x m && negb (bool_decide (l = []))
  then Some (join_with sep_str l)
  else search_marker m (rest_of_path l).
Proof.
  intros Hm Hx. cbn [rest_of_path search_marker].
  replace (is_slash sep) with true by reflexivity.
  destruct (String.eqb_spec x m) as [->|Hne]; cbn [andb].
  - rewrite strip_prefix_app. destruct l as [|y l]; cbn [negb bool_decide].
    + simpl. apply search_marker_skip, Hm.
    + rewrite bool_decide_false by discriminate. cbn [negb rest_of_path].
      replace (is_slash sep) with true by reflexivity.
      rewrite join_with_cons. reflexivity.
  - assert (Ht : rest_of_path l = EmptyString
                 \/ exists t', rest_of_path l = String sep t').
    { destruct l; [left; reflexivity | right; eexists; reflexivity]. }
    destruct (strip_prefix m (x +:+ rest_of_path l)) as [[|d r]|] eqn:Hs;
      try (apply search_marker_skip, Hx).
    rewrite (strip_prefix_other m x _ d r Hm Hx Hne Ht Hs).
    apply search_marker_skip, Hx.
Qed.

(** The marker in the middle of the path: the match is at its first
    occurrence. *)
Lemma search_marker_mid (m : string) (before after : list string) :
  free_of_slashes m = true -> Forall (fun x => free_of_slashes x = true) before ->
  ~ In m before -> after <> [] ->
  search_marker m (rest_of_path (before ++ m :: after))
  = Some (join_with sep_str after).
Proof.
  intros Hm Hb Hni Ha. induction before as [|x before IH].
  - cbn [app]. rewrite search_marker_step by assumption.
    rewrite String.eqb_refl, bool_decide_false by assumption. reflexivity.
  - inversion Hb as [|? ? Hx Hb']; subst.
    rewrite <- app_comm_cons, search_marker_step by assumption.
    assert (x <> m) as Hne%String.eqb_neq by (intros ->; apply Hni; left; reflexivity).
    rewrite Hne. cbn [andb]. apply IH; [assumption|].
    intros Hin. apply Hni. right. exact Hin.
Qed.

(** No match when the marker is no component before the last one. *)
Lemma search_marker_none (m : string) (segs : list string) :
  free_of_slashes m = true -> Forall (fun x => free_of_slashes x = true) segs ->
  ~ In m (removelast segs) ->
  search_marker m (rest_of_path segs) = None.
Proof.
  intros Hm Hs Hni. induction segs as [|x segs IH]; [reflexivity|].
  inversion Hs as [|? ? Hx Hs']; subst.
  rewrite search_marker_step by assumption.
  destruct segs as [|y segs].
  - rewrite bool_decide_true by reflexivity. rewrite andb_false_r. reflexivity.
  - assert (x <> m) as Hne%String.eqb_neq.
    { intros ->. apply Hni. left. reflexivity. }
    rewrite Hne. cbn [andb]. apply IH; [assumption|].
    intros Hin. apply Hni. right. exact Hin.
Qed.

(** *** The test for the marker at the end of the path *)

Lemma endswith_skip (x t suf : string) :
  has_char sep x = false ->
  endswith (x +:+ String sep t) (String sep suf)
  = endswith (String sep t) (String sep suf).
Proof.
  intros Hx. induction x as [|a r IH]; [reflexivity|].
  simpl in Hx. apply orb_false_iff in Hx as [Ha Hr].
  rewrite str_app_cons. cbn [endswith]. rewrite (IH Hr).
  replace (String.eqb (String a (r +:+ String sep t)) (String sep suf)) with false;
    [reflexivity|].
  symmetry. apply String.eqb_neq. intros Heq. injection Heq as -> _.
  rewrite Ascii.eqb_refl in Ha. discriminate.
Qed.

Lemma endswith_rest_last (m : string) (before : list string) :
  endswith (rest_of_path (before ++ [m])) (String sep m) = true.
Proof.
  induction before as [|x before IH].
  - cbn [app rest_of_path]. rewrite str_app_nil_r. apply endswith_refl.
  - rewrite <- app_comm_cons. cbn [rest_of_path].
    change (String sep (x +:+ rest_of_path (before ++ [m])))
      with ((String sep x) +:+ rest_of_path (before ++ [m])).
    apply endswith_app_r, IH.
Qed.

Lemma has_char_rest (l : list string) :
  l <> [] -> has_char sep (rest_of_path l) = true.
Proof. destruct l; [congruence|]. reflexivity. Qed.

Lemma endswith_rest_absent (m : string) (segs : list string) :
  has_char sep m = false ->
  Forall (fun x => has_char sep x = false) segs ->
  ~ In m segs ->
  endswith (rest_of_path segs) (String sep m) = false.
Proof.
  intros Hm Hs Hni. induction segs as [|x segs IH]; [reflexivity|].
  inversion Hs as [|? ? Hx Hs']; subst.
  cbn [rest_of_path endswith].
  assert (Hne : x <> m) by (intros ->; apply Hni; left; reflexivity).
  assert (Hni' : ~ In m segs) by (intros Hin; apply Hni; right; exact Hin).
  replace (String.eqb (String sep (x +:+ rest_of_path segs)) (String sep m))
    with false.
  2:{ symmetry. apply String.eqb_neq. intros Heq. injection Heq as Heq.
      destruct segs as [|y segs].
      - simpl in Heq. rewrite str_app_nil_r in Heq. congruence.
      - assert (has_char sep (x +:+ rest_of_path (y :: segs)) = true) as Hc.
        { rewrite has_char_app, has_char_rest by discriminate. apply orb_true_r. }
        rewrite Heq in Hc. congruence. }
  cbn [orb]. destruct segs as [|y segs].
  - cbn [rest_of_path]. rewrite str_app_nil_r. apply endswith_free with sep; [exact Hx|].
    reflexivity.
  - cbn [rest_of_path]. rewrite endswith_skip by exact Hx.
    exact (IH Hs' Hni').
Qed.

End SearchFacts.

(** * Facts about the run *)

Section MonadFacts.

Lemma bind_ok {A B} (m : M A) (k : A -> M B) (st st' : State) (a : A) :
  m st = (Ok a, st') -> bind m k st = k a st'.
Proof. unfold bind. intros ->. reflexivity. Qed.

Lemma bind_stop {A B} (m : M A) (k : A -> M B) (st st' : State) (e : Halt) :
  m st = (Stop e, st') -> bind m k st = (Stop e, st').
Proof. unfold bind. intros ->. reflexivity. Qed.

Lemma extend_extend (st : State) (fs1 fs2 : gset string) (evs1 evs2 : list Event) :
  extend (extend st fs1 evs1) fs2 evs2 = extend st fs2 (evs1 ++ evs2).
Proof. unfold extend. simpl. rewrite app_assoc. reflexivity. Qed.

Lemma extend_nil (st : State) : extend st (files st) [] = st.
Proof. destruct st. unfold extend. simpl. rewrite app_nil_r. reflexivity. Qed.

Lemma log_run (message : string) (st : State) :
  log message st = (Ok tt, extend st (files st) [EvLog message]).
Proof. reflexivity. Qed.

Lemma error_exit_run {A} (message : string) (st : State) :
  @error_exit A message st
  = (Stop (SysExit 1), extend st (files st) [EvLog ("ERROR: " +:+ message)]).
Proof. reflexivity. Qed.

Lemma transcodes_app (l1 l2 : list Event) :
  transcodes (l1 ++ l2) = transcodes l1 ++ transcodes l2.
Proof. apply List.filter_app. Qed.

Lemma transcodes_cons (e : Event) (l : list Event) :
  transcodes (e :: l) = (if is_transcode e then [e] else []) ++ transcodes l.
Proof. unfold transcodes. simpl. destruct (is_transcode e); reflexivity. Qed.

Lemma transcodes_nil : transcodes [] = [].
Proof. reflexivity. Qed.

Lemma printed_app (l1 l2 : list Event) :
  printed (l1 ++ l2) = printed l1 ++ printed l2.
Proof. apply omap_app. Qed.

Lemma printed_cons (e : Event) (l : list Event) :
  printed (e :: l)
  = match e with EvPrint line => [line] | _ => [] end ++ printed l.
Proof. destruct e; reflexivity. Qed.

Lemma printed_nil : printed [] = [].
Proof. reflexivity. Qed.

Lemma transcoded_tiers_app (l1 l2 : list Event) :
  transcoded_tiers (l1 ++ l2) = transcoded_tiers l1 ++ transcoded_tiers l2.
Proof. apply omap_app. Qed.

Lemma transcoded_tiers_cons (e : Event) (l : list Event) :
  transcoded_tiers (e :: l)
  = match e with EvTranscode tier _ _ => [tier] | _ => [] end
    ++ transcoded_tiers l.
Proof. destruct e; reflexivity. Qed.

Lemma transcoded_tiers_nil : transcoded_tiers [] = [].
Proof. reflexivity. Qed.

Lemma transcoded_tiers_quiet (l : list Event) :
  Forall (fun e => quiet e = true) l -> transcoded_tiers l = [].
Proof.
  induction 1 as [|e l He _ IH]; [reflexivity|].
  rewrite transcoded_tiers_cons, IH. destruct e; try discriminate He; reflexivity.
Qed.

Lemma copy_sources_app (l1 l2 : list Event) :
  copy_sources (l1 ++ l2) = copy_sources l1 ++ copy_sources l2.
Proof. apply omap_app. Qed.

Lemma transcodes_quiet (l : list Event) :
  Forall (fun e => quiet e = true) l -> transcodes l = [].
Proof.
  induction 1 as [|e l He _ IH]; [reflexivity|].
  simpl. destruct e; try discriminate He; exact IH.
Qed.

Lemma printed_quiet (l : list Event) :
  Forall (fun e => quiet e = true) l -> printed l = [].
Proof.
  induction 1 as [|e l He _ IH]; [reflexivity|].
  simpl. destruct e; try discriminate He; exact IH.
Qed.

Lemma copy_sources_quiet (l : list Event) :
  Forall (fun e => quiet e = true) l -> copy_sources l = [].
Proof.
  induction 1 as [|e l He _ IH]; [reflexivity|].
  simpl. destruct e; try discriminate He; exact IH.
Qed.

End MonadFacts.

Ltac destruct_run res fs' :=
  match goal with
  | |- context [subprocess_run ?env ?cmd ?fs] =>
      destruct (subprocess_run env cmd fs) as [[res fs']|]
  end.

Ltac run_unfold :=
  cbv beta iota zeta delta
    [bind ret raise emit set_files set_ffmpeg get_files get_USE_LIBX264
     get_FFMPEG log error_exit isfile makedirs copy2 remove try_run run].

Ltac quiet_tac := repeat (apply Forall_app_2 || apply Forall_cons_2 || apply Forall_nil_2
                          || reflexivity || assumption).

Section PhaseFacts.
Variable env : Env.
Variable cfg : Config.

(** [init_ffmpeg] never aborts, sets [FFMPEG], and only probes and logs. *)
Lemma init_ffmpeg_run (st : State) :
  exists f u fs evs,
    init_ffmpeg env cfg st
    = (Ok tt, {| files := fs; FFMPEG := Some f; USE_LIBX264 := u;
                 trace := trace st ++ evs |})
    /\ Forall (fun e => quiet e = true) evs.
Proof.
  unfold init_ffmpeg. run_unfold. simpl.
  destruct (Str.truthy (FFMPEG_PATH cfg) && bool_decide (FFMPEG_PATH cfg ∈ files st)).
  - destruct_run res fs'; simpl.
    + destruct (Str.contains (stdout res) "libx264"); simpl.
      * do 4 eexists. split; [rewrite <- app_assoc; reflexivity | quiet_tac].
      * do 4 eexists. split; [rewrite <- app_assoc; reflexivity | quiet_tac].
    + do 4 eexists. split; [rewrite <- app_assoc; reflexivity | quiet_tac].
  - do 4 eexists. split; [rewrite <- (app_nil_r (trace st)) at 1; reflexivity | quiet_tac].
Qed.

(** [generate_proxy], once [FFMPEG] is set and there is a directory to
    create: it calls the encoder exactly once, and returns [True] exactly
    when the encoder returned 0. *)
Lemma generate_proxy_run (st : State) (f : string)
    (input_file output_file scale vbitrate abitrate proxy_type codec
     codec_profile container crf preset tune : string) :
  FFMPEG st = Some f ->
  Str.truthy (posixpath.dirname output_file) = true ->
  exists r o fs pre post,
    generate_proxy env input_file output_file scale vbitrate abitrate proxy_type
      codec codec_profile container crf preset tune st
    = (r, extend st fs
            (pre ++ EvTranscode proxy_type
                      (ffmpeg_command f (USE_LIBX264 st) input_file output_file
                         scale vbitrate abitrate codec codec_profile container
                         crf preset tune) o :: post))
    /\ Forall (fun e => quiet e = true) pre
    /\ Forall (fun e => quiet e = true) post
    /\ (r = Ok (succeeded o) \/ (succeeded o = false /\ exists e, r = Stop e)).
Proof.
  intros Hf Hd.
  unfold generate_proxy, extend. run_unfold. simpl.
  rewrite Hd, Hf. simpl.
  destruct_run res fs'; simpl.
  - destruct (Str.truthy (stderr res)); simpl;
      destruct (returncode res =? 0)%Z eqn:Hrc; simpl;
      exists (Ok (returncode res =? 0)%Z), (Some res), fs'; rewrite Hrc;
      eexists [_; _], _;
      (split; [rewrite <- !app_assoc; reflexivity | split; [quiet_tac | split; [quiet_tac | left; simpl; rewrite ?Hrc; reflexivity]]]).
  - exists (Stop (Uncaught "OSError")), None, (files st). eexists [_; _], [].
    split; [rewrite <- !app_assoc; reflexivity | split; [quiet_tac | split; [quiet_tac |]]].
    right. split; [reflexivity | eauto].
Qed.

End PhaseFacts.

Section TempPaths.
Import Str posixpath.
Variable env : Env.
Variable cfg : Config.

Lemma preview_temp_path_shape (input_file : string) :
  preview_temp_path env cfg input_file
  = dir_prefix (AW_TEMP env) +:+ stem input_file +:+ "_preview."
    +:+ get_container (PREVIEW_CODEC cfg) (PREVIEW_CONTAINER cfg).
Proof.
  unfold preview_temp_path, join. cbn [fold_left].
  apply join2_relative, stem_app_relative. reflexivity.
Qed.

Lemma workflow_temp_path_shape (input_file : string) :
  workflow_temp_path env cfg input_file
  = dir_prefix (AW_TEMP env) +:+ stem input_file +:+ "_workflow."
    +:+ get_container (WORKFLOW_CODEC cfg) (WORKFLOW_CONTAINER cfg).
Proof.
  unfold workflow_temp_path, join. cbn [fold_left].
  apply join2_relative, stem_app_relative. reflexivity.
Qed.

(** The two tiers are encoded to different paths. *)
Lemma temp_paths_distinct (input_file : string) :
  preview_temp_path env cfg input_file <> workflow_temp_path env cfg input_file.
Proof.
  rewrite preview_temp_path_shape, workflow_temp_path_shape. intros H.
  apply (inj (String.app _)), (inj (String.app _)) in H. discriminate H.
Qed.

Lemma preview_temp_path_truthy (input_file : string) :
  truthy (preview_temp_path env cfg input_file) = true.
Proof.
  rewrite preview_temp_path_shape. do 2 apply truthy_app_r. reflexivity.
Qed.

Lemma workflow_temp_path_truthy (input_file : string) :
  truthy (workflow_temp_path env cfg input_file) = true.
Proof.
  rewrite workflow_temp_path_shape. do 2 apply truthy_app_r. reflexivity.
Qed.

Lemma preview_temp_dir_truthy (input_file : string) :
  truthy (AW_TEMP env) = true ->
  truthy (dirname (preview_temp_path env cfg input_file)) = true.
Proof. intros H. apply dirname_truthy, join2_has_sep, H. Qed.

Lemma workflow_temp_dir_truthy (input_file : string) :
  truthy (AW_TEMP env) = true ->
  truthy (dirname (workflow_temp_path env cfg input_file)) = true.
Proof. intros H. apply dirname_truthy, join2_has_sep, H. Qed.

End TempPaths.

Section BlockFacts.
Import Str posixpath.
Variable env : Env.
Variable cfg : Config.

Lemma generate_preview_skip (input_file : string) (st : State) :
  need_preview cfg = false ->
  generate_preview env cfg input_file st = (Ok EmptyString, st).
Proof. unfold generate_preview. intros ->. reflexivity. Qed.

Lemma generate_workflow_skip (input_file : string) (st : State) :
  need_workflow cfg = false ->
  generate_workflow env cfg input_file st = (Ok EmptyString, st).
Proof. unfold generate_workflow. intros ->. reflexivity. Qed.

(** The preview block, when the tier is needed: one call of the encoder;
    the block goes on exactly when the encoder returned 0. *)
Lemma generate_preview_run (input_file : string) (st : State) (f : string) :
  FFMPEG st = Some f -> truthy (AW_TEMP env) = true ->
  need_preview cfg = true ->
  exists r o fs pre post,
    generate_preview env cfg input_file st
    = (r, extend st fs
            (pre ++ EvTranscode "preview_quality"
                      (preview_command env cfg f (USE_LIBX264 st) input_file) o
                 :: post))
    /\ Forall (fun e => quiet e = true) pre
    /\ Forall (fun e => quiet e = true) post
    /\ ((r = Ok (preview_temp_path env cfg input_file) /\ succeeded o = true)
        \/ (succeeded o = false /\ exists e, r = Stop e)).
Proof.
  intros Hf Ht Hn. unfold generate_preview. rewrite Hn.
  destruct (generate_proxy_run env st f input_file
              (preview_temp_path env cfg input_file)
              (PREVIEW_SCALE cfg) (PREVIEW_VBITRATE cfg) (PREVIEW_ABITRATE cfg)
              "preview_quality" (PREVIEW_CODEC cfg) (PREVIEW_CODEC_PROFILE cfg)
              (get_container (PREVIEW_CODEC cfg) (PREVIEW_CONTAINER cfg))
              (PREVIEW_CRF cfg) (PREVIEW_PRESET cfg) (PREVIEW_TUNE cfg) Hf
              (preview_temp_dir_truthy env cfg input_file Ht))
    as (r & o & fs & pre & post & Heq & Hpre & Hpost & Hr).
  fold (preview_command env cfg f (USE_LIBX264 st) input_file) in Heq.
  destruct Hr as [->|[Hs [e ->]]].
  - rewrite (bind_ok _ _ _ _ _ Heq). destruct (succeeded o) eqn:Hs.
    + exists (Ok (preview_temp_path env cfg input_file)), o, fs, pre, post.
      split; [reflexivity | split; [exact Hpre | split; [exact Hpost | left; auto]]].
    + rewrite error_exit_run, extend_extend. cbn [files extend].
      rewrite <- app_assoc, <- app_comm_cons.
      eexists _, o, fs, pre, _. split; [reflexivity|].
      split; [exact Hpre | split; [quiet_tac | right; eauto]].
  - rewrite (bind_stop _ _ _ _ _ Heq).
    eexists _, o, fs, pre, post. split; [reflexivity | eauto 6].
Qed.

Lemma generate_workflow_run (input_file : string) (st : State) (f : string) :
  FFMPEG st = Some f -> truthy (AW_TEMP env) = true ->
  need_workflow cfg = true ->
  exists r o fs pre post,
    generate_workflow env cfg input_file st
    = (r, extend st fs
            (pre ++ EvTranscode "workflow_quality"
                      (workflow_command env cfg f (USE_LIBX264 st) input_file) o
                 :: post))
    /\ Forall (fun e => quiet e = true) pre
    /\ Forall (fun e => quiet e = true) post
    /\ ((r = Ok (workflow_temp_path env cfg input_file) /\ succeeded o = true)
        \/ (succeeded o = false /\ exists e, r = Stop e)).
Proof.
  intros Hf Ht Hn. unfold generate_workflow. rewrite Hn.
  destruct (generate_proxy_run env st f input_file
              (workflow_temp_path env cfg input_file)
              (WORKFLOW_SCALE cfg) (WORKFLOW_VBITRATE cfg) (WORKFLOW_ABITRATE cfg)
              "workflow_quality" (WORKFLOW_CODEC cfg) (WORKFLOW_CODEC_PROFILE cfg)
              (get_container (WORKFLOW_CODEC cfg) (WORKFLOW_CONTAINER cfg))
              (WORKFLOW_CRF cfg) (WORKFLOW_PRESET cfg) (WORKFLOW_TUNE cfg) Hf
              (workflow_temp_dir_truthy env cfg input_file Ht))
    as (r & o & fs & pre & post & Heq & Hpre & Hpost & Hr).
  fold (workflow_command env cfg f (USE_LIBX264 st) input_file) in Heq.
  destruct Hr as [->|[Hs [e ->]]].
  - rewrite (bind_ok _ _ _ _ _ Heq). destruct (succeeded o) eqn:Hs.
    + exists (Ok (workflow_temp_path env cfg input_file)), o, fs, pre, post.
      split; [reflexivity | split; [exact Hpre | split; [exact Hpost | left; auto]]].
    + rewrite error_exit_run, extend_extend. cbn [files extend].
      rewrite <- app_assoc, <- app_comm_cons.
      eexists _, o, fs, pre, _. split; [reflexivity|].
      split; [exact Hpre | split; [quiet_tac | right; eauto]].
  - rewrite (bind_stop _ _ _ _ _ Heq).
    eexists _, o, fs, pre, post. split; [reflexivity | eauto 6].
Qed.

Lemma log_all_run (warnings : list string) (st : State) :
  foldr (fun w k => log w ;;; k) (ret tt) warnings st
  = (Ok tt, extend st (files st) (map EvLog warnings)).
Proof.
  revert st. induction warnings as [|w ws IH]; intros st.
  - cbn [foldr map]. rewrite extend_nil. reflexivity.
  - cbn [foldr map]. rewrite (bind_ok _ _ _ _ _ (log_run w st)).
    rewrite IH, extend_extend. reflexivity.
Qed.

Lemma quiet_logs (warnings : list string) :
  Forall (fun e => quiet e = true) (map EvLog warnings).
Proof. induction warnings; simpl; quiet_tac. Qed.

(** The store block: apart from quiet events, at most one copy, of the
    artifact named by the source of the workflow output. *)
Lemma store_workflow_run (input_file pp wp : string) (st : State) :
  exists r fs pre post,
    store_workflow cfg input_file pp wp st = (r, extend st fs (pre ++ post))
    /\ Forall (fun e => quiet e = true) pre
    /\ (post = []
        \/ (ENABLE_WORKFLOW_STORE cfg = true
            /\ exists dest post',
                 post = EvCopy (store_source cfg pp wp) dest :: post'
                 /\ Forall (fun e => quiet e = true) post')).
Proof.
  unfold store_workflow. destruct (ENABLE_WORKFLOW_STORE cfg).
  2:{ exists (Ok tt), (files st), [], []. rewrite extend_nil.
      split; [reflexivity | split; [quiet_tac | left; reflexivity]]. }
  fold (store_source cfg pp wp).
  destruct (build_workflow_path cfg input_file _) as [dest warnings].
  rewrite (bind_ok _ _ _ _ _ (log_all_run warnings st)).
  pose proof (quiet_logs warnings) as Hq.
  unfold extend. run_unfold. simpl.
  destruct (truthy (dirname dest)); simpl.
  2:{ eexists _, _, (map EvLog warnings ++ [EvMakedirs (dirname dest)]), [].
      rewrite app_nil_r, app_assoc.
      split; [reflexivity | split; [quiet_tac | left; reflexivity]]. }
  destruct (bool_decide (store_source cfg pp wp ∈ files st)); simpl.
  2:{ eexists _, _, (map EvLog warnings ++ [EvMakedirs (dirname dest)]),
        [EvCopy (store_source cfg pp wp) dest].
      split; [rewrite <- !app_assoc; reflexivity|].
      split; [quiet_tac|]. right. split; [reflexivity|].
      eexists _, []. split; [reflexivity | quiet_tac]. }
  destruct (String.eqb (store_source cfg pp wp) dest); simpl.
  - eexists _, _, (map EvLog warnings ++ [EvMakedirs (dirname dest)]),
      [EvCopy (store_source cfg pp wp) dest].
    split; [rewrite <- !app_assoc; reflexivity|].
    split; [quiet_tac|]. right. split; [reflexivity|].
    eexists _, []. split; [reflexivity | quiet_tac].
  - eexists _, _, (map EvLog warnings ++ [EvMakedirs (dirname dest)]),
      [EvCopy (store_source cfg pp wp) dest;
       EvLog ("Stored workflow proxy: " +:+ dest)].
    split; [rewrite <- !app_assoc; reflexivity|].
    split; [quiet_tac|]. right. split; [reflexivity|].
    eexists _, [_]. split; [reflexivity | quiet_tac].
Qed.

(** The choice of the return path: quiet, and the path is the artifact
    named by the source of the preview output or the placeholder. *)
Lemma choose_return_run (pp wp : string) (st : State) (f : string) :
  FFMPEG st = Some f ->
  exists r fs evs,
    choose_return env cfg pp wp st = (r, extend st fs evs)
    /\ Forall (fun e => quiet e = true) evs
    /\ (forall return_path, r = Ok return_path ->
          return_path = if ENABLE_P5_PREVIEW cfg then preview_source cfg pp wp
                        else placeholder_path env).
Proof.
  intros Hf. unfold choose_return. destruct (ENABLE_P5_PREVIEW cfg).
  - exists (Ok (preview_source cfg pp wp)), (files st), [].
    rewrite extend_nil. split; [reflexivity | split; [quiet_tac|]].
    intros ? [= <-]. reflexivity.
  - run_unfold. simpl. rewrite Hf. simpl.
    destruct_run res fs'; simpl.
    + exists (Ok (placeholder_path env)), fs',
        [EvPlaceholder (placeholder_command f (placeholder_path env)) (Some res);
         EvLog "P5 preview disabled, returning dummy image"].
      unfold extend. rewrite Hf, <- !app_assoc.
      split; [reflexivity|]. split; [quiet_tac|]. intros ? [= <-]. reflexivity.
    + exists (Stop (Uncaught "OSError")), (files st),
        [EvPlaceholder (placeholder_command f (placeholder_path env)) None].
      unfold extend. rewrite Hf.
      split; [reflexivity|]. split; [quiet_tac|]. intros ? [=].
Qed.

(** The check of the return file. *)
Lemma verify_return_run (return_path : string) (st : State) :
  (verify_return return_path st = (Ok tt, st)
   /\ truthy return_path = true /\ return_path ∈ files st)
  \/ (exists message,
        verify_return return_path st
        = (Stop (SysExit 1), extend st (files st) [EvLog message])).
Proof.
  unfold verify_return. run_unfold. unfold extend. simpl.
  destruct (truthy return_path); simpl.
  - destruct (bool_decide_reflect (return_path ∈ files st)); simpl.
    + left. auto.
    + right. eauto.
  - right. eauto.
Qed.

Lemma cleanup_one_run (return_path path : string) (st : State) :
  exists evs,
    cleanup_one return_path path st
    = (Ok tt,
       extend st
         (if truthy path && negb (String.eqb path return_path)
          then files st ∖ {[ path ]} else files st) evs)
    /\ Forall (fun e => quiet e = true) evs.
Proof.
  unfold cleanup_one. run_unfold. unfold extend. simpl.
  destruct (truthy path); simpl.
  2:{ exists []. rewrite app_nil_r. destruct st; split; [reflexivity | quiet_tac]. }
  destruct (bool_decide_reflect (path ∈ files st)) as [Hin|Hni]; simpl.
  - destruct (String.eqb path return_path); simpl.
    + exists []. rewrite app_nil_r. destruct st; split; [reflexivity | quiet_tac].
    + rewrite bool_decide_true by exact Hin.
      exists [EvRemove path]. split; [reflexivity | quiet_tac].
  - exists []. rewrite app_nil_r.
    replace (if negb (String.eqb path return_path) then files st ∖ {[path]} else files st)
      with (files st).
    + destruct st; split; [reflexivity | quiet_tac].
    + destruct (negb _); [|reflexivity]. apply leibniz_equiv. intros x.
      rewrite elem_of_difference, elem_of_singleton.
      split; [intros Hx; split; [exact Hx | intros ->; contradiction] | intros [Hx _]; exact Hx].
Qed.

(** The files one round of the cleanup leaves. *)
Lemma cleanup_one_files (return_path path x : string) (S : gset string) :
  x ∈ (if truthy path && negb (String.eqb path return_path)
       then S ∖ {[ path ]} else S)
  <-> x ∈ S /\ ~ (truthy path = true /\ path <> return_path /\ x = path).
Proof.
  destruct (truthy path); destruct (String.eqb_spec path return_path);
    cbn [andb negb]; rewrite ?elem_of_difference, ?elem_of_singleton;
    intuition congruence.
Qed.

(** The cleanup never aborts and removes exactly the given nonempty
    paths other than the return path. *)
Lemma cleanup_run (return_path pp wp : string) (st : State) :
  exists fs evs,
    cleanup return_path [pp; wp] st = (Ok tt, extend st fs evs)
    /\ Forall (fun e => quiet e = true) evs
    /\ (forall x, x ∈ fs <->
          x ∈ files st
          /\ ~ (truthy x = true /\ x <> return_path /\ (x = pp \/ x = wp))).
Proof.
  unfold cleanup. cbn [foldr].
  destruct (cleanup_one_run return_path pp st) as (evs1 & Heq1 & Hq1).
  rewrite (bind_ok _ _ _ _ _ Heq1).
  destruct (cleanup_one_run return_path wp (extend st
              (if truthy pp && negb (String.eqb pp return_path)
               then files st ∖ {[ pp ]} else files st) evs1))
    as (evs2 & Heq2 & Hq2).
  rewrite (bind_ok _ _ _ _ _ Heq2). cbn [ret].
  rewrite extend_extend. cbn [files extend].
  eexists _, _. split; [reflexivity|]. split; [quiet_tac|].
  intros x. rewrite !cleanup_one_files. split.
  - intros [[Hx Hp] Hw]. split; [exact Hx|].
    intros (Ht & Hne & [->| ->]); [apply Hp | apply Hw]; auto.
  - intros [Hx H]. split; [split; [exact Hx|]|];
      intros (Ht & Hne & ->); apply H; auto.
Qed.

End BlockFacts.

Section CopyFacts.

Lemma copy_skip (A rest before after : list Event) (src dst : string) :
  copy_sources A = [] ->
  A ++ rest = before ++ EvCopy src dst :: after ->
  exists before', before = A ++ before'
                  /\ rest = before' ++ EvCopy src dst :: after.
Proof.
  revert before. induction A as [|e A IH]; intros before HA Heq.
  - exists before. auto.
  - destruct before as [|b before].
    + simpl in Heq. injection Heq as -> _. discriminate HA.
    + simpl in Heq. injection Heq as -> Heq.
      destruct (IH before) as (b' & -> & Hrest); [|exact Heq|].
      * simpl in HA. destruct b; try discriminate HA; exact HA.
      * exists b'. auto.
Qed.

Lemma copy_skip_cons (e : Event) (rest before after : list Event)
    (src dst : string) :
  copy_sources [e] = [] ->
  e :: rest = before ++ EvCopy src dst :: after ->
  exists before', before = e :: before'
                  /\ rest = before' ++ EvCopy src dst :: after.
Proof. intros He Heq. apply (copy_skip [e]); assumption. Qed.

Lemma copy_cases (s d : string) (B before after : list Event) (src dst : string) :
  EvCopy s d :: B = before ++ EvCopy src dst :: after ->
  (before = [] /\ src = s /\ dst = d)
  \/ (exists before', B = before' ++ EvCopy src dst :: after).
Proof.
  destruct before as [|b before]; simpl; intros Heq.
  - injection Heq as -> -> _. left. auto.
  - injection Heq as _ ->. right. eauto.
Qed.

Lemma copy_nil (before after : list Event) (src dst : string) :
  [] <> before ++ EvCopy src dst :: after.
Proof. destruct before; discriminate. Qed.

Lemma succeeded_true (o : option Completed) :
  succeeded o = true -> exists result, o = Some result /\ returncode result = 0%Z.
Proof.
  destruct o as [result|]; [|discriminate]. simpl.
  intros H%Z.eqb_eq. eauto.
Qed.

Lemma last_ffmpeg_command
    (ffmpeg : string) (use_libx264 : bool)
    (input_file output_file scale vbitrate abitrate codec codec_profile
     container crf preset tune : string) :
  last (ffmpeg_command ffmpeg use_libx264 input_file output_file scale vbitrate
          abitrate codec codec_profile container crf preset tune)
  = Some output_file.
Proof.
  unfold ffmpeg_command.
  change ["-f"; container; "-loglevel"; "error"; "-y"; output_file]
    with (["-f"; container; "-loglevel"; "error"; "-y"] ++ [output_file]).
  rewrite !app_assoc. apply last_snoc.
Qed.

End CopyFacts.

Section PlaceholderFacts.
Import Str posixpath.

(** The decimal digits of a number have no underscore and no letter. *)
Lemma digits_free (c : ascii) (d : Decimal.uint) :
  c = "_"%char \/ c = "p"%char \/ c = "w"%char ->
  has_char c (NilEmpty.string_of_uint d) = false.
Proof.
  intros [-> | [-> | ->]]; induction d; simpl; auto.
Qed.

Lemma of_nat_free (c : ascii) (n : nat) :
  c = "_"%char \/ c = "p"%char \/ c = "w"%char -> has_char c (of_nat n) = false.
Proof.
  intros Hc. unfold of_nat, NilZero.string_of_uint.
  destruct (Nat.to_uint n) eqn:Hn; try (rewrite <- Hn; apply digits_free, Hc).
  destruct Hc as [-> | [-> | ->]]; reflexivity.
Qed.

(** The name of the placeholder is not the name of a tier artifact: in
    it no underscore is followed by a p or a w. *)
Lemma placeholder_name_not_tier (c : ascii) (D s x : string) :
  c = "p"%char \/ c = "w"%char ->
  has_char "_" D = false -> has_char c D = false ->
  "proxy_dummy_" +:+ D +:+ ".jpg" <> s +:+ String "_" (String c x).
Proof.
  intros Hc HD1 HD2 H.
  repeat rewrite str_app_cons in H. rewrite !str_app_nil_l in H.
  do 11 (destruct s as [|? s];
         [ rewrite ?str_app_nil_l in H; destruct Hc as [-> | ->]; discriminate H
         | rewrite str_app_cons in H; injection H as <- H ]).
  destruct s as [|? s].
  - rewrite str_app_nil_l in H. injection H as H.
    destruct D as [|c' D]; [destruct Hc as [-> | ->]; discriminate H|].
    rewrite str_app_cons in H. injection H as -> _.
    simpl in HD2. rewrite Ascii.eqb_refl in HD2. discriminate HD2.
  - rewrite str_app_cons in H. injection H as <- H.
    apply (f_equal (has_char "_")) in H.
    rewrite !has_char_app, HD1 in H. simpl in H.
    rewrite orb_true_r in H. discriminate H.
Qed.

Variable env : Env.
Variable cfg : Config.

Lemma placeholder_path_shape :
  placeholder_path env
  = dir_prefix (AW_TEMP env) +:+ "proxy_dummy_" +:+ of_nat (getpid env) +:+ ".jpg".
Proof.
  unfold placeholder_path, join. cbn [fold_left].
  apply join2_relative. reflexivity.
Qed.

Lemma placeholder_not_preview (input_file : string) :
  placeholder_path env <> preview_temp_path env cfg input_file.
Proof.
  rewrite placeholder_path_shape, preview_temp_path_shape. intros H.
  apply (inj (String.app _)) in H.
  apply (placeholder_name_not_tier "p") in H; auto using of_nat_free.
Qed.

Lemma placeholder_not_workflow (input_file : string) :
  placeholder_path env <> workflow_temp_path env cfg input_file.
Proof.
  rewrite placeholder_path_shape, workflow_temp_path_shape. intros H.
  apply (inj (String.app _)) in H.
  apply (placeholder_name_not_tier "w") in H; auto using of_nat_free.
Qed.

End PlaceholderFacts.
(** * Verification of the specification *)

(** ** Workflow path mapping *)

Section Trimming.
Import Str posixpath.

Lemma remove_levels_nat (n : nat) (dir : string) :
  remove_levels (Z.of_nat n) dir = Nat.iter n dirname dir.
Proof. unfold remove_levels. rewrite Nat2Z.id. reflexivity. Qed.

Lemma iter_dirname_absolute (n : nat) (dir : string) :
  absolute dir = true -> absolute (Nat.iter n dirname dir) = true.
Proof.
  intros H. induction n as [|n IH]; [exact H|].
  simpl. apply dirname_absolute, IH.
Qed.

Lemma iter_dirname_root (n : nat) (dir : string) :
  is_root dir = true -> Nat.iter n dirname dir = dir.
Proof.
  intros H. apply andb_true_iff in H as [_ H].
  induction n as [|n IH]; [reflexivity|].
  simpl. rewrite IH. apply dirname_all_char, H.
Qed.

Lemma absolute_truthy (dir : string) : absolute dir = true -> truthy dir = true.
Proof. destruct dir; [discriminate | reflexivity]. Qed.

(** Trimming at least [length dir - 1] levels of an absolute directory
    ends at the root. *)
Lemma iter_dirname_reaches_root (n : nat) (dir : string) :
  absolute dir = true -> String.length dir <= n + 1 ->
  is_root (Nat.iter n dirname dir) = true.
Proof.
  revert dir. induction n as [|n IH]; intros dir Habs Hlen.
  - destruct dir as [|a [|b r]]; [discriminate | | simpl in Hlen; lia].
    unfold absolute, sep_str in Habs. rewrite startswith_cons in Habs.
    apply Ascii.eqb_eq in Habs as <-. reflexivity.
  - rewrite Nat.iter_succ_r.
    destruct (all_char sep dir) eqn:Hall.
    + rewrite (dirname_all_char dir Hall).
      rewrite iter_dirname_root; unfold is_root; rewrite ?Hall, absolute_truthy; auto.
    + apply IH; [apply dirname_absolute, Habs|].
      pose proof (dirname_shorter dir Hall). lia.
Qed.

End Trimming.

(** C9. Trimming levels of an absolute directory never goes past the
    root: the trimmed directory is still absolute (so never empty) for
    every count; the root is its own parent; once the trimmed directory
    is the root, trimming more levels leaves it there; and a count of at
    least the length of the directory minus one ends at the root. *)
Theorem remove_levels_clamped (dir : string) (levels : Z) :
  absolute dir = true ->
  absolute (remove_levels levels dir) = true
  /\ remove_levels levels "/" = "/"
  /\ (forall more : Z,
        (0 <= levels)%Z -> (0 <= more)%Z ->
        is_root (remove_levels levels dir) = true ->
        remove_levels (levels + more) dir = remove_levels levels dir)
  /\ ((Z.of_nat (String.length dir) <= levels + 1)%Z ->
        is_root (remove_levels levels dir) = true).
Proof.
  intros Habs. repeat split.
  - apply iter_dirname_absolute, Habs.
  - apply iter_dirname_root. reflexivity.
  - intros more Hl Hm Hroot. unfold remove_levels in *.
    rewrite Z2Nat.inj_add, Nat.add_comm, Nat.iter_add by lia.
    apply iter_dirname_root, Hroot.
  - intros Hlen. apply iter_dirname_reaches_root; [exact Habs | lia].
Qed.

Lemma remove_levels_clamped_witness :
  absolute (remove_levels 11 "/Volumes/RAW") = true
  /\ is_root (remove_levels 11 "/Volumes/RAW") = true
  /\ remove_levels (2 + 5) "/Volumes/RAW" = remove_levels 2 "/Volumes/RAW".
Proof.
  destruct (remove_levels_clamped "/Volumes/RAW" 11 eq_refl) as (H1 & _ & _ & H4).
  destruct (remove_levels_clamped "/Volumes/RAW" 2 eq_refl) as (_ & _ & H3 & _).
  split; [exact H1 | split].
  - apply H4. vm_compute. intros H. discriminate H.
  - apply H3; [lia | lia | reflexivity].
Defined.

Section Naming.
Import Str posixpath.
Variable cfg : Config.

Lemma build_workflow_path_fst (src_file container : string) :
  fst (build_workflow_path cfg src_file container)
  = join (fst (workflow_target_dir cfg src_file))
      [output_basename src_file (fst (workflow_target_dir cfg src_file))
       +:+ "." +:+ container].
Proof.
  unfold build_workflow_path. destruct (workflow_target_dir cfg src_file).
  reflexivity.
Qed.

Lemma build_workflow_path_snd (src_file container : string) :
  snd (build_workflow_path cfg src_file container)
  = snd (workflow_target_dir cfg src_file).
Proof.
  unfold build_workflow_path. destruct (workflow_target_dir cfg src_file).
  reflexivity.
Qed.

End Naming.

(** C5. The mapped path is the target directory followed by the file
    name; the file name is the stem of the source with [_proxy] added if
    and only if the target directory, normalised, is the normalised
    directory of the source, otherwise the stem alone; and it always ends
    with a dot and the container. *)
Theorem proxy_suffix_policy (cfg : Config) (src_file container : string) :
  let target_dir := fst (workflow_target_dir cfg src_file) in
  let dest := fst (build_workflow_path cfg src_file container) in
  let same_dir :=
    posixpath.normpath target_dir
    = posixpath.normpath (posixpath.dirname src_file) in
  (same_dir <->
     dest = dir_prefix target_dir +:+ posixpath.stem src_file
            +:+ "_proxy" +:+ "." +:+ container)
  /\ (~ same_dir <->
     dest = dir_prefix target_dir +:+ posixpath.stem src_file
            +:+ "." +:+ container)
  /\ Str.endswith dest ("." +:+ container) = true.
Proof.
  intros target_dir dest same_dir. subst dest.
  rewrite build_workflow_path_fst. fold target_dir.
  unfold posixpath.join. cbn [fold_left].
  unfold output_basename.
  destruct (String.eqb_spec (posixpath.normpath target_dir)
              (posixpath.normpath (posixpath.dirname src_file))) as [Heq|Hne].
  - rewrite join2_relative
      by (rewrite str_app_assoc; apply stem_app_relative; reflexivity).
    rewrite !str_app_assoc.
    split; [|split].
    + split; [reflexivity | intros _; exact Heq].
    + split; [intros H; contradiction|].
      intros H. apply (inj (String.app _)), (inj (String.app _)) in H.
      discriminate.
    + do 3 apply endswith_app_r. apply endswith_refl.
  - rewrite join2_relative by (apply stem_app_relative; reflexivity).
    split; [|split].
    + split; [intros H; contradiction|].
      intros H. apply (inj (String.app _)), (inj (String.app _)) in H.
      discriminate.
    + split; [reflexivity | intros _; exact Hne].
    + do 2 apply endswith_app_r. apply endswith_refl.
Qed.

Lemma proxy_suffix_policy_witness :
  fst (build_workflow_path (with_rule shipped_config EmptyString EmptyString 0 EmptyString)
         "/Volumes/RAW/A-Cam/A001.mov" "mp4")
  = "/Volumes/RAW/A-Cam/A001_proxy.mp4"
  /\ fst (build_workflow_path shipped_config "/Volumes/RAW/A-Cam/A001.mov" "mp4")
     = "/Volumes/RAW/proxies/A001.mp4".
Proof.
  split.
  - apply (proxy_suffix_policy
             (with_rule shipped_config EmptyString EmptyString 0 EmptyString)
             "/Volumes/RAW/A-Cam/A001.mov" "mp4").
    reflexivity.
  - apply (proxy_suffix_policy shipped_config "/Volumes/RAW/A-Cam/A001.mov" "mp4").
    vm_compute. discriminate.
Defined.

(** C6. The documented scenario: with marker "Projects", new base
    "/Volumes/Proxies", one level removed, "proxies" appended and
    container mp4, the source
    /Volumes/RAW/Projects/2024/BMW/Footage/A-Cam/A001.mov is mapped to
    /Volumes/Proxies/Projects/2024/BMW/Footage/proxies/A001.mp4, without
    a warning. *)
Theorem scenario_A001 (cfg : Config) :
  build_workflow_path (with_rule cfg "Projects" "/Volumes/Proxies" 1 "proxies")
    "/Volumes/RAW/Projects/2024/BMW/Footage/A-Cam/A001.mov" "mp4"
  = ("/Volumes/Proxies/Projects/2024/BMW/Footage/proxies/A001.mp4", []).
Proof. vm_compute. reflexivity. Qed.

Section Substitution.
Import Str posixpath.

(** The components of a directory without backslashes are free of
    slashes and backslashes. *)
Lemma split_components_free (src_dir : string) :
  has_char backslash src_dir = false ->
  Forall (fun x => free_of_slashes x = true) (split src_dir sep).
Proof.
  intros Hb. apply Forall_forall. intros x Hx%list_elem_of_In.
  apply free_of_has_char.
  - eapply split_has_char, Hx.
  - eapply split_keeps_free; [exact Hb | exact Hx].
Qed.

Lemma src_dir_components (src_dir lead : string) (segs : list string) :
  split src_dir sep = lead :: segs -> src_dir = lead +:+ rest_of_path segs.
Proof.
  intros Hs. rewrite <- (join_split sep src_dir) at 1.
  rewrite Hs. apply join_with_cons.
Qed.

Lemma free_relative (m : string) :
  free_of_slashes m = true -> startswith m sep_str = false.
Proof.
  intros Hm. rewrite <- (str_app_nil_r m).
  apply startswith_app_free; [apply free_has_sep, Hm | reflexivity].
Qed.

(** What [os.path.join] makes of the new base [nb], the marker [m] and
    what follows the marker. *)
Lemma join_new_base (nb m : string) (after : list string) :
  truthy m = true -> free_of_slashes m = true ->
  after <> [] -> startswith (join_with sep_str after) sep_str = false ->
  join nb [m; join_with sep_str after]
  = dir_prefix nb +:+ m +:+ rest_of_path after.
Proof.
  intros Ht Hm Ha Hrel. unfold join. cbn [fold_left].
  rewrite (join2_relative nb m (free_relative m Hm)).
  rewrite (join2_relative _ _ Hrel).
  unfold dir_prefix at 1.
  rewrite truthy_app_r by exact Ht.
  change sep_str with (String sep EmptyString).
  rewrite endswith_sep_app_free
    by (try apply free_has_sep, Hm; apply truthy_true, Ht).
  cbn [negb orb]. destruct after as [|y l]; [congruence|].
  rewrite rest_of_path_cons, !str_app_assoc. reflexivity.
Qed.

Lemma join_new_base_last (nb m : string) :
  free_of_slashes m = true -> join nb [m] = dir_prefix nb +:+ m.
Proof.
  intros Hm. unfold join. cbn [fold_left].
  apply join2_relative, free_relative, Hm.
Qed.

Variable cfg : Config.

Lemma replace_base_found (src_dir lead : string) (before after : list string) :
  truthy (WORKFLOW_PROJECT_FOLDER cfg) = true ->
  truthy (WORKFLOW_NEW_BASE cfg) = true ->
  free_of_slashes (WORKFLOW_PROJECT_FOLDER cfg) = true ->
  has_char backslash src_dir = false ->
  split src_dir sep = lead :: before ++ WORKFLOW_PROJECT_FOLDER cfg :: after ->
  ~ In (WORKFLOW_PROJECT_FOLDER cfg) before ->
  startswith (join_with sep_str after) sep_str = false ->
  replace_base cfg src_dir
  = (dir_prefix (WORKFLOW_NEW_BASE cfg) +:+ WORKFLOW_PROJECT_FOLDER cfg
     +:+ rest_of_path after, []).
Proof.
  intros Htm Htb Hm Hb Hs Hni Hrel.
  pose proof (split_components_free src_dir Hb) as Hfree.
  rewrite Hs in Hfree. apply Forall_cons in Hfree as [Hlead Hfree].
  pose proof (src_dir_components _ _ _ Hs) as Hdir.
  unfold replace_base. rewrite Htm, Htb. cbn [andb].
  rewrite Hdir at 1. rewrite search_marker_skip by exact Hlead.
  destruct after as [|y l].
  - rewrite search_marker_none; [| exact Hm | exact Hfree |].
    2:{ rewrite removelast_last. exact Hni. }
    change (sep_str +:+ WORKFLOW_PROJECT_FOLDER cfg)
      with (String sep (WORKFLOW_PROJECT_FOLDER cfg)).
    rewrite Hdir. rewrite endswith_app_r by apply endswith_rest_last.
    rewrite join_new_base_last by exact Hm.
    cbn [rest_of_path]. rewrite str_app_nil_r. reflexivity.
  - rewrite search_marker_mid; [| exact Hm | | exact Hni | discriminate].
    2:{ apply Forall_app in Hfree as [Hfree _]. exact Hfree. }
    rewrite join_new_base;
      [reflexivity | exact Htm | exact Hm | discriminate | exact Hrel].
Qed.

Lemma replace_base_absent (src_dir lead : string) (segs : list string) :
  free_of_slashes (WORKFLOW_PROJECT_FOLDER cfg) = true ->
  has_char backslash src_dir = false ->
  split src_dir sep = lead :: segs ->
  ~ In (WORKFLOW_PROJECT_FOLDER cfg) segs ->
  fst (replace_base cfg src_dir) = src_dir.
Proof.
  intros Hm Hb Hs Hni.
  pose proof (split_components_free src_dir Hb) as Hfree.
  rewrite Hs in Hfree. apply Forall_cons in Hfree as [Hlead Hfree].
  pose proof (src_dir_components _ _ _ Hs) as Hdir.
  unfold replace_base.
  destruct (truthy (WORKFLOW_PROJECT_FOLDER cfg) && truthy (WORKFLOW_NEW_BASE cfg));
    [|reflexivity].
  rewrite Hdir at 1. rewrite search_marker_skip by exact Hlead.
  rewrite search_marker_none; [| exact Hm | exact Hfree |].
  2:{ intros Hin. apply Hni. clear -Hin.
      induction segs as [|x [|y l] IH]; simpl in *; tauto. }
  change (sep_str +:+ WORKFLOW_PROJECT_FOLDER cfg)
    with (String sep (WORKFLOW_PROJECT_FOLDER cfg)).
  replace (endswith src_dir (String sep (WORKFLOW_PROJECT_FOLDER cfg))) with false;
    [reflexivity|].
  symmetry. rewrite Hdir. destruct segs as [|y l].
  - cbn [rest_of_path]. rewrite str_app_nil_r.
    apply endswith_free with sep; [apply free_has_sep, Hlead | reflexivity].
  - cbn [rest_of_path]. rewrite endswith_skip by apply free_has_sep, Hlead.
    apply (endswith_rest_absent (WORKFLOW_PROJECT_FOLDER cfg) (y :: l));
      [apply free_has_sep, Hm | | exact Hni].
    eapply Forall_impl; [exact Hfree|]. intros x Hx. apply free_has_sep, Hx.
Qed.

End Substitution.

(** C4 (as amended). With marker folder and new base both configured,
    the marker without slash or backslash, and a source directory
    without backslashes: if the marker is a component of the directory
    after its leading one (a whole component between slashes, not a part
    of a folder name), then the directory is rebuilt from the first such
    occurrence as the new base, the marker and what follows the marker,
    each after a slash (the new base and the marker alone when the
    marker is the last component), provided what follows the marker does
    not begin with another slash; if the marker is no such component,
    the directory is left as it is. *)
Theorem marker_substitution (cfg : Config) (src_file : string) :
  let marker := WORKFLOW_PROJECT_FOLDER cfg in
  let new_base := WORKFLOW_NEW_BASE cfg in
  let src_dir := posixpath.dirname src_file in
  Str.truthy marker = true -> Str.truthy new_base = true ->
  free_of_slashes marker = true ->
  has_char backslash src_dir = false ->
  (forall lead before after,
      Str.split src_dir posixpath.sep = lead :: before ++ marker :: after ->
      ~ In marker before ->
      Str.startswith (Str.join_with posixpath.sep_str after) posixpath.sep_str = false ->
      replace_base cfg src_dir
      = (dir_prefix new_base +:+ marker +:+ rest_of_path after, []))
  /\ (forall lead segs,
      Str.split src_dir posixpath.sep = lead :: segs ->
      ~ In marker segs ->
      fst (replace_base cfg src_dir) = src_dir).
Proof.
  intros marker new_base src_dir Htm Htb Hm Hb. split.
  - intros lead before after. apply replace_base_found; assumption.
  - intros lead segs. apply replace_base_absent; assumption.
Qed.

Lemma marker_substitution_witness :
  replace_base (with_rule shipped_config "Projects" "/Volumes/Proxies" 1 "proxies")
    (posixpath.dirname "/Volumes/RAW/Projects/2024/BMW/A001.mov")
  = ("/Volumes/Proxies/Projects/2024/BMW", [])
  /\ replace_base (with_rule shipped_config "Projects" "/Volumes/Proxies" 1 "proxies")
       (posixpath.dirname "/Volumes/RAW/Projects/A001.mov")
     = ("/Volumes/Proxies/Projects", [])
  /\ fst (replace_base (with_rule shipped_config "Projects" "/Volumes/Proxies" 1 "proxies")
            (posixpath.dirname "/Volumes/RAW/MyProjects/2024/A001.mov"))
     = "/Volumes/RAW/MyProjects/2024".
Proof.
  split; [|split].
  - apply (marker_substitution
             (with_rule shipped_config "Projects" "/Volumes/Proxies" 1 "proxies")
             "/Volumes/RAW/Projects/2024/BMW/A001.mov"
             eq_refl eq_refl eq_refl eq_refl)
      with (lead := EmptyString) (before := ["Volumes"; "RAW"]) (after := ["2024"; "BMW"]).
    + reflexivity.
    + simpl. intros [H|[H|[]]]; discriminate H.
    + reflexivity.
  - apply (marker_substitution
             (with_rule shipped_config "Projects" "/Volumes/Proxies" 1 "proxies")
             "/Volumes/RAW/Projects/A001.mov"
             eq_refl eq_refl eq_refl eq_refl)
      with (lead := EmptyString) (before := ["Volumes"; "RAW"]) (after := []).
    + reflexivity.
    + simpl. intros [H|[H|[]]]; discriminate H.
    + reflexivity.
  - apply (marker_substitution
             (with_rule shipped_config "Projects" "/Volumes/Proxies" 1 "proxies")
             "/Volumes/RAW/MyProjects/2024/A001.mov"
             eq_refl eq_refl eq_refl eq_refl)
      with (lead := EmptyString) (segs := ["Volumes"; "RAW"; "MyProjects"; "2024"]).
    + reflexivity.
    + simpl. intros [H|[H|[H|[H|[]]]]]; discriminate H.
Defined.

(** C4, as stated, fails. The marker "Projects" is the last (and only)
    component of the directory of [Projects/A001.mov], and the first of
    two of the directory of [Projects/2024/A001.mov], but no slash
    precedes it and the directory is not rebuilt; and in the directory
    [/Volumes/RAW/old\Projects/2024] the marker is only a part of the
    folder name [old\Projects], yet the directory is rebuilt. *)
Lemma marker_substitution_counterexample :
  let cfg := with_rule shipped_config "Projects" "/Volumes/Proxies" 1 "proxies" in
  let odd_dir := "/Volumes/RAW/old" +:+ String backslash "Projects/2024" in
  (Str.split (posixpath.dirname "Projects/A001.mov") posixpath.sep = ["Projects"]
   /\ replace_base cfg (posixpath.dirname "Projects/A001.mov")
      = ("Projects", ["WARNING: Project folder 'Projects' not found"])
   /\ "Projects" <> "/Volumes/Proxies/Projects")
  /\ (Str.split (posixpath.dirname "Projects/2024/A001.mov") posixpath.sep
      = ["Projects"; "2024"]
   /\ replace_base cfg (posixpath.dirname "Projects/2024/A001.mov")
      = ("Projects/2024", ["WARNING: Project folder 'Projects' not found"])
   /\ "Projects/2024" <> "/Volumes/Proxies/Projects/2024")
  /\ (posixpath.dirname (odd_dir +:+ "/A001.mov") = odd_dir
   /\ ~ In "Projects" (Str.split odd_dir posixpath.sep)
   /\ replace_base cfg odd_dir = ("/Volumes/Proxies/Projects/2024", [])
   /\ "/Volumes/Proxies/Projects/2024" <> odd_dir).
Proof.
  vm_compute. repeat split; try discriminate.
  intros [H|[H|[H|[H|[H|[]]]]]]; discriminate H.
Qed.

(** ** Rendition need analysis *)

Section NeedAnalyzer.
Variable cfg : Config.

Lemma need_preview_iff :
  need_preview cfg = true <->
  (ENABLE_P5_PREVIEW cfg = true /\ P5_PREVIEW_SOURCE cfg = "preview")
  \/ (ENABLE_WORKFLOW_STORE cfg = true /\ WORKFLOW_STORE_SOURCE cfg = "preview").
Proof.
  unfold need_preview.
  rewrite orb_true_iff, !andb_true_iff, !String.eqb_eq. reflexivity.
Qed.

Lemma need_workflow_iff :
  need_workflow cfg = true <->
  (ENABLE_P5_PREVIEW cfg = true /\ P5_PREVIEW_SOURCE cfg = "workflow")
  \/ (ENABLE_WORKFLOW_STORE cfg = true /\ WORKFLOW_STORE_SOURCE cfg = "workflow").
Proof.
  unfold need_workflow.
  rewrite orb_true_iff, !andb_true_iff, !String.eqb_eq. reflexivity.
Qed.

End NeedAnalyzer.

(** ** Encoder parameter resolution *)

(** C8. For a codec other than h264, prores and dnxhd the recipe is the
    h264 recipe with constrained average bitrate (the one h264 gets
    without advanced rate control): it does not depend on the capability
    flag nor on the CRF, preset and tune settings. *)
Theorem unknown_codec_recipe
    (flag : bool) (scale vbitrate abitrate codec codec_profile crf preset tune : string) :
  codec <> "h264" -> codec <> "prores" -> codec <> "dnxhd" ->
  codec_arguments flag scale vbitrate abitrate codec codec_profile crf preset tune
  = ["-vf"; "scale=" +:+ scale +:+ ":-2"; "-pix_fmt"; "yuv420p";
     "-c:v"; "libopenh264"; "-b:v"; vbitrate;
     "-c:a"; "aac"; "-b:a"; abitrate; "-movflags"; "+faststart"]
  /\ codec_arguments flag scale vbitrate abitrate codec codec_profile crf preset tune
     = codec_arguments false scale vbitrate abitrate "h264" codec_profile crf preset tune
  /\ (forall flag' crf' preset' tune',
        codec_arguments flag scale vbitrate abitrate codec codec_profile crf preset tune
        = codec_arguments flag' scale vbitrate abitrate codec codec_profile crf' preset' tune').
Proof.
  intros H1 H2 H3.
  apply String.eqb_neq in H1, H2, H3.
  unfold codec_arguments. rewrite H1, H2, H3. simpl.
  repeat split; reflexivity.
Qed.

Lemma unknown_codec_recipe_witness :
  codec_arguments true "320" "256k" "64k" "hevc" "main" "28" "veryfast" "film"
  = ["-vf"; "scale=320:-2"; "-pix_fmt"; "yuv420p";
     "-c:v"; "libopenh264"; "-b:v"; "256k";
     "-c:a"; "aac"; "-b:a"; "64k"; "-movflags"; "+faststart"].
Proof.
  apply (unknown_codec_recipe true "320" "256k" "64k" "hevc" "main" "28"
           "veryfast" "film"); discriminate.
Defined.

(** ** The run *)

Ltac step_ok H := rewrite (bind_ok _ _ _ _ _ H).
Ltac step_stop H := rewrite (bind_stop _ _ _ _ _ H).

(** The start of [main] on two arguments or more: [init_ffmpeg], the
    two log lines and the check of the input. Two goals: the check
    passes, and the check fails. The state is kept as a record whose
    [FFMPEG] is [Some f]. *)
Ltac state_norm := cbn [extend files FFMPEG USE_LIBX264 trace] in *.

Ltac walk_startup env cfg fs f u q0 Hq0 Hcheck :=
  let fs1 := fresh "fs1" in
  let Hinit := fresh "Hinit" in
  unfold run_main, main;
  destruct (init_ffmpeg_run env cfg (initial_state fs))
    as (f & u & fs1 & q0 & Hinit & Hq0);
  try (unfold files_at_check in *;
       rewrite Hinit in *; cbn [snd files] in * );
  step_ok Hinit;
  cbn [initial_state trace app] in *;
  rewrite (bind_ok _ _ _ _ _ (log_run _ _));
  rewrite (bind_ok _ _ _ _ _ (log_run _ _));
  unfold isfile at 1; unfold bind at 1; state_norm;
  match goal with
  | |- context [bool_decide (?i ∈ fs1)] =>
      destruct (bool_decide_reflect (i ∈ fs1)) as [Hcheck|Hcheck]
  end;
  [ unfold bind at 1; cbn [ret]
  | rewrite (bind_stop _ _ _ _ _ (error_exit_run _ _)); state_norm ];
  clear Hinit.

(** The blocks of [main], each at the head of the program that runs in
    a state whose [FFMPEG] is [Some f]. An aborting branch is left as a
    goal of its own. *)
Ltac walk_preview env cfg f Htemp Hn o pre post Hpre Hpost Hs :=
  let r := fresh "r" in let fs' := fresh "fs" in
  let Heq := fresh "Heq" in let Hr := fresh "Hr" in let e := fresh "e" in
  match goal with
  | |- context [bind (generate_preview env cfg ?i) _ ?st] =>
      destruct (generate_preview_run env cfg i st f eq_refl Htemp Hn)
        as (r & o & fs' & pre & post & Heq & Hpre & Hpost & Hr);
      destruct Hr as [[-> Hs]|[Hs [e ->]]];
      [step_ok Heq | step_stop Heq];
      state_norm; clear Heq
  end.

Ltac walk_workflow env cfg f Htemp Hn o pre post Hpre Hpost Hs :=
  let r := fresh "r" in let fs' := fresh "fs" in
  let Heq := fresh "Heq" in let Hr := fresh "Hr" in let e := fresh "e" in
  match goal with
  | |- context [bind (generate_workflow env cfg ?i) _ ?st] =>
      destruct (generate_workflow_run env cfg i st f eq_refl Htemp Hn)
        as (r & o & fs' & pre & post & Heq & Hpre & Hpost & Hr);
      destruct Hr as [[-> Hs]|[Hs [e ->]]];
      [step_ok Heq | step_stop Heq];
      state_norm; clear Heq
  end.

Ltac skip_preview env cfg Hn :=
  match goal with
  | |- context [bind (generate_preview env cfg ?i) _ ?st] =>
      rewrite (bind_ok _ _ _ _ _ (generate_preview_skip env cfg i st Hn))
  end.

Ltac skip_workflow env cfg Hn :=
  match goal with
  | |- context [bind (generate_workflow env cfg ?i) _ ?st] =>
      rewrite (bind_ok _ _ _ _ _ (generate_workflow_skip env cfg i st Hn))
  end.

Ltac walk_store cfg pre post Hpre Hpost :=
  let r := fresh "r" in let fs' := fresh "fs" in let Heq := fresh "Heq" in
  match goal with
  | |- context [bind (store_workflow cfg ?i ?pp ?wp) _ ?st] =>
      destruct (store_workflow_run cfg i pp wp st)
        as (r & fs' & pre & post & Heq & Hpre & Hpost);
      destruct r as [[]|?];
      [step_ok Heq | step_stop Heq];
      state_norm; clear Heq
  end.

Ltac walk_choose env cfg f rp evs Hevs Hret :=
  let r := fresh "r" in let fs' := fresh "fs" in let Heq := fresh "Heq" in
  match goal with
  | |- context [bind (choose_return env cfg ?pp ?wp) _ ?st] =>
      destruct (choose_return_run env cfg pp wp st f eq_refl)
        as (r & fs' & evs & Heq & Hevs & Hret);
      destruct r as [rp|?];
      [specialize (Hret rp eq_refl); step_ok Heq | clear Hret; step_stop Heq];
      state_norm; clear Heq
  end.

Ltac walk_verify Htruthy Hin :=
  let Heq := fresh "Heq" in let msg := fresh "msg" in
  match goal with
  | |- context [bind (verify_return ?rp) _ ?st] =>
      destruct (verify_return_run rp st) as [(Heq & Htruthy & Hin)|[msg Heq]];
      [step_ok Heq | step_stop Heq];
      state_norm; clear Heq
  end.

Ltac walk_cleanup fs' evs Hevs Hfs :=
  let Heq := fresh "Heq" in
  match goal with
  | |- context [bind (cleanup ?rp [?pp; ?wp]) _ ?st] =>
      destruct (cleanup_run rp pp wp st) as (fs' & evs & Heq & Hevs & Hfs);
      step_ok Heq; state_norm; clear Heq
  end.

(** The end of [main]: the two log lines and the line on standard
    output. *)
Ltac walk_finish :=
  rewrite (bind_ok _ _ _ _ _ (log_run _ _));
  rewrite (bind_ok _ _ _ _ _ (log_run _ _));
  unfold emit; state_norm.

(** The transcodes of a trace made of quiet pieces and single events. *)
Ltac count_transcodes :=
  repeat (rewrite transcodes_app || rewrite transcodes_cons
          || rewrite transcodes_nil);
  repeat match goal with
         | H : Forall _ ?l |- context [transcodes ?l] =>
             rewrite (transcodes_quiet l H)
         end;
  cbn [is_transcode app]; rewrite ?app_nil_r; cbn [app].

Ltac walk_to_end env cfg f rp Hret Htr Hin fsc Hfsc :=
  let pres := fresh "pres" in let posts := fresh "posts" in
  let Hpres := fresh "Hpres" in let Hposts := fresh "Hposts" in
  let evc := fresh "evc" in let Hevc := fresh "Hevc" in
  let evcl := fresh "evcl" in let Hevcl := fresh "Hevcl" in
  walk_store cfg pres posts Hpres Hposts;
  [ walk_choose env cfg f rp evc Hevc Hret;
    [ walk_verify Htr Hin;
      [ walk_cleanup fsc evcl Hevcl Hfsc; walk_finish | ] | ] | ].

(** The whole of [main] on two arguments or more, with every way
    through it: one goal for each way the run can end. *)
Ltac walk_from_workflow env cfg f Htemp :=
  let Hnw := fresh "Hnw" in
  let ow := fresh "ow" in let prew := fresh "prew" in
  let postw := fresh "postw" in let Hprew := fresh "Hprew" in
  let Hpostw := fresh "Hpostw" in let Hsw := fresh "Hsw" in
  let rp := fresh "rp" in let Hret := fresh "Hret" in
  let Htr := fresh "Htr" in let Hin := fresh "Hin" in
  let fsc := fresh "fsc" in let Hfsc := fresh "Hfsc" in
  destruct (need_workflow cfg) eqn:Hnw;
  [ walk_workflow env cfg f Htemp Hnw ow prew postw Hprew Hpostw Hsw;
    [ walk_to_end env cfg f rp Hret Htr Hin fsc Hfsc | ]
  | skip_workflow env cfg Hnw;
    walk_to_end env cfg f rp Hret Htr Hin fsc Hfsc ].

Ltac walk_all env cfg fs Htemp :=
  let f := fresh "f" in let u := fresh "u" in
  let q0 := fresh "q0" in let Hq0 := fresh "Hq0" in
  let Hcheck := fresh "Hcheck" in
  let Hnp := fresh "Hnp" in
  let op := fresh "op" in let prep := fresh "prep" in
  let postp := fresh "postp" in let Hprep := fresh "Hprep" in
  let Hpostp := fresh "Hpostp" in let Hsp := fresh "Hsp" in
  walk_startup env cfg fs f u q0 Hq0 Hcheck;
  [ destruct (need_preview cfg) eqn:Hnp;
    [ walk_preview env cfg f Htemp Hnp op prep postp Hprep Hpostp Hsp;
      [ walk_from_workflow env cfg f Htemp | ]
    | skip_preview env cfg Hnp;
      walk_from_workflow env cfg f Htemp ]
  | ].

Ltac split_store_events :=
  match goal with
  | H : _ = [] \/ _ |- _ =>
      let dest := fresh "dest" in
      let post' := fresh "post'" in
      let Hpost' := fresh "Hpost'" in
      let Hen := fresh "Hen" in
      destruct H as [-> | (Hen & dest & post' & -> & Hpost')]
  | _ => idtac
  end.

Section RunTheorems.
Variable env : Env.
Variable cfg : Config.

Lemma same_source_needs (tier : string) :
  ENABLE_P5_PREVIEW cfg || ENABLE_WORKFLOW_STORE cfg = true ->
  P5_PREVIEW_SOURCE cfg = tier -> WORKFLOW_STORE_SOURCE cfg = tier ->
  need_preview cfg = String.eqb tier "preview"
  /\ need_workflow cfg = String.eqb tier "workflow".
Proof.
  intros Hen H1 H2. unfold need_preview, need_workflow. rewrite H1, H2.
  destruct (ENABLE_P5_PREVIEW cfg), (ENABLE_WORKFLOW_STORE cfg);
    try discriminate Hen; simpl; rewrite ?orb_diag, ?orb_false_r; auto.
Qed.

Lemma one_encode_of_preview (prog input_file : string) (rest : list string)
    (fs : gset string) :
  Str.truthy (AW_TEMP env) = true ->
  input_file ∈ files_at_check env cfg fs ->
  need_preview cfg = true -> need_workflow cfg = false ->
  exists f u o,
    transcodes (trace (snd (run_main env cfg (prog :: input_file :: rest) fs)))
    = [EvTranscode "preview_quality" (preview_command env cfg f u input_file) o].
Proof.
  intros Htemp Hcheck Hnp Hnw.
  destruct (run_main env cfg (prog :: input_file :: rest) fs) as [r st] eqn:Hrun.
  revert Hrun.
  walk_startup env cfg fs f u q0 Hq0 Hcheck'; [|contradiction].
  walk_preview env cfg f Htemp Hnp op prep postp Hprep Hpostp Hsp;
    [ skip_workflow env cfg Hnw; walk_to_end env cfg f rp Hret Htr Hin fsc Hfsc | ];
    intros [= <- <-]; cbn [snd trace extend]; split_store_events;
    exists f, u, op; count_transcodes; reflexivity.
Qed.

Lemma one_encode_of_workflow (prog input_file : string) (rest : list string)
    (fs : gset string) :
  Str.truthy (AW_TEMP env) = true ->
  input_file ∈ files_at_check env cfg fs ->
  need_preview cfg = false -> need_workflow cfg = true ->
  exists f u o,
    transcodes (trace (snd (run_main env cfg (prog :: input_file :: rest) fs)))
    = [EvTranscode "workflow_quality" (workflow_command env cfg f u input_file) o].
Proof.
  intros Htemp Hcheck Hnp Hnw.
  destruct (run_main env cfg (prog :: input_file :: rest) fs) as [r st] eqn:Hrun.
  revert Hrun.
  walk_startup env cfg fs f u q0 Hq0 Hcheck'; [|contradiction].
  skip_preview env cfg Hnp.
  walk_workflow env cfg f Htemp Hnw ow prew postw Hprew Hpostw Hsw;
    [ walk_to_end env cfg f rp Hret Htr Hin fsc Hfsc | ];
    intros [= <- <-]; cbn [snd trace extend]; split_store_events;
    exists f, u, ow; count_transcodes; reflexivity.
Qed.

Lemma both_tiers_run (prog input_file : string) (rest : list string)
    (fs : gset string) :
  Str.truthy (AW_TEMP env) = true ->
  input_file ∈ files_at_check env cfg fs ->
  need_preview cfg = true -> need_workflow cfg = true ->
  exists f u o1,
    let first := EvTranscode "preview_quality"
                   (preview_command env cfg f u input_file) o1 in
    let '(r, st) := run_main env cfg (prog :: input_file :: rest) fs in
    (succeeded o1 = true
     /\ exists o2,
          transcodes (trace st)
          = [first;
             EvTranscode "workflow_quality"
               (workflow_command env cfg f u input_file) o2])
    \/ (succeeded o1 = false
        /\ transcodes (trace st) = [first]
        /\ exists e, r = Stop e).
Proof.
  intros Htemp Hcheck Hnp Hnw.
  destruct (run_main env cfg (prog :: input_file :: rest) fs) as [r st] eqn:Hrun.
  revert Hrun.
  walk_startup env cfg fs f u q0 Hq0 Hcheck'; [|contradiction].
  walk_preview env cfg f Htemp Hnp op prep postp Hprep Hpostp Hsp.
  - walk_workflow env cfg f Htemp Hnw ow prew postw Hprew Hpostw Hsw;
      [ walk_to_end env cfg f rp Hret Htr Hin fsc Hfsc | ];
      intros [= <- <-]; cbn [snd trace extend]; split_store_events;
      exists f, u, op; left; (split; [exact Hsp|]); exists ow;
      count_transcodes; reflexivity.
  - intros [= <- <-]. cbn [snd trace extend].
    exists f, u, op. right. split; [exact Hsp|]. split; [|eauto].
    count_transcodes. reflexivity.
Qed.

End RunTheorems.
(** C2 (as amended). When both outputs name the same tier, preview or
    workflow, and at least one of them is enabled, a run whose input
    file is there when it is checked (and whose temp directory has a
    name) calls the encoder for a tier exactly once, for the tier both
    outputs name. *)
Theorem single_encode (env : Env) (cfg : Config) (prog input_file : string)
    (rest : list string) (fs : gset string) :
  Str.truthy (AW_TEMP env) = true ->
  input_file ∈ files_at_check env cfg fs ->
  ENABLE_P5_PREVIEW cfg || ENABLE_WORKFLOW_STORE cfg = true ->
  P5_PREVIEW_SOURCE cfg = WORKFLOW_STORE_SOURCE cfg ->
  P5_PREVIEW_SOURCE cfg = "preview" \/ P5_PREVIEW_SOURCE cfg = "workflow" ->
  exists f u o,
    transcodes (trace (snd (run_main env cfg (prog :: input_file :: rest) fs)))
    = [if String.eqb (P5_PREVIEW_SOURCE cfg) "preview"
       then EvTranscode "preview_quality"
              (preview_command env cfg f u input_file) o
       else EvTranscode "workflow_quality"
              (workflow_command env cfg f u input_file) o].
Proof.
  intros Htemp Hcheck Hen Hsame Htier.
  destruct Htier as [Ht|Ht];
    destruct (same_source_needs cfg _ Hen Ht (eq_trans (eq_sym Hsame) Ht))
      as [Hnp Hnw]; rewrite Ht.
  - exact (one_encode_of_preview env cfg prog input_file rest fs
             Htemp Hcheck Hnp Hnw).
  - exact (one_encode_of_workflow env cfg prog input_file rest fs
             Htemp Hcheck Hnp Hnw).
Qed.

Lemma single_encode_witness :
  exists f u o,
    transcodes
      (trace (snd (run_main ideal_env
                     (with_outputs shipped_config true "preview" true "preview")
                     ["p5_proxy_generator.py"; A001] A001_only)))
    = [EvTranscode "preview_quality"
         (preview_command ideal_env
            (with_outputs shipped_config true "preview" true "preview")
            f u A001) o].
Proof.
  apply (single_encode ideal_env
           (with_outputs shipped_config true "preview" true "preview")
           "p5_proxy_generator.py" A001 [] A001_only).
  - reflexivity.
  - refine (bool_decide_unpack _ _). vm_compute. exact I.
  - reflexivity.
  - reflexivity.
  - left. reflexivity.
Defined.

(** C2, as stated, fails: both outputs name the preview tier, both are
    disabled, and the run, which succeeds, never calls the encoder for a
    tier. *)
Lemma single_encode_counterexample :
  let cfg := with_outputs shipped_config false "preview" false "preview" in
  let run := run_main ideal_env cfg ["p5_proxy_generator.py"; A001] A001_only in
  P5_PREVIEW_SOURCE cfg = WORKFLOW_STORE_SOURCE cfg
  /\ fst run = Ok tt
  /\ transcodes (trace (snd run)) = []
  /\ length (transcodes (trace (snd run))) <> 1.
Proof. vm_compute. repeat split. discriminate. Qed.

(** C7 (as amended). When both outputs are enabled and name different
    tiers, one preview and one workflow, a run whose input file is there
    when it is checked (and whose temp directory has a name) calls the
    encoder first for the preview tier and, if that call returns 0, once
    more for the workflow tier: two calls, one per tier. If the first
    call does not return 0, the run stops after that one call. *)
Theorem two_encodes (env : Env) (cfg : Config) (prog input_file : string)
    (rest : list string) (fs : gset string) :
  Str.truthy (AW_TEMP env) = true ->
  input_file ∈ files_at_check env cfg fs ->
  ENABLE_P5_PREVIEW cfg = true -> ENABLE_WORKFLOW_STORE cfg = true ->
  (P5_PREVIEW_SOURCE cfg = "preview" /\ WORKFLOW_STORE_SOURCE cfg = "workflow")
  \/ (P5_PREVIEW_SOURCE cfg = "workflow" /\ WORKFLOW_STORE_SOURCE cfg = "preview") ->
  exists f u o1,
    let first := EvTranscode "preview_quality"
                   (preview_command env cfg f u input_file) o1 in
    let '(r, st) := run_main env cfg (prog :: input_file :: rest) fs in
    (succeeded o1 = true
     /\ exists o2,
          transcodes (trace st)
          = [first;
             EvTranscode "workflow_quality"
               (workflow_command env cfg f u input_file) o2])
    \/ (succeeded o1 = false
        /\ transcodes (trace st) = [first]
        /\ exists e, r = Stop e).
Proof.
  intros Htemp Hcheck Hep Hew Htiers.
  apply both_tiers_run; try assumption;
    unfold need_preview, need_workflow; rewrite Hep, Hew;
    destruct Htiers as [[-> ->]|[-> ->]]; reflexivity.
Qed.

Lemma two_encodes_witness :
  exists f u o1,
    let first := EvTranscode "preview_quality"
                   (preview_command ideal_env shipped_config f u A001) o1 in
    let '(r, st) :=
      run_main ideal_env shipped_config ["p5_proxy_generator.py"; A001] A001_only in
    (succeeded o1 = true
     /\ exists o2,
          transcodes (trace st)
          = [first;
             EvTranscode "workflow_quality"
               (workflow_command ideal_env shipped_config f u A001) o2])
    \/ (succeeded o1 = false
        /\ transcodes (trace st) = [first]
        /\ exists e, r = Stop e).
Proof.
  apply (two_encodes ideal_env shipped_config "p5_proxy_generator.py" A001 []
           A001_only).
  - reflexivity.
  - refine (bool_decide_unpack _ _). vm_compute. exact I.
  - reflexivity.
  - reflexivity.
  - left. split; reflexivity.
Defined.

(** C7, as stated, fails: the outputs name different tiers, but the
    workflow output is disabled and the encoder is called once; and with
    both outputs enabled and an encoder that returns 1, the run stops
    after the first call. *)
Lemma two_encodes_counterexample :
  let cfg := with_outputs shipped_config true "preview" false "workflow" in
  let run := run_main ideal_env cfg ["p5_proxy_generator.py"; A001] A001_only in
  let failing_env :=
    {| AW_TEMP := AW_TEMP ideal_env; AW_BIN := AW_BIN ideal_env;
       getpid := getpid ideal_env; subprocess_run := failing_encoder 1 |} in
  let failing_run :=
    run_main failing_env shipped_config ["p5_proxy_generator.py"; A001] A001_only in
  (P5_PREVIEW_SOURCE cfg <> WORKFLOW_STORE_SOURCE cfg
   /\ fst run = Ok tt
   /\ length (transcodes (trace (snd run))) = 1)
  /\ (P5_PREVIEW_SOURCE shipped_config <> WORKFLOW_STORE_SOURCE shipped_config
      /\ fst failing_run = Stop (SysExit 1)
      /\ length (transcodes (trace (snd failing_run))) = 1).
Proof. vm_compute. repeat split; discriminate. Qed.

(** Finding the copy event [H : l = before ++ EvCopy src dst :: after] in
    a trace [l] of quiet pieces and single events: [found] is run at
    each copy event of [l]. *)
Ltac locate_copy H found :=
  lazymatch type of H with
  | [] = _ => exfalso; exact (copy_nil _ _ _ _ H)
  | EvCopy _ _ :: _ = _ =>
      let b := fresh "b" in
      apply copy_cases in H as [(-> & -> & ->) | (b & H)];
      [ found | locate_copy H found ]
  | _ :: _ = _ =>
      let b := fresh "b" in
      apply copy_skip_cons in H as (b & -> & H);
      [ locate_copy H found | reflexivity ]
  | _ ++ _ = _ =>
      let b := fresh "b" in
      apply copy_skip in H as (b & -> & H);
      [ locate_copy H found | apply copy_sources_quiet; assumption ]
  | ?A = _ =>
      rewrite <- (app_nil_r A) in H; locate_copy H found
  end.

Ltac find_in :=
  cbn [In];
  first [ left; reflexivity
        | right; find_in
        | apply in_or_app; right; find_in ].

Section CopySource.
Variable env : Env.
Variable cfg : Config.

Lemma store_needs_preview :
  ENABLE_WORKFLOW_STORE cfg = true -> WORKFLOW_STORE_SOURCE cfg = "preview" ->
  need_preview cfg = true.
Proof. intros H1 H2. unfold need_preview. rewrite H1, H2. apply orb_true_r. Qed.

Lemma store_needs_workflow :
  ENABLE_WORKFLOW_STORE cfg = true -> WORKFLOW_STORE_SOURCE cfg = "workflow" ->
  need_workflow cfg = true.
Proof. intros H1 H2. unfold need_workflow. rewrite H1, H2. apply orb_true_r. Qed.

Lemma last_preview_command (f : string) (u : bool) (input_file : string) :
  last (preview_command env cfg f u input_file)
  = Some (preview_temp_path env cfg input_file).
Proof. apply last_ffmpeg_command. Qed.

Lemma last_workflow_command (f : string) (u : bool) (input_file : string) :
  last (workflow_command env cfg f u input_file)
  = Some (workflow_temp_path env cfg input_file).
Proof. apply last_ffmpeg_command. Qed.

End CopySource.

(** At a copy event, when the workflow output takes the preview tier. *)
Ltac found_preview env cfg Hws :=
  unfold store_source; rewrite Hws; cbn [String.eqb Ascii.eqb Bool.eqb];
  match goal with
  | Hen : ENABLE_WORKFLOW_STORE cfg = true, Hnp : need_preview cfg = false |- _ =>
      pose proof (store_needs_preview cfg Hen Hws); congruence
  | Hs : succeeded ?o = true
    |- _ /\ encoded_in _ (preview_temp_path env cfg ?i) =>
      let res := fresh "res" in let Hrc := fresh "Hrc" in
      destruct (succeeded_true o Hs) as (res & -> & Hrc);
      split; [apply preview_temp_path_truthy|];
      eexists "preview_quality", _, res;
      split; [find_in | split; [exact Hrc | apply last_preview_command]]
  end.

Ltac found_workflow env cfg Hws :=
  unfold store_source; rewrite Hws; cbn [String.eqb Ascii.eqb Bool.eqb];
  match goal with
  | Hen : ENABLE_WORKFLOW_STORE cfg = true, Hnw : need_workflow cfg = false |- _ =>
      pose proof (store_needs_workflow cfg Hen Hws); congruence
  | Hs : succeeded ?o = true
    |- _ /\ encoded_in _ (workflow_temp_path env cfg ?i) =>
      let res := fresh "res" in let Hrc := fresh "Hrc" in
      destruct (succeeded_true o Hs) as (res & -> & Hrc);
      split; [apply workflow_temp_path_truthy|];
      eexists "workflow_quality", _, res;
      split; [find_in | split; [exact Hrc | apply last_workflow_command]]
  end.

Ltac copy_leaf found :=
  let Htrace := fresh "Htrace" in
  intros [= <- <-]; cbn [snd trace extend]; split_store_events;
  rewrite <- ?app_assoc; cbn [app]; intros Htrace;
  locate_copy Htrace found.


Section CopySourceRun.
Variable env : Env.
Variable cfg : Config.

Lemma copy_source_preview (prog input_file : string) (rest : list string)
    (fs : gset string) (before after : list Event) (src dst : string) :
  Str.truthy (AW_TEMP env) = true ->
  WORKFLOW_STORE_SOURCE cfg = "preview" ->
  trace (snd (run_main env cfg (prog :: input_file :: rest) fs))
  = before ++ EvCopy src dst :: after ->
  Str.truthy src = true /\ encoded_in before src.
Proof.
  intros Htemp Hws.
  destruct (run_main env cfg (prog :: input_file :: rest) fs) as [r st] eqn:Hrun.
  revert Hrun.
  walk_all env cfg fs Htemp.
  all: copy_leaf ltac:(found_preview env cfg Hws).
Qed.

Lemma copy_source_workflow (prog input_file : string) (rest : list string)
    (fs : gset string) (before after : list Event) (src dst : string) :
  Str.truthy (AW_TEMP env) = true ->
  WORKFLOW_STORE_SOURCE cfg = "workflow" ->
  trace (snd (run_main env cfg (prog :: input_file :: rest) fs))
  = before ++ EvCopy src dst :: after ->
  Str.truthy src = true /\ encoded_in before src.
Proof.
  intros Htemp Hws.
  destruct (run_main env cfg (prog :: input_file :: rest) fs) as [r st] eqn:Hrun.
  revert Hrun.
  walk_all env cfg fs Htemp.
  all: copy_leaf ltac:(found_workflow env cfg Hws).
Qed.

(** Without an input argument nothing is copied. *)
Lemma no_copy_without_input (argv : list string) (fs : gset string)
    (before after : list Event) (src dst : string) :
  length argv < 2 ->
  trace (snd (run_main env cfg argv fs)) <> before ++ EvCopy src dst :: after.
Proof.
  intros Hlen. destruct argv as [|prog [|input_file rest]];
    [| |simpl in Hlen; lia];
    cbn; intros H; destruct before as [|? [|? ?]]; discriminate H.
Qed.

End CopySourceRun.

(** C10. When both sources are "preview" or "workflow", every copy into
    the workflow store takes a path that is not empty and that a call of
    the encoder earlier in the run, one that returned 0, has written
    (for runs whose temp directory has a name). With a source of the
    workflow output outside these two, the copy is attempted with the
    empty path: the shipped configuration with that source set to "high"
    does so and ends in an uncaught error. *)
Theorem copy_source_encoded :
  (forall (env : Env) (cfg : Config) (argv : list string) (fs : gset string)
          (before after : list Event) (src dst : string),
      Str.truthy (AW_TEMP env) = true ->
      P5_PREVIEW_SOURCE cfg = "preview" \/ P5_PREVIEW_SOURCE cfg = "workflow" ->
      WORKFLOW_STORE_SOURCE cfg = "preview" \/ WORKFLOW_STORE_SOURCE cfg = "workflow" ->
      trace (snd (run_main env cfg argv fs)) = before ++ EvCopy src dst :: after ->
      Str.truthy src = true /\ encoded_in before src)
  /\ (let cfg := with_outputs shipped_config true "preview" true "high" in
      let run := run_main ideal_env cfg ["p5_proxy_generator.py"; A001] A001_only in
      copy_sources (trace (snd run)) = [EmptyString]
      /\ fst run = Stop (Uncaught "FileNotFoundError")).
Proof.
  split.
  - intros env cfg argv fs before after src dst Htemp _ Hws Htrace.
    destruct argv as [|prog [|input_file rest]].
    + exfalso. revert Htrace. apply no_copy_without_input. simpl. lia.
    + exfalso. revert Htrace. apply no_copy_without_input. simpl. lia.
    + destruct Hws as [Hws|Hws].
      * eapply copy_source_preview; eassumption.
      * eapply copy_source_workflow; eassumption.
  - vm_compute. split; reflexivity.
Qed.

Lemma copy_source_encoded_witness :
  Str.truthy "/usr/local/aw/temp/A001_workflow.mp4" = true
  /\ encoded_in
       (firstn 11 (trace (snd (run_main ideal_env shipped_config
                                 ["p5_proxy_generator.py"; A001] A001_only))))
       "/usr/local/aw/temp/A001_workflow.mp4".
Proof.
  apply (proj1 copy_source_encoded ideal_env shipped_config
           ["p5_proxy_generator.py"; A001] A001_only
           (firstn 11 (trace (snd (run_main ideal_env shipped_config
                                    ["p5_proxy_generator.py"; A001] A001_only))))
           (skipn 12 (trace (snd (run_main ideal_env shipped_config
                                    ["p5_proxy_generator.py"; A001] A001_only))))
           "/usr/local/aw/temp/A001_workflow.mp4"
           "/Volumes/RAW/Projects/2024/BMW/Footage/proxies/A001.mp4").
  - reflexivity.
  - left. reflexivity.
  - right. reflexivity.
  - vm_compute. reflexivity.
Defined.

(** The lines on standard output of a trace made of quiet pieces and
    single events. *)
Ltac count_printed :=
  repeat (rewrite printed_app || rewrite printed_cons || rewrite printed_nil);
  repeat match goal with
         | H : Forall _ ?l |- context [printed ?l] =>
             rewrite (printed_quiet l H)
         end;
  cbn [app]; rewrite ?app_nil_r; cbn [app].

Section ReturnAndCleanup.
Variable env : Env.
Variable cfg : Config.

(** What the check of the return file and the cleanup leave. *)
Lemma cleanup_facts (pp wp rp : string) (fs fsc : gset string) :
  (forall x, x ∈ fsc <->
     x ∈ fs /\ ~ (Str.truthy x = true /\ x <> rp /\ (x = pp \/ x = wp))) ->
  rp ∈ fs ->
  rp ∈ fsc
  /\ (forall p, p = pp \/ p = wp -> Str.truthy p = true -> p <> rp -> p ∉ fsc).
Proof.
  intros Hfsc Hin. split.
  - apply Hfsc. split; [exact Hin|]. intros (_ & Hne & _). congruence.
  - intros p Hp Ht Hne Hx. apply Hfsc in Hx as [_ Hx]. apply Hx. auto.
Qed.

Lemma survivors_none (l : list string) (S : gset string) (rp : string) :
  ~ In rp l -> (forall p, In p l -> p <> rp -> p ∉ S) ->
  List.filter (fun p => bool_decide (p ∈ S)) l = [].
Proof.
  induction l as [|x l IH]; intros Hni Hgone; [reflexivity|].
  cbn [List.filter]. rewrite bool_decide_false.
  - apply IH; [intros H; apply Hni; right; exact H|].
    intros p Hp. apply Hgone. right. exact Hp.
  - apply Hgone; [left; reflexivity|]. intros ->. apply Hni. left. reflexivity.
Qed.

Lemma survivors_one (l : list string) (S : gset string) (rp : string) :
  List.NoDup l -> In rp l -> rp ∈ S ->
  (forall p, In p l -> p <> rp -> p ∉ S) ->
  List.filter (fun p => bool_decide (p ∈ S)) l = [rp].
Proof.
  induction 1 as [|x l Hx Hnd IH]; intros Hin Hrp Hgone; [destruct Hin|].
  cbn [List.filter]. destruct (decide (x = rp)) as [->|Hne].
  - rewrite bool_decide_true by exact Hrp. f_equal.
    apply (survivors_none l S rp Hx). intros p Hp. apply Hgone. right. exact Hp.
  - rewrite bool_decide_false by (apply Hgone; [left; reflexivity | exact Hne]).
    apply IH; [destruct Hin as [Hin|Hin]; [contradiction | exact Hin] | exact Hrp |].
    intros p Hp. apply Hgone. right. exact Hp.
Qed.

Lemma produced_artifacts_NoDup (input_file : string) :
  List.NoDup (produced_artifacts env cfg input_file).
Proof.
  pose proof (temp_paths_distinct env cfg input_file) as Hd.
  unfold produced_artifacts.
  destruct (need_preview cfg), (need_workflow cfg); cbn [app];
    repeat (apply List.NoDup_cons || apply List.NoDup_nil);
    cbn [In]; intuition congruence.
Qed.

Lemma successful_run_facts (prog input_file : string)
    (rest : list string) (fs : gset string) (st : State) :
  Str.truthy (AW_TEMP env) = true ->
  run_main env cfg (prog :: input_file :: rest) fs = (Ok tt, st) ->
  exists return_path,
    printed (trace st) = [return_path]
    /\ return_path ∈ files st
    /\ (forall p, In p (produced_artifacts env cfg input_file) ->
                  p <> return_path -> p ∉ files st)
    /\ (ENABLE_P5_PREVIEW cfg = true ->
        In return_path (produced_artifacts env cfg input_file))
    /\ (ENABLE_P5_PREVIEW cfg = false ->
        return_path = placeholder_path env
        /\ ~ In return_path (produced_artifacts env cfg input_file)).
Proof.
  intros Htemp.
  walk_all env cfg fs Htemp.
  all: intros Heq; first [discriminate Heq | injection Heq as <-].
  all: cbn [trace files extend]; split_store_events.
  all: match goal with
       | Hfsc : forall x, x ∈ _ <-> _, Hin : _ ∈ _ |- _ =>
           destruct (cleanup_facts _ _ _ _ _ Hfsc Hin) as [Hrp Hgone]
       end.
  all: unfold produced_artifacts;
       repeat match goal with H : need_preview cfg = _ |- _ => rewrite H; clear H
                         | H : need_workflow cfg = _ |- _ => rewrite H; clear H end;
       cbn [app].
  all: match goal with
       | Hret : ?rp = _ |- _ => exists rp
       end.
  all: split; [count_printed; reflexivity|].
  all: split; [exact Hrp|].
  all: split; [|split].
  all: lazymatch goal with
       | |- forall p, In p _ -> _ =>
           intros p Hp Hne;
           assert (Htp : Str.truthy p = true)
             by (cbn [In] in Hp;
                 repeat (destruct Hp as [<-|Hp];
                         [first [apply preview_temp_path_truthy
                                | apply workflow_temp_path_truthy]|]);
                 destruct Hp);
           apply Hgone; [cbn [In] in Hp; intuition congruence | exact Htp | exact Hne]
       | |- _ = true -> _ =>
           intros Hprev; rewrite Hprev in Hret; unfold preview_source in Hret;
           destruct (String.eqb (P5_PREVIEW_SOURCE cfg) "preview"); subst rp;
           first [discriminate Htr | cbn [In]; solve [auto]]
       | |- _ = false -> _ =>
           intros Hprev; rewrite Hprev in Hret; split; [exact Hret|]; subst rp;
           cbn [In]; intros H;
           repeat (destruct H as [H|H];
                   [symmetry in H; revert H;
                    first [apply placeholder_not_preview
                          | apply placeholder_not_workflow]|]);
           destruct H
       end.
Qed.

End ReturnAndCleanup.

(** C3 (as amended). After a successful run exactly one line is on
    standard output, the return path; the file it names exists; and
    every tier artifact the run produced in the temp area, other than
    the return path, is gone, copied to the workflow store or not. If
    the preview output is enabled, the return path is one of the
    produced tier artifacts, so exactly one of them is left; if it is
    disabled, the return path is the placeholder image and none of the
    produced tier artifacts is left. (For runs whose temp directory has
    a name.) *)
Theorem return_and_cleanup (env : Env) (cfg : Config) (argv : list string)
    (fs : gset string) (st : State) :
  Str.truthy (AW_TEMP env) = true ->
  run_main env cfg argv fs = (Ok tt, st) ->
  exists prog input_file rest return_path,
    argv = prog :: input_file :: rest
    /\ printed (trace st) = [return_path]
    /\ return_path ∈ files st
    /\ (forall p, In p (produced_artifacts env cfg input_file) ->
                  p <> return_path -> p ∉ files st)
    /\ (ENABLE_P5_PREVIEW cfg = true ->
        In return_path (produced_artifacts env cfg input_file))
    /\ (ENABLE_P5_PREVIEW cfg = false ->
        return_path = placeholder_path env
        /\ ~ In return_path (produced_artifacts env cfg input_file))
    /\ List.filter (fun p => bool_decide (p ∈ files st))
         (produced_artifacts env cfg input_file)
       = if ENABLE_P5_PREVIEW cfg then [return_path] else [].
Proof.
  intros Htemp Hrun.
  destruct argv as [|prog [|input_file rest]]; try discriminate Hrun.
  destruct (successful_run_facts env cfg prog input_file rest fs st Htemp Hrun)
    as (rp & Hprinted & Hrp & Hgone & Hon & Hoff).
  exists prog, input_file, rest, rp.
  split; [reflexivity|]. split; [exact Hprinted|]. split; [exact Hrp|].
  split; [exact Hgone|]. split; [exact Hon|]. split; [exact Hoff|].
  destruct (ENABLE_P5_PREVIEW cfg).
  - apply survivors_one; auto using produced_artifacts_NoDup.
  - apply (survivors_none _ _ rp); [apply Hoff; reflexivity | exact Hgone].
Qed.

Lemma return_and_cleanup_witness :
  let st := snd (run_main ideal_env shipped_config
                   ["p5_proxy_generator.py"; A001] A001_only) in
  exists prog input_file rest return_path,
    ["p5_proxy_generator.py"; A001] = prog :: input_file :: rest
    /\ printed (trace st) = [return_path]
    /\ return_path ∈ files st
    /\ (forall p, In p (produced_artifacts ideal_env shipped_config input_file) ->
                  p <> return_path -> p ∉ files st)
    /\ (ENABLE_P5_PREVIEW shipped_config = true ->
        In return_path (produced_artifacts ideal_env shipped_config input_file))
    /\ (ENABLE_P5_PREVIEW shipped_config = false ->
        return_path = placeholder_path ideal_env
        /\ ~ In return_path (produced_artifacts ideal_env shipped_config input_file))
    /\ List.filter (fun p => bool_decide (p ∈ files st))
         (produced_artifacts ideal_env shipped_config input_file)
       = if ENABLE_P5_PREVIEW shipped_config then [return_path] else [].
Proof.
  apply (return_and_cleanup ideal_env shipped_config
           ["p5_proxy_generator.py"; A001] A001_only).
  - reflexivity.
  - vm_compute. reflexivity.
Defined.

(** C3, as stated, fails: with the preview output disabled and the
    workflow output taking the workflow tier, the run succeeds, the one
    tier artifact it produced is gone, and the path on standard output
    is the placeholder image, not a tier artifact. *)
Lemma return_and_cleanup_counterexample :
  let cfg := with_outputs shipped_config false "preview" true "workflow" in
  let run := run_main ideal_env cfg ["p5_proxy_generator.py"; A001] A001_only in
  fst run = Ok tt
  /\ produced_artifacts ideal_env cfg A001 = ["/usr/local/aw/temp/A001_workflow.mp4"]
  /\ List.filter (fun p => bool_decide (p ∈ files (snd run)))
       (produced_artifacts ideal_env cfg A001) = []
  /\ printed (trace (snd run)) = ["/usr/local/aw/temp/proxy_dummy_4242.jpg"]
  /\ copy_sources (trace (snd run)) = ["/usr/local/aw/temp/A001_workflow.mp4"].
Proof. vm_compute. repeat split. Qed.
Ltac count_tiers :=
  repeat (rewrite transcoded_tiers_app || rewrite transcoded_tiers_cons
          || rewrite transcoded_tiers_nil);
  repeat match goal with
         | H : Forall _ ?l |- context [transcoded_tiers ?l] =>
             rewrite (transcoded_tiers_quiet l H)
         end;
  cbn [app]; rewrite ?app_nil_r; cbn [app].

(** In a successful run the encoder is started for the needed tiers and
    for no other. *)
Lemma transcoded_tiers_run (env : Env) (cfg : Config) (prog input_file : string)
    (rest : list string) (fs : gset string) (st : State) :
  Str.truthy (AW_TEMP env) = true ->
  run_main env cfg (prog :: input_file :: rest) fs = (Ok tt, st) ->
  transcoded_tiers (trace st)
  = (if need_preview cfg then ["preview_quality"] else [])
    ++ (if need_workflow cfg then ["workflow_quality"] else []).
Proof.
  intros Htemp.
  walk_all env cfg fs Htemp.
  all: intros Heq; first [discriminate Heq | injection Heq as <-].
  all: cbn [trace extend]; split_store_events; count_tiers; reflexivity.
Qed.

(** C1. The tiers that are transcoded are exactly the tiers named by the
    [qualitySource] of some enabled output: the preview tier is needed
    iff the preview output is enabled with source "preview" or the
    workflow output is enabled with source "preview", and symmetrically
    for the workflow tier; when both outputs are disabled no tier is
    needed, whatever the sources are; and a successful run starts the
    encoder for the needed tiers and for no other. *)
Theorem need_set_exact (cfg : Config) :
  (need_preview cfg = true <->
     (ENABLE_P5_PREVIEW cfg = true /\ P5_PREVIEW_SOURCE cfg = "preview")
     \/ (ENABLE_WORKFLOW_STORE cfg = true /\ WORKFLOW_STORE_SOURCE cfg = "preview"))
  /\ (need_workflow cfg = true <->
     (ENABLE_P5_PREVIEW cfg = true /\ P5_PREVIEW_SOURCE cfg = "workflow")
     \/ (ENABLE_WORKFLOW_STORE cfg = true /\ WORKFLOW_STORE_SOURCE cfg = "workflow"))
  /\ (forall preview_source workflow_source,
        need_preview (with_outputs cfg false preview_source false workflow_source) = false
        /\ need_workflow (with_outputs cfg false preview_source false workflow_source) = false)
  /\ (forall (env : Env) (argv : list string) (fs : gset string) (st : State),
        Str.truthy (AW_TEMP env) = true ->
        run_main env cfg argv fs = (Ok tt, st) ->
        transcoded_tiers (trace st)
        = (if need_preview cfg then ["preview_quality"] else [])
          ++ (if need_workflow cfg then ["workflow_quality"] else [])).
Proof.
  split; [apply need_preview_iff | split; [apply need_workflow_iff | split]].
  - intros ps ws. split; reflexivity.
  - intros env argv fs st Htemp Hrun.
    destruct argv as [|prog [|input_file rest]]; try discriminate Hrun.
    eapply transcoded_tiers_run; eassumption.
Qed.

Lemma need_set_exact_witness :
  need_preview shipped_config = true
  /\ need_workflow (with_outputs shipped_config true "preview" true "preview") = false
  /\ transcoded_tiers
       (trace (snd (run_main ideal_env shipped_config
                      ["p5_proxy_generator.py"; A001] A001_only)))
     = ["preview_quality"; "workflow_quality"].
Proof.
  split; [|split].
  - apply (proj1 (need_set_exact shipped_config)). left. split; reflexivity.
  - destruct (need_workflow (with_outputs shipped_config true "preview" true "preview"))
      eqn:H; [|reflexivity].
    apply (proj1 (proj2 (need_set_exact
                           (with_outputs shipped_config true "preview" true "preview"))))
      in H.
    destruct H as [[_ H]|[_ H]]; discriminate H.
  - apply (proj2 (proj2 (proj2 (need_set_exact shipped_config))) ideal_env
             ["p5_proxy_generator.py"; A001] A001_only).
    + reflexivity.
    + vm_compute. reflexivity.
Defined.
(** * More facts about paths *)

Section NameFacts.
Import Str posixpath.

Lemma str_app_inv_r (s t u : string) : s +:+ u = t +:+ u -> s = t.
Proof.
  revert t. induction s as [|a s IH]; intros [|b t] H.
  - reflexivity.
  - exfalso. apply (f_equal String.length) in H.
    rewrite str_app_nil_l, str_app_cons in H. simpl in H.
    rewrite str_length_app in H. lia.
  - exfalso. apply (f_equal String.length) in H.
    rewrite str_app_nil_l, str_app_cons in H. simpl in H.
    rewrite str_length_app in H. lia.
  - rewrite !str_app_cons in H. injection H as -> H. f_equal. apply IH, H.
Qed.

Lemma split_app_sep (c : ascii) (a b : string) :
  split (a +:+ String c b) c = split a c ++ split b c.
Proof.
  induction a as [|x a IH].
  - rewrite str_app_nil_l. cbn [split]. rewrite Ascii.eqb_refl. reflexivity.
  - rewrite str_app_cons. cbn [split]. rewrite IH.
    destruct (Ascii.eqb x c); [reflexivity|].
    pose proof (split_nonempty c a) as Hn.
    destruct (split a c) as [|y ys]; [contradiction|]. reflexivity.
Qed.

Lemma split_free (c : ascii) (x : string) :
  has_char c x = false -> split x c = [x].
Proof.
  induction x as [|a x IH]; [reflexivity|].
  cbn [has_char split]. intros H. apply orb_false_iff in H as [Ha Hx].
  rewrite Ha, (IH Hx). reflexivity.
Qed.

Lemma endswith_sep_inv (c : ascii) (s : string) :
  endswith s (String c EmptyString) = true ->
  exists s', s = s' +:+ String c EmptyString.
Proof.
  induction s as [|a s IH]; [discriminate|].
  cbn [endswith]. intros H. apply orb_true_iff in H as [H|H].
  - apply String.eqb_eq in H. exists EmptyString. rewrite str_app_nil_l. exact H.
  - destruct (IH H) as [s' ->]. exists (String a s'). rewrite str_app_cons.
    reflexivity.
Qed.

Lemma dir_prefix_dir_like (p : string) : dir_like (dir_prefix p).
Proof.
  unfold dir_like, dir_prefix. destruct (truthy p) eqn:Ht; cbn [negb orb].
  - destruct (endswith p sep_str) eqn:He; [right; exact He|].
    right. apply endswith_app.
  - left. destruct p; [reflexivity | discriminate].
Qed.

(** The components of a directory part followed by a name. *)
Lemma split_dir_name (d x : string) :
  dir_like d -> has_char sep x = false ->
  exists l, split (d +:+ x) sep = l ++ [x].
Proof.
  intros [->|Hd] Hx.
  - exists []. rewrite str_app_nil_l. apply split_free, Hx.
  - destruct (endswith_sep_inv sep d Hd) as [d' ->].
    exists (split d' sep). rewrite str_app_assoc, str_app_cons, str_app_nil_l.
    rewrite split_app_sep, (split_free sep x Hx). reflexivity.
Qed.

(** A path is cut into its directory part and its name in one way
    only. *)
Lemma dir_name_unique (d1 d2 x1 x2 : string) :
  dir_like d1 -> dir_like d2 ->
  has_char sep x1 = false -> has_char sep x2 = false ->
  d1 +:+ x1 = d2 +:+ x2 -> d1 = d2 /\ x1 = x2.
Proof.
  intros Hd1 Hd2 Hx1 Hx2 H.
  destruct (split_dir_name d1 x1 Hd1 Hx1) as [l1 H1].
  destruct (split_dir_name d2 x2 Hd2 Hx2) as [l2 H2].
  rewrite H, H2 in H1. apply app_inj_tail in H1 as [_ ->].
  split; [|reflexivity]. apply str_app_inv_r in H. exact H.
Qed.

Lemma name_dir_name (d x : string) :
  dir_like d -> has_char sep x = false ->
  x <> EmptyString -> x <> "." ->
  name (d +:+ x) = x.
Proof.
  intros Hd Hx Hne Hdot. unfold name.
  destruct (split_dir_name d x Hd Hx) as [l ->].
  rewrite List.filter_app. cbn [List.filter].
  apply String.eqb_neq in Hne. apply String.eqb_neq in Hdot.
  rewrite Hne, Hdot. cbn [orb negb]. rewrite last_snoc. reflexivity.
Qed.

Lemma stem_of_name_eq (p : string) : stem p = stem_of_name (name p).
Proof. reflexivity. Qed.

Lemma rfind_app_sep (c : ascii) (a b : string) :
  exists k, rfind (a +:+ String c b) c = Some k /\ String.length a <= k.
Proof.
  induction a as [|x a IH].
  - rewrite str_app_nil_l. cbn [rfind]. destruct (rfind b c) as [i|].
    + exists (S i). split; [reflexivity | simpl; lia].
    + rewrite Ascii.eqb_refl. exists 0. split; [reflexivity | simpl; lia].
  - destruct IH as (k & Hk & Hle). rewrite str_app_cons. cbn [rfind].
    rewrite Hk. exists (S k). split; [reflexivity | simpl; lia].
Qed.

Lemma rfind_app_last (c : ascii) (a b : string) :
  has_char c b = false ->
  rfind (a +:+ String c b) c = Some (String.length a).
Proof.
  intros Hb.
  assert (Hnone : rfind b c = None).
  { clear a. induction b as [|x b IH]; [reflexivity|].
    cbn [has_char] in Hb. apply orb_false_iff in Hb as [Hx Hb].
    cbn [rfind]. rewrite (IH Hb), Hx. reflexivity. }
  induction a as [|x a IH].
  - rewrite str_app_nil_l. cbn [rfind]. rewrite Hnone, Ascii.eqb_refl. reflexivity.
  - rewrite str_app_cons. cbn [rfind]. rewrite IH. reflexivity.
Qed.

Lemma length_take (k : nat) (s : string) :
  String.length (take k s) = Nat.min k (String.length s).
Proof.
  revert k. induction s as [|a s IH]; intros [|k]; simpl; auto.
Qed.

(** The stem of a name that holds a dot reaches at least up to that
    dot. *)
Lemma length_stem_of_name (a b : string) :
  String.length a <= String.length (stem_of_name (a +:+ String "." b)).
Proof.
  unfold stem_of_name.
  destruct (rfind_app_sep "." a b) as (k & -> & Hk).
  pose proof (str_length_app a (String "." b)) as Hlen.
  destruct ((0 <? k) && (k <? String.length (a +:+ String "." b) - 1)) eqn:Hc.
  - rewrite length_take. apply andb_prop in Hc as [_ Hc].
    apply Nat.ltb_lt in Hc. lia.
  - lia.
Qed.

End NameFacts.

Section DestFacts.
Import Str posixpath.

Lemma get_container_free (codec custom : string) :
  has_char sep custom = false -> has_char sep (get_container codec custom) = false.
Proof.
  intros H. unfold get_container. destruct (truthy custom); [exact H|].
  destruct (String.eqb codec "h264"); [reflexivity|].
  destruct (String.eqb codec "prores"); [reflexivity|].
  destruct (String.eqb codec "dnxhd"); reflexivity.
Qed.

(** The name of a file in the temp area is not the name of its
    source. *)
Lemma tagged_name_not_input (d tag ext input_file : string) :
  dir_like d -> has_char sep tag = false -> has_char sep ext = false ->
  tag <> EmptyString ->
  d +:+ stem input_file +:+ tag +:+ "." +:+ ext <> input_file.
Proof.
  intros Hd Htag Hext Hne H.
  assert (Hfree : has_char sep (stem input_file +:+ tag +:+ "." +:+ ext) = false).
  { rewrite !has_char_app, stem_free, Htag, Hext. reflexivity. }
  assert (Hlen : String.length (stem input_file +:+ tag +:+ "." +:+ ext)
                 = String.length (stem input_file) + String.length tag + 1
                   + String.length ext).
  { rewrite !str_length_app. simpl. lia. }
  assert (Htl : 0 < String.length tag) by (destruct tag; [congruence | simpl; lia]).
  pose proof (name_dir_name d _ Hd Hfree) as Hname.
  rewrite H in Hname.
  assert (Hn : name input_file = stem input_file +:+ tag +:+ "." +:+ ext).
  { apply Hname.
    - intros E. rewrite E in Hlen. simpl in Hlen. lia.
    - intros E. rewrite E in Hlen. simpl in Hlen. lia. }
  pose proof (stem_of_name_eq input_file) as Hs. rewrite Hn in Hs.
  replace (stem input_file +:+ tag +:+ "." +:+ ext)
    with ((stem input_file +:+ tag) +:+ String "." ext) in Hs
    by (rewrite str_app_assoc; reflexivity).
  pose proof (length_stem_of_name (stem input_file +:+ tag) ext) as Hle.
  rewrite <- Hs, str_length_app in Hle. lia.
Qed.

Variable cfg : Config.

Lemma build_workflow_path_shape (src_file container : string) :
  fst (build_workflow_path cfg src_file container)
  = dir_prefix (fst (workflow_target_dir cfg src_file))
    +:+ stem src_file +:+ proxy_suffix cfg src_file +:+ "." +:+ container.
Proof.
  rewrite build_workflow_path_fst. unfold join. cbn [fold_left].
  unfold output_basename, proxy_suffix.
  destruct (String.eqb _ _).
  - rewrite join2_relative
      by (rewrite str_app_assoc; apply stem_app_relative; reflexivity).
    rewrite !str_app_assoc. reflexivity.
  - rewrite join2_relative by (apply stem_app_relative; reflexivity).
    rewrite str_app_nil_l. reflexivity.
Qed.

Lemma proxy_suffix_free (src_file : string) :
  has_char sep (proxy_suffix cfg src_file) = false.
Proof. unfold proxy_suffix. destruct (String.eqb _ _); reflexivity. Qed.

(** The mapped path is not a file of the temp area named after a
    tier. *)
Lemma dest_not_tagged (d tag src_file container : string) :
  dir_like d -> has_char sep tag = false ->
  tag <> "_proxy" -> tag <> EmptyString ->
  fst (build_workflow_path cfg src_file container)
  <> d +:+ stem src_file +:+ tag +:+ "." +:+ container.
Proof.
  intros Hd Htag Hp He H. rewrite build_workflow_path_shape in H.
  replace (dir_prefix (fst (workflow_target_dir cfg src_file))
           +:+ stem src_file +:+ proxy_suffix cfg src_file +:+ "." +:+ container)
    with ((dir_prefix (fst (workflow_target_dir cfg src_file))
           +:+ stem src_file +:+ proxy_suffix cfg src_file) +:+ ("." +:+ container))
    in H by (rewrite !str_app_assoc; reflexivity).
  replace (d +:+ stem src_file +:+ tag +:+ "." +:+ container)
    with ((d +:+ stem src_file +:+ tag) +:+ ("." +:+ container))
    in H by (rewrite !str_app_assoc; reflexivity).
  apply str_app_inv_r in H.
  apply dir_name_unique in H as [_ H].
  - apply (inj (String.app _)) in H. unfold proxy_suffix in H.
    destruct (String.eqb _ _); congruence.
  - apply dir_prefix_dir_like.
  - exact Hd.
  - rewrite has_char_app, stem_free, proxy_suffix_free. reflexivity.
  - rewrite has_char_app, stem_free, Htag. reflexivity.
Qed.

End DestFacts.

Section TrailingSlashes.
Import Str posixpath.

Lemma take_app_exact (p t : string) : take (String.length p) (p +:+ t) = p.
Proof.
  induction p as [|a p IH].
  - rewrite str_app_nil_l. destruct t; reflexivity.
  - rewrite str_app_cons. cbn [String.length take]. rewrite IH. reflexivity.
Qed.

Lemma rstrip_decompose (c : ascii) (t : string) :
  exists k, t = rstrip t c +:+ repeat_char c k.
Proof.
  induction t as [|a t [k IH]].
  - exists 0. reflexivity.
  - cbn [rstrip]. destruct (rstrip t c) as [|b r] eqn:Hr.
    + destruct (Ascii.eqb_spec a c) as [->|Hne].
      * exists (S k). rewrite str_app_nil_l in *. cbn [repeat_char].
        rewrite <- IH. reflexivity.
      * exists k. rewrite str_app_cons, <- IH. reflexivity.
    + exists k. rewrite str_app_cons, <- IH. reflexivity.
Qed.

Lemma rstrip_not_all (c : ascii) (t : string) :
  all_char c t = false -> all_char c (rstrip t c) = false.
Proof.
  induction t as [|a t IH]; [discriminate|].
  cbn [all_char rstrip]. intros H.
  destruct (rstrip t c) as [|b r] eqn:Hr.
  - destruct (Ascii.eqb a c) eqn:Ha.
    + cbn [andb] in H. apply rstrip_empty_all in Hr. congruence.
    + cbn [all_char]. rewrite Ha. reflexivity.
  - cbn [all_char]. destruct (Ascii.eqb a c); [|reflexivity].
    cbn [andb] in H |- *. apply IH in H. exact H.
Qed.

Lemma startswith_app_not_all (c : ascii) (t r : string) (j : nat) :
  all_char c t = false ->
  startswith (t +:+ r) (repeat_char c j) = startswith t (repeat_char c j).
Proof.
  revert t. induction j as [|j IH]; intros t Ht.
  - unfold startswith. cbn [repeat_char]. destruct (t +:+ r), t; reflexivity.
  - destruct t as [|a t]; [discriminate|].
    rewrite str_app_cons. unfold startswith in *. cbn [repeat_char String.prefix].
    cbn [all_char] in Ht.
    destruct (ascii_dec c a) as [<-|Hne]; [|reflexivity].
    rewrite Ascii.eqb_refl in Ht. cbn [andb] in Ht. apply IH, Ht.
Qed.

Lemma split_trailing (t : string) (k : nat) :
  split (t +:+ repeat_char sep k) sep = split t sep ++ List.repeat EmptyString k.
Proof.
  revert t. induction k as [|k IH]; intros t.
  - cbn [repeat_char List.repeat]. rewrite str_app_nil_r, app_nil_r. reflexivity.
  - cbn [repeat_char]. rewrite split_app_sep. f_equal.
    specialize (IH EmptyString). rewrite str_app_nil_l in IH. rewrite IH.
    reflexivity.
Qed.

Lemma fold_normpath_step_empty (n k : nat) (acc : list string) :
  fold_left (normpath_step n) (List.repeat EmptyString k) acc = acc.
Proof. induction k as [|k IH]; [reflexivity|]. cbn [List.repeat fold_left]. exact IH. Qed.

(** Slashes at the end of a path do not change what it normalises
    to. *)
Lemma normpath_trailing (t : string) (k : nat) :
  all_char sep t = false -> normpath (t +:+ repeat_char sep k) = normpath t.
Proof.
  intros Ht. unfold normpath.
  assert (Htr : truthy t = true) by (destruct t; [discriminate | reflexivity]).
  assert (Htr' : truthy (t +:+ repeat_char sep k) = true).
  { destruct t; [discriminate|]. rewrite str_app_cons. reflexivity. }
  rewrite Htr, Htr'. cbn [negb].
  pose proof (startswith_app_not_all sep t (repeat_char sep k) 1 Ht) as H1.
  pose proof (startswith_app_not_all sep t (repeat_char sep k) 2 Ht) as H2.
  pose proof (startswith_app_not_all sep t (repeat_char sep k) 3 Ht) as H3.
  change (repeat_char sep 1) with "/" in H1.
  change (repeat_char sep 2) with "//" in H2.
  change (repeat_char sep 3) with "///" in H3.
  rewrite H1, H2, H3.
  rewrite split_trailing, fold_left_app, fold_normpath_step_empty. reflexivity.
Qed.

Lemma normpath_rstrip (t : string) :
  all_char sep t = false -> normpath (rstrip t sep) = normpath t.
Proof.
  intros Ht. destruct (rstrip_decompose sep t) as [k Hk].
  rewrite Hk at 2. symmetry. apply normpath_trailing, rstrip_not_all, Ht.
Qed.

Lemma head_of_dir_name (d n : string) :
  endswith d sep_str = true -> has_char sep n = false -> head_of (d +:+ n) = d.
Proof.
  intros Hd Hn. destruct (endswith_sep_inv sep d Hd) as [d' ->].
  unfold head_of. rewrite str_app_assoc, str_app_cons, str_app_nil_l.
  rewrite (rfind_app_last sep d' n Hn).
  replace (S (String.length d')) with (String.length (d' +:+ String sep EmptyString))
    by (rewrite str_length_app; simpl; lia).
  replace (d' +:+ String sep n) with ((d' +:+ String sep EmptyString) +:+ n)
    by (rewrite str_app_assoc, str_app_cons, str_app_nil_l; reflexivity).
  apply take_app_exact.
Qed.

Lemma rfind_free (c : ascii) (s : string) : has_char c s = false -> rfind s c = None.
Proof.
  induction s as [|a s IH]; [reflexivity|].
  cbn [has_char rfind]. intros H. apply orb_false_iff in H as [Ha Hs].
  rewrite (IH Hs), Ha. reflexivity.
Qed.

Lemma rstrip_no_trailing (t : string) :
  endswith t sep_str = false -> rstrip (t +:+ sep_str) sep = rstrip t sep.
Proof.
  induction t as [|a t IH]; [reflexivity|].
  cbn [endswith]. intros H. apply orb_false_iff in H as [Ha Ht].
  rewrite str_app_cons. cbn [rstrip]. rewrite (IH Ht).
  reflexivity.
Qed.

Lemma rstrip_id (t : string) :
  endswith t sep_str = false -> rstrip t sep = t.
Proof.
  induction t as [|a t IH]; [reflexivity|].
  cbn [endswith]. intros H. apply orb_false_iff in H as [Ha Ht].
  cbn [rstrip]. rewrite (IH Ht). destruct t as [|b t]; [|reflexivity].
  destruct (Ascii.eqb_spec a sep) as [->|Hne]; [discriminate Ha | reflexivity].
Qed.

(** Joining a name to a directory and taking the directory of the
    result gives the directory back, up to normalisation. *)
Lemma normpath_dirname_join (t n : string) :
  has_char sep n = false ->
  normpath (dirname (dir_prefix t +:+ n)) = normpath t.
Proof.
  intros Hn. rewrite dirname_head. unfold dir_prefix.
  destruct (truthy t) eqn:Htr; cbn [negb orb].
  2:{ destruct t; [|discriminate]. rewrite str_app_nil_l.
      unfold head_of. rewrite (rfind_free sep n Hn). destruct n; reflexivity. }
  destruct (endswith t sep_str) eqn:He.
  - rewrite (head_of_dir_name t n He Hn), Htr. cbn [andb].
    destruct (all_char sep t) eqn:Ha; cbn [negb]; [reflexivity|].
    apply normpath_rstrip, Ha.
  - rewrite (head_of_dir_name (t +:+ sep_str) n (endswith_app t sep_str) Hn).
    assert (Hall : all_char sep (t +:+ sep_str) = false).
    { clear Hn. induction t as [|a t IH]; [discriminate|].
      rewrite str_app_cons. cbn [all_char endswith] in *.
      apply orb_false_iff in He as [Ha Ht].
      destruct (Ascii.eqb_spec a sep) as [->|Hne]; [|reflexivity].
      cbn [andb]. destruct t as [|b t]; [discriminate Ha|].
      apply IH; [reflexivity | exact Ht]. }
    rewrite Hall. replace (truthy (t +:+ sep_str)) with true
      by (destruct t; reflexivity).
    cbn [andb negb]. rewrite (rstrip_no_trailing t He), (rstrip_id t He).
    reflexivity.
Qed.

End TrailingSlashes.

(** * [aw_platform] *)

Section PlatformFacts.
Import Str posixpath.

Lemma slice_inner (a b : ascii) (p : string) :
  slice (String a (p +:+ String b EmptyString)) 1 (-1) = p.
Proof.
  unfold slice.
  assert (Hlen : String.length (String a (p +:+ String b EmptyString))
                 = S (S (String.length p))).
  { simpl. rewrite str_length_app. simpl. lia. }
  rewrite Hlen. cbv zeta.
  replace (1 <? 0)%Z with false by reflexivity.
  replace (-1 <? 0)%Z with true by reflexivity.
  replace (Z.to_nat (Z.min 1 (Z.of_nat (S (S (String.length p)))))) with 1 by lia.
  replace (Z.to_nat (Z.max (-1 + Z.of_nat (S (S (String.length p)))) 0
                     - Z.min 1 (Z.of_nat (S (S (String.length p))))))
    with (String.length p) by lia.
  cbn [drop]. apply take_app_exact.
Qed.

Lemma braced_strip (p : string) :
  startswith ("{" +:+ p +:+ "}") "{" && endswith ("{" +:+ p +:+ "}") "}" = true
  /\ slice ("{" +:+ p +:+ "}") 1 (-1) = p.
Proof.
  rewrite (endswith_app_r "{" (p +:+ "}") "}" (endswith_app p "}")).
  rewrite str_app_cons, str_app_nil_l.
  rewrite startswith_cons, Ascii.eqb_refl, slice_inner. auto.
Qed.

Lemma normpath_truthy (path : string) : truthy (normpath path) = true.
Proof.
  unfold normpath. destruct (truthy path); [|reflexivity]. cbn [negb].
  match goal with |- context [if truthy ?x then _ else _] =>
    destruct (truthy x) eqn:H; [exact H | reflexivity] end.
Qed.

Lemma has_char_replace (old new : ascii) (s : string) :
  old <> new -> has_char old (replace_char s old new) = false.
Proof.
  intros Hne. induction s as [|a s IH]; [reflexivity|].
  cbn [replace_char has_char]. rewrite IH, orb_false_r.
  destruct (Ascii.eqb_spec a old) as [->|Ha].
  - apply Ascii.eqb_neq. congruence.
  - apply Ascii.eqb_neq. exact Ha.
Qed.

Lemma length_replace (old new : ascii) (s : string) :
  String.length (replace_char s old new) = String.length s.
Proof. induction s; simpl; congruence. Qed.

Lemma win32_not_posix (platform : string) isdir environ tmp :
  platform <> "win32" ->
  aw_platform.win32 (posix_host platform isdir environ tmp) = false.
Proof. intros H. unfold aw_platform.win32. simpl. apply String.eqb_neq, H. Qed.

Lemma normalize_path_nonempty (platform : string) isdir environ tmp (p : string) :
  platform <> "win32" ->
  truthy (aw_platform._normalize_path (posix_host platform isdir environ tmp) p)
  = true.
Proof.
  intros H. unfold aw_platform._normalize_path.
  rewrite (win32_not_posix platform isdir environ tmp H). cbn [andb].
  apply normpath_truthy.
Qed.

End PlatformFacts.

(** X1. On macOS and Linux, [_normalize_path] takes one pair of Tcl
    braces off a path that is wrapped in them and normalises what is
    inside (braces further in stay); a path that is not wrapped is
    normalised as it is; and the result is never the empty string. *)
Theorem normalize_path_braces (platform : string) (isdir : string -> bool)
    (environ : gmap string string) (tempdir : string) (p : string) :
  platform <> "win32" ->
  let host := posix_host platform isdir environ tempdir in
  aw_platform._normalize_path host ("{" +:+ p +:+ "}") = posixpath.normpath p
  /\ (Str.startswith p "{" && Str.endswith p "}" = false ->
      aw_platform._normalize_path host p = posixpath.normpath p)
  /\ Str.truthy (aw_platform._normalize_path host p) = true.
Proof.
  intros Hp host.
  pose proof (win32_not_posix platform isdir environ tempdir Hp) as Hw.
  fold host in Hw. unfold aw_platform._normalize_path. rewrite Hw.
  cbn [andb]. split; [|split].
  - destruct (braced_strip p) as [-> ->]. reflexivity.
  - intros ->. reflexivity.
  - destruct (Str.startswith p "{" && Str.endswith p "}");
      apply normpath_truthy.
Qed.

Lemma normalize_path_braces_witness :
  aw_platform._normalize_path (posix_host "linux" (fun _ => true) ∅ "/tmp")
    "{/usr/local//aw/}" = "/usr/local/aw"
  /\ aw_platform._normalize_path (posix_host "linux" (fun _ => true) ∅ "/tmp")
       "{{a}}" = "{a}".
Proof.
  split.
  - exact (proj1 (normalize_path_braces "linux" (fun _ => true) ∅ "/tmp"
                    "/usr/local//aw/" ltac:(discriminate))).
  - exact (proj1 (normalize_path_braces "linux" (fun _ => true) ∅ "/tmp"
                    "{a}" ltac:(discriminate))).
Defined.

(** X2. On Windows, a P5 path that begins with a drive letter between
    slashes, wrapped in Tcl braces or not, is turned into the native
    form: the letter, a colon, and the rest with every slash replaced by
    a backslash. The result is as long as the path without its braces,
    and has no slash left unless the drive letter is one. This does not
    depend on [os.path]. *)
Theorem normalize_path_win32_drive (host : Host) (d : ascii) (rest : string) :
  sys_platform host = "win32" ->
  let path := String "/" (String d (String "/" rest)) in
  let native :=
    String d (String ":" (String backslash
                            (Str.replace_char rest "/" backslash))) in
  aw_platform._normalize_path host path = native
  /\ aw_platform._normalize_path host ("{" +:+ path +:+ "}") = native
  /\ String.length native = String.length path
  /\ (d <> "/"%char -> has_char "/" native = false).
Proof.
  intros Hp path native.
  assert (Hconv : forall q, q = path ->
            (if aw_platform.win32 host && Str.startswith q "/"
                && (2 <? String.length q)
                && bool_decide (String.get 2 q = Some "/"%char)
             then String (default "/"%char (String.get 1 q))
                    (":" +:+ Str.replace_char (Str.drop 2 q) "/" backslash)
             else os_path_normpath host q) = native).
  { intros q ->. unfold aw_platform.win32. rewrite Hp. reflexivity. }
  split; [|split; [|split]].
  - unfold aw_platform._normalize_path. cbv zeta.
    replace (Str.startswith path "{") with false by reflexivity.
    cbn [andb]. apply Hconv. reflexivity.
  - unfold aw_platform._normalize_path. cbv zeta.
    destruct (braced_strip path) as [-> ->]. apply Hconv. reflexivity.
  - unfold native, path. simpl. rewrite length_replace. reflexivity.
  - intros Hd. unfold native. cbn [has_char].
    rewrite has_char_replace by discriminate.
    apply Ascii.eqb_neq in Hd. rewrite Hd. reflexivity.
Qed.

Lemma normalize_path_win32_drive_witness :
  aw_platform._normalize_path
    {| sys_platform := "win32"; os_path_normpath := fun p => p;
       os_path_join := fun a _ => a; os_path_isdir := fun _ => false;
       os_environ := ∅; tempfile_gettempdir := "C:\Temp" |}
    "{/C/Program Files/ARCHIWARE}"
  = "C:\Program Files\ARCHIWARE".
Proof.
  exact (proj1 (proj2 (normalize_path_win32_drive
    {| sys_platform := "win32"; os_path_normpath := fun p => p;
       os_path_join := fun a _ => a; os_path_isdir := fun _ => false;
       os_environ := ∅; tempfile_gettempdir := "C:\Temp" |}
    "C" "Program Files/ARCHIWARE" eq_refl))).
Defined.

(** X3. On macOS and Linux, whatever [AWPST_SRV_HOME] holds: the
    installation path is never empty, and is /usr/local/aw when the
    variable is unset or empty; the temp directory is [temp] inside the
    installation path if that directory exists and the temp directory of
    [tempfile] otherwise, so it is never empty when the latter is not;
    the binary directory is [bin] inside the installation path; and the
    built-in FFmpeg of the script is [bin/ffmpeg] inside it. *)
Theorem platform_paths_posix (platform : string) (isdir : string -> bool)
    (environ : gmap string string) (tempdir : string) :
  platform <> "win32" -> Str.truthy tempdir = true ->
  let host := posix_host platform isdir environ tempdir in
  let inside := dir_prefix (aw_platform.AW_PATH host) in
  Str.truthy (aw_platform.AW_PATH host) = true
  /\ (environ !! "AWPST_SRV_HOME" = None
      \/ environ !! "AWPST_SRV_HOME" = Some EmptyString ->
      aw_platform.AW_PATH host = "/usr/local/aw")
  /\ aw_platform.AW_TEMP host
     = (if isdir (inside +:+ "temp") then inside +:+ "temp" else tempdir)
  /\ Str.truthy (aw_platform.AW_TEMP host) = true
  /\ aw_platform.AW_BIN host = inside +:+ "bin"
  /\ (forall pid processes,
        Str.truthy (AW_TEMP (env_on host pid processes)) = true
        /\ builtin_ffmpeg (env_on host pid processes)
           = inside +:+ "bin" +:+ "/" +:+ "ffmpeg").
Proof.
  intros Hp Htmp host inside.
  pose proof (win32_not_posix platform isdir environ tempdir Hp) as Hw.
  fold host in Hw.
  assert (Hpath : Str.truthy (aw_platform.AW_PATH host) = true).
  { unfold aw_platform.AW_PATH. rewrite Hw. cbn [os_environ host posix_host].
    destruct (environ !! "AWPST_SRV_HOME") as [home|]; [|reflexivity].
    destruct (Str.truthy home); [|reflexivity].
    apply (normalize_path_nonempty platform isdir environ tempdir home Hp). }
  assert (Htemp : aw_platform.AW_TEMP host
     = (if isdir (inside +:+ "temp") then inside +:+ "temp" else tempdir)).
  { unfold aw_platform.AW_TEMP. cbn [os_path_join os_path_isdir host posix_host
      tempfile_gettempdir]. unfold posixpath.join. cbn [fold_left].
    rewrite join2_relative by reflexivity. fold inside.
    destruct (isdir (inside +:+ "temp")); reflexivity. }
  assert (Htruthy : Str.truthy (aw_platform.AW_TEMP host) = true).
  { rewrite Htemp. destruct (isdir (inside +:+ "temp")); [|exact Htmp].
    apply truthy_app_r. reflexivity. }
  split; [exact Hpath|]. split; [|split; [exact Htemp|split; [exact Htruthy|split]]].
  - unfold aw_platform.AW_PATH. rewrite Hw. cbn [os_environ host posix_host].
    intros [-> | ->]; reflexivity.
  - unfold aw_platform.AW_BIN. rewrite Hw.
    cbn [os_path_join host posix_host]. unfold posixpath.join. cbn [fold_left].
    apply join2_relative. reflexivity.
  - intros pid processes. split; [exact Htruthy|].
    unfold builtin_ffmpeg, env_on. cbn [AW_BIN].
    unfold aw_platform.AW_BIN. rewrite Hw.
    cbn [os_path_join host posix_host]. unfold posixpath.join. cbn [fold_left].
    rewrite (join2_relative (aw_platform.AW_PATH host) "bin") by reflexivity.
    fold inside. rewrite join2_relative by reflexivity.
    unfold dir_prefix at 1.
    pose proof (endswith_sep_app_free posixpath.sep inside "bin" eq_refl
                  ltac:(discriminate)) as He.
    change (String posixpath.sep EmptyString) with posixpath.sep_str in He.
    rewrite He, truthy_app_r by reflexivity. cbn [negb orb].
    rewrite !str_app_assoc. reflexivity.
Qed.

Lemma platform_paths_posix_witness :
  let host := posix_host "darwin" (String.eqb "/usr/local/aw/temp") ∅ "/tmp" in
  aw_platform.AW_PATH host = "/usr/local/aw"
  /\ aw_platform.AW_TEMP host = AW_TEMP ideal_env
  /\ aw_platform.AW_BIN host = AW_BIN ideal_env.
Proof.
  pose proof (platform_paths_posix "darwin" (String.eqb "/usr/local/aw/temp") ∅
                "/tmp" ltac:(discriminate) eq_refl)
    as (_ & Hpath & Htemp & _ & Hbin & _).
  split; [apply Hpath; left; reflexivity|]. split; [exact Htemp | exact Hbin].
Defined.

(** X4. The logging functions of [aw_platform] on macOS and Linux.
    Before [set_logfile] is called, [log] and [debug_log] write nothing,
    and [error_exit] still ends the program with status 1. Once
    [set_logfile] has been given a log name that is not empty, [log]
    appends exactly its message, [error_exit] appends the message after
    "ERROR: " and ends the program with status 1, and [debug_log] writes
    nothing as long as [DEBUG_MODE] is off. With the name the script
    sets, they are the [log] and [error_exit] that [main] runs with. *)
Theorem logging_functions (platform : string) (isdir : string -> bool)
    (environ : gmap string string) (tempdir : string)
    (name message : string) (st : State) :
  platform <> "win32" -> Str.truthy name = true ->
  let host := posix_host platform isdir environ tempdir in
  let g := aw_platform.set_logfile host name aw_platform.at_import in
  aw_platform.log aw_platform.at_import message st = (Ok tt, st)
  /\ aw_platform.debug_log aw_platform.at_import message st = (Ok tt, st)
  /\ aw_platform.error_exit (A := unit) aw_platform.at_import message st
     = (Stop (SysExit 1), st)
  /\ aw_platform.log g message st
     = (Ok tt, extend st (files st) [EvLog message])
  /\ aw_platform.error_exit (A := unit) g message st
     = (Stop (SysExit 1), extend st (files st) [EvLog ("ERROR: " +:+ message)])
  /\ aw_platform.debug_log g message st = (Ok tt, st)
  /\ aw_platform.log (script_globals host) message st = log message st
  /\ aw_platform.error_exit (A := unit) (script_globals host) message st
     = error_exit message st.
Proof.
  intros Hp Hname host g.
  assert (Hset : forall n, Str.truthy n = true ->
            forall m,
              aw_platform.log (aw_platform.set_logfile host n aw_platform.at_import) m
              = emit (EvLog m)).
  { intros n Hn m. unfold aw_platform.log, aw_platform.set_logfile.
    cbn [aw_platform._logfile os_path_join host posix_host].
    unfold posixpath.join. cbn [fold_left].
    rewrite (join2_truthy _ _ Hn). reflexivity. }
  repeat split.
  - unfold aw_platform.error_exit, g. rewrite Hset by exact Hname. reflexivity.
  - unfold aw_platform.error_exit, g. rewrite Hset by exact Hname. reflexivity.
  - unfold script_globals. rewrite Hset by reflexivity. reflexivity.
  - unfold aw_platform.error_exit, script_globals.
    rewrite Hset by reflexivity. reflexivity.
Qed.

Lemma logging_functions_witness :
  aw_platform.log
    (script_globals (posix_host "linux" (fun _ => false) ∅ "/tmp"))
    "Processing: A001.mov" (initial_state ∅)
  = (Ok tt, extend (initial_state ∅) ∅ [EvLog "Processing: A001.mov"]).
Proof.
  exact (proj1 (proj2 (proj2 (proj2
    (logging_functions "linux" (fun _ => false) ∅ "/tmp" "proxy_generator.log"
       "Processing: A001.mov" (initial_state ∅) ltac:(discriminate) eq_refl))))).
Defined.

(** X5. [init_ffmpeg] never fails, also when the probe cannot be
    started, and always leaves [FFMPEG] set: to the configured path,
    with libx264 in use, exactly when that path is not empty, names a
    file, and the probe started on it mentions libx264 in its output
    (its exit status does not matter); to the built-in FFmpeg of P5,
    with libx264 not in use, in every other case. *)
Theorem init_ffmpeg_selects (env : Env) (cfg : Config) (st : State) :
  let st' := snd (init_ffmpeg env cfg st) in
  let usable := custom_ffmpeg_usable env cfg (files st) in
  fst (init_ffmpeg env cfg st) = Ok tt
  /\ FFMPEG st' = Some (if usable then FFMPEG_PATH cfg else builtin_ffmpeg env)
  /\ USE_LIBX264 st' = usable.
Proof.
  unfold custom_ffmpeg_usable, builtin_ffmpeg, init_ffmpeg. run_unfold. simpl.
  destruct (Str.truthy (FFMPEG_PATH cfg) && bool_decide (FFMPEG_PATH cfg ∈ files st));
    simpl; [|auto].
  destruct (subprocess_run env _ _) as [[res fs']|]; simpl; [|auto].
  destruct (Str.contains (stdout res) "libx264"); simpl; auto.
Qed.

(** X6. What [init_ffmpeg] does to the outside. With no custom path, or
    one that does not name a file, it does nothing: no probe, no log
    line, no warning. With a custom path that names a file it runs the
    probe, once, and then logs one line: that the custom FFmpeg is used
    if it is usable, the warning that it is invalid if not. *)
Theorem init_ffmpeg_trace (env : Env) (cfg : Config) (st : State) :
  let st' := snd (init_ffmpeg env cfg st) in
  let cmd := [FFMPEG_PATH cfg; "-encoders"] in
  if Str.truthy (FFMPEG_PATH cfg) && bool_decide (FFMPEG_PATH cfg ∈ files st)
  then
    trace st'
    = trace st
      ++ [EvProbe cmd (fst <$> subprocess_run env cmd (files st));
          EvLog (if custom_ffmpeg_usable env cfg (files st)
                 then "Using custom FFmpeg with libx264: " +:+ FFMPEG_PATH cfg
                 else "WARNING: Custom FFmpeg invalid, using P5 built-in")]
    /\ files st' = match subprocess_run env cmd (files st) with
                   | Some (_, fs') => fs'
                   | None => files st
                   end
  else trace st' = trace st /\ files st' = files st.
Proof.
  unfold custom_ffmpeg_usable, init_ffmpeg. run_unfold. simpl.
  destruct (Str.truthy (FFMPEG_PATH cfg) && bool_decide (FFMPEG_PATH cfg ∈ files st));
    simpl; [|auto].
  destruct (subprocess_run env _ _) as [[res fs']|]; simpl.
  - destruct (Str.contains (stdout res) "libx264"); simpl;
      rewrite <- app_assoc; auto.
  - rewrite <- app_assoc; auto.
Qed.

Section ContainerFacts.
Import Str posixpath.

Lemma get_container_cases (codec custom : string) :
  get_container codec custom
  = if truthy custom then custom
    else if String.eqb codec "prores" then "mov"
    else if String.eqb codec "dnxhd" then "mxf"
    else "mp4".
Proof.
  unfold get_container. destruct (truthy custom); [reflexivity|].
  destruct (String.eqb_spec codec "h264") as [->|_]; reflexivity.
Qed.

Lemma get_container_truthy (codec custom : string) :
  truthy (get_container codec custom) = true.
Proof.
  rewrite get_container_cases. destruct (truthy custom) eqn:H; [exact H|].
  destruct (String.eqb codec "prores"); [reflexivity|].
  destruct (String.eqb codec "dnxhd"); reflexivity.
Qed.

End ContainerFacts.

(** X7. The container and the file extension agree. [get_container]
    never returns the empty string: it is the custom container whenever
    one is configured, and otherwise mov for prores, mxf for dnxhd and
    mp4 for every other codec, known or not. For each tier, the name of
    the file in the temp area ends with a dot and that container, and
    the command of the encoder ends with the same container as its
    format ([-f]), the overwrite flag and that file. *)
Theorem container_matches_extension (env : Env) (cfg : Config)
    (ffmpeg : string) (use_libx264 : bool) (input_file codec custom : string) :
  let preview_ext := get_container (PREVIEW_CODEC cfg) (PREVIEW_CONTAINER cfg) in
  let workflow_ext := get_container (WORKFLOW_CODEC cfg) (WORKFLOW_CONTAINER cfg) in
  Str.truthy (get_container codec custom) = true
  /\ get_container codec custom
     = (if Str.truthy custom then custom
        else if String.eqb codec "prores" then "mov"
        else if String.eqb codec "dnxhd" then "mxf"
        else "mp4")
  /\ Str.endswith (preview_temp_path env cfg input_file) ("." +:+ preview_ext) = true
  /\ Str.endswith (workflow_temp_path env cfg input_file) ("." +:+ workflow_ext) = true
  /\ (exists args,
        preview_command env cfg ffmpeg use_libx264 input_file
        = ffmpeg :: "-i" :: input_file :: args
          ++ ["-f"; preview_ext; "-loglevel"; "error"; "-y";
              preview_temp_path env cfg input_file])
  /\ (exists args,
        workflow_command env cfg ffmpeg use_libx264 input_file
        = ffmpeg :: "-i" :: input_file :: args
          ++ ["-f"; workflow_ext; "-loglevel"; "error"; "-y";
              workflow_temp_path env cfg input_file]).
Proof.
  intros preview_ext workflow_ext.
  split; [apply get_container_truthy|]. split; [apply get_container_cases|].
  split; [|split; [|split]].
  - rewrite preview_temp_path_shape.
    change "_preview." with ("_preview" +:+ ".").
    rewrite (str_app_assoc "_preview" "." _).
    do 3 apply endswith_app_r. apply endswith_refl.
  - rewrite workflow_temp_path_shape.
    change "_workflow." with ("_workflow" +:+ ".").
    rewrite (str_app_assoc "_workflow" "." _).
    do 3 apply endswith_app_r. apply endswith_refl.
  - eexists. unfold preview_command, ffmpeg_command. reflexivity.
  - eexists. unfold workflow_command, ffmpeg_command. reflexivity.
Qed.

(** X8. What a call of [generate_proxy] comes to. It first creates the
    directory of the output file and logs what it generates; then it
    starts FFmpeg, once. If FFmpeg runs, the call returns [True] exactly
    when the exit status is 0 (whether the output file is there is not
    looked at) after logging what FFmpeg wrote to its error stream, if
    anything, and one line that tells success or names the exit status.
    If FFmpeg cannot be started, the [OSError] gets out of the call; it
    is not turned into [False]. If the output file has no directory,
    [os.makedirs] fails on the empty path before anything is encoded;
    and before [init_ffmpeg] has run, the command cannot be built. *)
Theorem generate_proxy_outcome (env : Env) (st : State)
    (input_file output_file scale vbitrate abitrate proxy_type codec
     codec_profile container crf preset tune : string) :
  let dir := posixpath.dirname output_file in
  let begun :=
    [EvMakedirs dir;
     EvLog ("Generating " +:+ proxy_type +:+ " (" +:+ codec +:+ "): "
            +:+ output_file)] in
  let call :=
    generate_proxy env input_file output_file scale vbitrate abitrate proxy_type
      codec codec_profile container crf preset tune st in
  (Str.truthy dir = false ->
   call = (Stop (Uncaught "FileNotFoundError"),
           extend st (files st) [EvMakedirs dir]))
  /\ (Str.truthy dir = true -> FFMPEG st = None ->
      call = (Stop (Uncaught "TypeError"), extend st (files st) begun))
  /\ (forall ffmpeg,
        Str.truthy dir = true -> FFMPEG st = Some ffmpeg ->
        let cmd :=
          ffmpeg_command ffmpeg (USE_LIBX264 st) input_file output_file scale
            vbitrate abitrate codec codec_profile container crf preset tune in
        call
        = match subprocess_run env cmd (files st) with
          | Some (result, fs') =>
              (Ok (returncode result =? 0)%Z,
               extend st fs'
                 (begun ++ [EvTranscode proxy_type cmd (Some result)]
                  ++ (if Str.truthy (stderr result)
                      then [EvLog (stderr result)] else [])
                  ++ [EvLog
                        (if (returncode result =? 0)%Z
                         then "Successfully created: " +:+ output_file
                         else "ERROR: FFmpeg failed with exit code "
                              +:+ Str.of_Z (returncode result))]))
          | None =>
              (Stop (Uncaught "OSError"),
               extend st (files st)
                 (begun ++ [EvTranscode proxy_type cmd None]))
          end).
Proof.
  intros dir begun call. unfold call, begun, dir, generate_proxy, extend.
  split; [|split].
  - intros Hd. run_unfold. simpl. rewrite Hd. reflexivity.
  - intros Hd Hf. run_unfold. simpl. rewrite Hd, Hf. simpl.
    rewrite <- app_assoc. reflexivity.
  - intros ffmpeg Hd Hf. run_unfold. simpl. rewrite Hd, Hf. simpl.
    destruct (subprocess_run env _ (files st)) as [[res fs']|]; simpl.
    + destruct (Str.truthy (stderr res)); simpl;
        destruct (returncode res =? 0)%Z; simpl;
        rewrite <- !app_assoc; reflexivity.
    + rewrite <- !app_assoc. reflexivity.
Qed.

Lemma generate_proxy_outcome_witness :
  fst (generate_proxy (failing_env 1) A001 "/usr/local/aw/temp/A001_preview.mp4"
         "320" "256k" "64k" "preview_quality" "h264" EmptyString "mp4" "28"
         "veryfast" "fastdecode"
         {| files := A001_only; FFMPEG := Some "/usr/local/aw/bin/ffmpeg";
            USE_LIBX264 := false; trace := [] |})
  = Ok false.
Proof.
  rewrite (proj2 (proj2 (generate_proxy_outcome (failing_env 1)
             {| files := A001_only; FFMPEG := Some "/usr/local/aw/bin/ffmpeg";
                USE_LIBX264 := false; trace := [] |}
             A001 "/usr/local/aw/temp/A001_preview.mp4"
             "320" "256k" "64k" "preview_quality" "h264" EmptyString "mp4" "28"
             "veryfast" "fastdecode")) "/usr/local/aw/bin/ffmpeg" eq_refl eq_refl).
  reflexivity.
Defined.

Section HoareRules.
Context {A B : Type}.

Lemma hoare_bind (P : State -> Prop) (m : M A) (Q : A -> State -> Prop)
    (k : A -> M B) (R : B -> State -> Prop) (E : Halt -> State -> Prop) :
  hoare P m Q E -> (forall a, hoare (Q a) (k a) R E) ->
  hoare P (bind m k) R E.
Proof.
  intros Hm Hk st HP. unfold bind. specialize (Hm st HP).
  destruct (m st) as [[a|h] st']; [apply (Hk a st' Hm) | exact Hm].
Qed.

Lemma hoare_conseq (P P' : State -> Prop) (m : M A) (Q Q' : A -> State -> Prop)
    (E E' : Halt -> State -> Prop) :
  hoare P' m Q' E' ->
  (forall st, P st -> P' st) ->
  (forall a st, Q' a st -> Q a st) ->
  (forall h st, E' h st -> E h st) ->
  hoare P m Q E.
Proof.
  intros Hm HP HQ HE st Hst. specialize (Hm st (HP st Hst)).
  destruct (m st) as [[a|h] st']; auto.
Qed.

Lemma hoare_assume (P : State -> Prop) (fact : Prop) (m : M A)
    (Q : A -> State -> Prop) (E : Halt -> State -> Prop) :
  (fact -> hoare P m Q E) -> hoare (fun st => P st /\ fact) m Q E.
Proof. intros H st [HP Hfact]. apply (H Hfact st HP). Qed.

Lemma hoare_ret (P : State -> Prop) (a : A) (Q : A -> State -> Prop)
    (E : Halt -> State -> Prop) :
  (forall st, P st -> Q a st) -> hoare P (ret a) Q E.
Proof. intros H st HP. apply H, HP. Qed.

End HoareRules.

Section RunInvariant.
Variable env : Env.
Variable cfg : Config.
Variable input_file : string.
Variable fs0 : gset string.

Lemma inv4_emit fs f u t e :
  permitted env cfg input_file fs0 e -> inv4 env cfg input_file fs0 fs f u t -> inv4 env cfg input_file fs0 fs f u (t ++ [e]).
Proof.
  intros He (Hf & Hu & Ht & Hfs). repeat split; auto.
  apply Forall_app_2; [exact Ht | constructor; [exact He | constructor]].
Qed.

Lemma inv4_run fs f u t cmd res fs' :
  subprocess_run env cmd fs = Some (res, fs') ->
  inv4 env cfg input_file fs0 fs f u t -> inv4 env cfg input_file fs0 fs' f u t.
Proof.
  intros Hrun (Hf & Hu & Ht & Hfs). repeat split; auto.
  intros Hm x Hx. apply (Hm _ _ _ _ Hrun), (Hfs Hm), Hx.
Qed.

Lemma inv4_add fs f u t x :
  inv4 env cfg input_file fs0 fs f u t -> inv4 env cfg input_file fs0 ({[ x ]} ∪ fs) f u t.
Proof.
  intros (Hf & Hu & Ht & Hfs). repeat split; auto.
  intros Hm y Hy. apply elem_of_union_r, (Hfs Hm), Hy.
Qed.


Lemma last_is_makedirs_empty (t : list Event) (path : string) :
  Str.truthy path = false -> last (t ++ [EvMakedirs path]) = Some (EvMakedirs EmptyString).
Proof. destruct path; [|discriminate]. intros _. apply last_snoc. Qed.

Lemma generate_proxy_hoare
    (output_file scale vbitrate abitrate proxy_type codec codec_profile
     container crf preset tune : string) :
  permitted env cfg input_file fs0 (EvMakedirs (posixpath.dirname output_file)) ->
  (forall o,
     permitted env cfg input_file fs0
       (EvTranscode proxy_type
          (ffmpeg_command (chosen_ffmpeg env cfg fs0)
             (custom_ffmpeg_usable env cfg fs0) input_file output_file scale
             vbitrate abitrate codec codec_profile container crf preset tune) o)) ->
  hoare (inv env cfg input_file fs0)
    (generate_proxy env input_file output_file scale vbitrate abitrate proxy_type
       codec codec_profile container crf preset tune)
    (fun _ st => inv env cfg input_file fs0 st)
    (fun h st =>
       inv env cfg input_file fs0 st
       /\ exists exception, h = Uncaught exception
            /\ explained env cfg input_file h st).
Proof.
  intros Hmk Htr st (Hf & Hu & Ht & Hfs).
  assert (Hinv : inv4 env cfg input_file fs0 (files st) (FFMPEG st) (USE_LIBX264 st) (trace st))
    by (repeat split; assumption).
  unfold generate_proxy. run_unfold. simpl.
  destruct (Str.truthy (posixpath.dirname output_file)) eqn:Hd; simpl.
  2:{ split; [apply inv4_emit; assumption|].
      eexists; split; [reflexivity|]. right; left. split; [reflexivity|].
      left. apply last_is_makedirs_empty, Hd. }
  rewrite Hf, Hu in *. simpl.
  destruct (subprocess_run env _ (files st)) as [[res fs']|] eqn:Hrun; simpl.
  - destruct (Str.truthy (stderr res)); simpl;
      destruct (returncode res =? 0)%Z; simpl; unfold inv; simpl;
      repeat (apply inv4_emit; [solve [exact I | apply Htr | exact Hmk]|]);
      eapply inv4_run; try eassumption;
      repeat (apply inv4_emit; [solve [exact I | apply Htr | exact Hmk]|]);
      assumption.
  - split.
    + unfold inv; simpl.
      repeat (apply inv4_emit; [solve [exact I | apply Htr | exact Hmk]|]).
      assumption.
    + eexists; split; [reflexivity|]. left. split; [reflexivity|].
      eexists. left. eexists. apply last_snoc.
Qed.

Lemma log_hoare (message : string) :
  hoare (inv env cfg input_file fs0) (log message) (fun _ st => inv env cfg input_file fs0 st) (stopped env cfg input_file fs0).
Proof.
  intros st Hinv. simpl. unfold inv. simpl. apply inv4_emit; [exact I | exact Hinv].
Qed.

Lemma error_exit_hoare {A} (message : string) (Q : A -> State -> Prop) :
  In message (error_messages env cfg input_file) ->
  hoare (inv env cfg input_file fs0) (error_exit message) Q (stopped env cfg input_file fs0).
Proof.
  intros Hm st Hinv. simpl. split.
  - unfold inv. simpl. apply inv4_emit; [exact I | exact Hinv].
  - simpl. split; [reflexivity|]. exists message. split; [exact Hm|].
    apply last_snoc.
Qed.

Lemma generate_preview_hoare :
  hoare (inv env cfg input_file fs0) (generate_preview env cfg input_file)
    (fun a st => inv env cfg input_file fs0 st /\ a = preview_artifact env cfg input_file) (stopped env cfg input_file fs0).
Proof.
  unfold generate_preview, preview_artifact.
  destruct (need_preview cfg) eqn:Hn; [|apply hoare_ret; auto].
  eapply hoare_bind.
  - eapply hoare_conseq; [apply generate_proxy_hoare | auto | | ].
    + left. reflexivity.
    + intros o. left. auto.
    + intros a st H. exact H.
    + intros h st (Hinv & e & _ & Hex). split; assumption.
  - intros [|]; [apply hoare_ret; auto|].
    apply error_exit_hoare. simpl. auto.
Qed.

Lemma generate_workflow_hoare :
  hoare (inv env cfg input_file fs0) (generate_workflow env cfg input_file)
    (fun a st => inv env cfg input_file fs0 st /\ a = workflow_artifact env cfg input_file) (stopped env cfg input_file fs0).
Proof.
  unfold generate_workflow, workflow_artifact.
  destruct (need_workflow cfg) eqn:Hn; [|apply hoare_ret; auto].
  eapply hoare_bind.
  - eapply hoare_conseq; [apply generate_proxy_hoare | auto | | ].
    + right. left. reflexivity.
    + intros o. right. auto.
    + intros a st H. exact H.
    + intros h st (Hinv & e & _ & Hex). split; assumption.
  - intros [|]; [apply hoare_ret; auto|].
    apply error_exit_hoare. simpl. auto.
Qed.

Lemma inv4_logs fs f u t (warnings : list string) :
  inv4 env cfg input_file fs0 fs f u t -> inv4 env cfg input_file fs0 fs f u (t ++ map EvLog warnings).
Proof.
  intros (Hf & Hu & Ht & Hfs). repeat split; auto.
  apply Forall_app_2; [exact Ht|]. induction warnings; constructor; auto.
  exact I.
Qed.

Lemma store_workflow_hoare :
  hoare (inv env cfg input_file fs0)
    (store_workflow cfg input_file (preview_artifact env cfg input_file)
       (workflow_artifact env cfg input_file))
    (fun _ st => inv env cfg input_file fs0 st) (stopped env cfg input_file fs0).
Proof.
  intros st Hinv. unfold store_workflow.
  destruct (ENABLE_WORKFLOW_STORE cfg) eqn:Hen; [|exact Hinv].
  fold (store_source cfg (preview_artifact env cfg input_file)
          (workflow_artifact env cfg input_file)).
  fold (store_container cfg).
  pose proof (eq_refl : workflow_dest cfg input_file
                        = fst (build_workflow_path cfg input_file (store_container cfg)))
    as Hdest.
  destruct (build_workflow_path cfg input_file (store_container cfg))
    as [dest warnings].
  cbn [fst] in Hdest.
  rewrite (bind_ok _ _ _ _ _ (log_all_run warnings st)).
  assert (Hcopy : permitted env cfg input_file fs0
            (EvCopy (store_source cfg (preview_artifact env cfg input_file)
                       (workflow_artifact env cfg input_file)) dest)).
  { simpl. rewrite Hdest. auto. }
  assert (Hmk : permitted env cfg input_file fs0 (EvMakedirs (posixpath.dirname dest))).
  { simpl. rewrite Hdest. auto. }
  apply (inv4_logs _ _ _ _ warnings) in Hinv.
  unfold extend. run_unfold. simpl.
  destruct (Str.truthy (posixpath.dirname dest)) eqn:Hd; simpl.
  2:{ split; [unfold inv; simpl; apply inv4_emit; assumption|].
      right; left. split; [reflexivity|]. left.
      apply last_is_makedirs_empty, Hd. }
  destruct (bool_decide_reflect
              (store_source cfg (preview_artifact env cfg input_file)
                 (workflow_artifact env cfg input_file) ∈ files st)) as [Hin|Hni];
    simpl.
  2:{ split; [unfold inv; simpl; do 2 (apply inv4_emit; [assumption|]); exact Hinv|].
      right; left. split; [reflexivity|]. right. eexists _, _.
      split; [apply last_snoc | exact Hni]. }
  destruct (String.eqb_spec
              (store_source cfg (preview_artifact env cfg input_file)
                 (workflow_artifact env cfg input_file)) dest) as [Heq|Hne]; simpl.
  - split; [unfold inv; simpl; do 2 (apply inv4_emit; [assumption|]); exact Hinv|].
    right; right. split; [reflexivity|]. exists dest.
    rewrite Heq. apply last_snoc.
  - unfold inv; simpl. apply inv4_emit; [exact I|].
    do 2 (apply inv4_emit; [assumption|]). apply inv4_add. exact Hinv.
Qed.

Lemma choose_return_hoare :
  hoare (inv env cfg input_file fs0)
    (choose_return env cfg (preview_artifact env cfg input_file)
       (workflow_artifact env cfg input_file))
    (fun a st => inv env cfg input_file fs0 st /\ a = return_artifact env cfg input_file) (stopped env cfg input_file fs0).
Proof.
  intros st Hinv. unfold choose_return, return_artifact.
  destruct (ENABLE_P5_PREVIEW cfg) eqn:Hen; [split; [exact Hinv | reflexivity]|].
  destruct Hinv as (Hf & Hu & Ht & Hfs).
  assert (Hinv : inv4 env cfg input_file fs0 (files st) (FFMPEG st) (USE_LIBX264 st) (trace st))
    by (repeat split; assumption).
  run_unfold. simpl. rewrite Hf in *. simpl.
  destruct (subprocess_run env _ (files st)) as [[res fs']|] eqn:Hrun; simpl.
  - split; [|reflexivity]. unfold inv; simpl. rewrite ?Hf.
    apply inv4_emit; [exact I|]. apply inv4_emit; [simpl; auto|].
    eapply inv4_run; eassumption.
  - split.
    + unfold inv; simpl. rewrite ?Hf.
      apply inv4_emit; [simpl; auto | exact Hinv].
    + left. split; [reflexivity|]. eexists. right. apply last_snoc.
Qed.

Lemma verify_return_hoare :
  hoare (inv env cfg input_file fs0) (verify_return (return_artifact env cfg input_file))
    (fun _ st => inv env cfg input_file fs0 st /\ return_artifact env cfg input_file ∈ files st
                 /\ Str.truthy (return_artifact env cfg input_file) = true)
    (stopped env cfg input_file fs0).
Proof.
  intros st Hinv. unfold verify_return. run_unfold. simpl.
  assert (Hstop : (stopped env cfg input_file fs0) (SysExit 1)
            {| files := files st; FFMPEG := FFMPEG st;
               USE_LIBX264 := USE_LIBX264 st;
               trace := trace st
                        ++ [EvLog ("ERROR: " +:+ "Return path invalid: "
                                   +:+ return_artifact env cfg input_file)] |}).
  { split.
    - unfold inv; simpl. apply inv4_emit; [exact I | exact Hinv].
    - split; [reflexivity|]. eexists. split; [|apply last_snoc]. simpl. auto. }
  destruct (Str.truthy (return_artifact env cfg input_file)); simpl;
    [|exact Hstop].
  destruct (bool_decide_reflect (return_artifact env cfg input_file ∈ files st));
    simpl; [auto | exact Hstop].
Qed.

Lemma cleanup_one_exact (return_path path : string) (st : State) :
  cleanup_one return_path path st
  = (Ok tt,
     if Str.truthy path && bool_decide (path ∈ files st)
        && negb (String.eqb path return_path)
     then extend st (files st ∖ {[ path ]}) [EvRemove path]
     else st).
Proof.
  unfold cleanup_one. run_unfold. unfold extend. simpl.
  destruct (Str.truthy path); simpl; [|reflexivity].
  destruct (bool_decide_reflect (path ∈ files st)) as [Hin|Hni]; simpl;
    [|reflexivity].
  destruct (String.eqb path return_path); simpl; [reflexivity|].
  rewrite bool_decide_true by exact Hin. reflexivity.
Qed.

Lemma artifact_removal (a temp : string) (need : bool) :
  a = (if need then temp else EmptyString) ->
  Str.truthy a = true -> a = temp.
Proof. destruct need; intros ->; [reflexivity | discriminate]. Qed.

Lemma cleanup_hoare :
  hoare (fun st => inv env cfg input_file fs0 st /\ return_artifact env cfg input_file ∈ files st
                   /\ Str.truthy (return_artifact env cfg input_file) = true)
    (cleanup (return_artifact env cfg input_file)
       [preview_artifact env cfg input_file; workflow_artifact env cfg input_file])
    (fun _ st => cleaned env cfg input_file fs0 st) (stopped env cfg input_file fs0).
Proof.
  intros st ((Hf & Hu & Ht & Hfs) & Hrp & Htr).
  unfold cleanup. cbn [foldr].
  set (rp := return_artifact env cfg input_file) in *.
  set (pp := preview_artifact env cfg input_file).
  set (wp := workflow_artifact env cfg input_file).
  rewrite (bind_ok _ _ _ _ _ (cleanup_one_exact rp pp st)).
  assert (Hpp : Str.truthy pp = true -> pp = preview_temp_path env cfg input_file)
    by (apply artifact_removal with (need := need_preview cfg); reflexivity).
  assert (Hwp : Str.truthy wp = true -> wp = workflow_temp_path env cfg input_file)
    by (apply artifact_removal with (need := need_workflow cfg); reflexivity).
  destruct (Str.truthy pp && bool_decide (pp ∈ files st)
            && negb (String.eqb pp rp)) eqn:Hc1.
  - apply andb_prop in Hc1 as [Hc1 Hne1]. apply andb_prop in Hc1 as [Ht1 Hin1].
    apply negb_true_iff, String.eqb_neq in Hne1.
    rewrite (bind_ok _ _ _ _ _ (cleanup_one_exact rp wp _)). cbn [files extend].
    destruct (Str.truthy wp && bool_decide (wp ∈ files st ∖ {[pp]})
              && negb (String.eqb wp rp)) eqn:Hc2.
    + apply andb_prop in Hc2 as [Hc2 Hne2]. apply andb_prop in Hc2 as [Ht2 Hin2].
      apply negb_true_iff, String.eqb_neq in Hne2.
      cbn [ret]. exists (trace st), [EvRemove pp; EvRemove wp].
      cbn [trace extend files]. rewrite <- app_assoc.
      split; [reflexivity|]. split; [exact Ht|]. split.
      { apply Forall_cons_2; [split; [left; auto | exact Hne1]|].
        apply Forall_cons_2; [split; [right; auto | exact Hne2]|]. constructor. }
      split.
      { rewrite !elem_of_difference, !elem_of_singleton. auto. }
      split.
      { intros path [[= <-]|[[= <-]|[]]];
          rewrite !elem_of_difference, !elem_of_singleton; tauto. }
      split; [|exact Htr].
      intros Hm x Hx Hxp Hxw.
      rewrite !elem_of_difference, !elem_of_singleton.
      split; [split; [apply (Hfs Hm), Hx|]|].
      * rewrite (Hpp Ht1). exact Hxp.
      * rewrite (Hwp Ht2). exact Hxw.
    + cbn [ret]. exists (trace st), [EvRemove pp].
      cbn [trace extend files].
      split; [reflexivity|]. split; [exact Ht|]. split.
      { apply Forall_cons_2; [split; [left; auto | exact Hne1]|]. constructor. }
      split.
      { rewrite !elem_of_difference, !elem_of_singleton. auto. }
      split.
      { intros path [[= <-]|[]].
        rewrite !elem_of_difference, !elem_of_singleton; tauto. }
      split; [|exact Htr].
      intros Hm x Hx Hxp Hxw.
      rewrite !elem_of_difference, !elem_of_singleton.
      split; [apply (Hfs Hm), Hx|]. rewrite (Hpp Ht1). exact Hxp.
  - rewrite (bind_ok _ _ _ _ _ (cleanup_one_exact rp wp _)).
    destruct (Str.truthy wp && bool_decide (wp ∈ files st)
              && negb (String.eqb wp rp)) eqn:Hc2.
    + apply andb_prop in Hc2 as [Hc2 Hne2]. apply andb_prop in Hc2 as [Ht2 Hin2].
      apply negb_true_iff, String.eqb_neq in Hne2.
      cbn [ret]. exists (trace st), [EvRemove wp].
      cbn [trace extend files].
      split; [reflexivity|]. split; [exact Ht|]. split.
      { apply Forall_cons_2; [split; [right; auto | exact Hne2]|]. constructor. }
      split.
      { rewrite !elem_of_difference, !elem_of_singleton. auto. }
      split.
      { intros path [[= <-]|[]].
        rewrite !elem_of_difference, !elem_of_singleton; tauto. }
      split; [|exact Htr].
      intros Hm x Hx Hxp Hxw.
      rewrite !elem_of_difference, !elem_of_singleton.
      split; [apply (Hfs Hm), Hx|]. rewrite (Hwp Ht2). exact Hxw.
    + cbn [ret]. exists (trace st), [].
      rewrite app_nil_r.
      split; [reflexivity|]. split; [exact Ht|]. split; [constructor|].
      split; [exact Hrp|]. split; [intros path []|]. split; [|exact Htr].
      intros Hm x Hx _ _. apply (Hfs Hm), Hx.
Qed.

Lemma isfile_hoare (path : string) :
  hoare (inv env cfg input_file fs0) (isfile path) (fun _ st => inv env cfg input_file fs0 st) (stopped env cfg input_file fs0).
Proof. intros st Hinv. exact Hinv. Qed.

Lemma finish_hoare :
  hoare (cleaned env cfg input_file fs0)
    (log ("Returning to P5: " +:+ return_artifact env cfg input_file) ;;;
     log "========================================" ;;;
     emit (EvPrint (return_artifact env cfg input_file)))
    (fun _ st => finished env cfg input_file fs0 st) (stopped env cfg input_file fs0).
Proof.
  intros st (pre & rms & Htrace & Hpre & Hrms & Hrp & Hgone & Hkeep & Htr).
  run_unfold. simpl. exists pre, rms. simpl. rewrite Htrace.
  rewrite <- !app_assoc. simpl. auto 9.
Qed.

Lemma after_check_hoare :
  hoare (inv env cfg input_file fs0)
    (preview_proxy_path <- generate_preview env cfg input_file ;;
     workflow_proxy_path <- generate_workflow env cfg input_file ;;
     store_workflow cfg input_file preview_proxy_path workflow_proxy_path ;;;
     return_path <- choose_return env cfg preview_proxy_path workflow_proxy_path ;;
     verify_return return_path ;;;
     cleanup return_path [preview_proxy_path; workflow_proxy_path] ;;;
     log ("Returning to P5: " +:+ return_path) ;;;
     log "========================================" ;;;
     emit (EvPrint return_path))
    (fun _ st => finished env cfg input_file fs0 st) (stopped env cfg input_file fs0).
Proof.
  eapply hoare_bind; [apply generate_preview_hoare|].
  intros pp. apply hoare_assume. intros Hpp. subst pp.
  eapply hoare_bind; [apply generate_workflow_hoare|].
  intros wp. apply hoare_assume. intros Hwp. subst wp.
  eapply hoare_bind; [apply store_workflow_hoare|]. intros [].
  eapply hoare_bind; [apply choose_return_hoare|].
  intros rp. apply hoare_assume. intros Hrp. subst rp.
  eapply hoare_bind; [apply verify_return_hoare|]. intros [].
  eapply hoare_bind; [apply cleanup_hoare|]. intros [].
  apply finish_hoare.
Qed.

End RunInvariant.

Section RunShape.
Variable env : Env.
Variable cfg : Config.

Lemma init_ffmpeg_inv (input_file : string) (fs : gset string) :
  hoare (fun st => st = initial_state fs) (init_ffmpeg env cfg)
    (fun _ st => inv env cfg input_file fs st)
    (stopped env cfg input_file fs).
Proof.
  intros st ->. unfold init_ffmpeg, inv, inv4, chosen_ffmpeg, custom_ffmpeg_usable,
    builtin_ffmpeg.
  run_unfold. simpl.
  destruct (Str.truthy (FFMPEG_PATH cfg) && bool_decide (FFMPEG_PATH cfg ∈ fs));
    simpl.
  2:{ repeat split; auto. }
  destruct (subprocess_run env _ fs) as [[res fs']|] eqn:Hrun; simpl.
  - destruct (Str.contains (stdout res) "libx264"); simpl;
      (repeat split; [repeat constructor; simpl; auto|]);
      intros Hm; apply (Hm _ _ _ _ Hrun).
  - repeat split; auto. repeat constructor; simpl; auto.
Qed.

(** Every run of [main] on an input file: either it ends normally,
    after events permitted before the cleanup, the removals of the
    cleanup, and the two log lines and the line on standard output; or
    it stops early, after permitted events only, for a reason told by
    the last of them. *)
Lemma run_main_shape (prog input_file : string) (rest : list string)
    (fs : gset string) :
  match run_main env cfg (prog :: input_file :: rest) fs with
  | (Ok _, st) => finished env cfg input_file fs st
  | (Stop h, st) => stopped env cfg input_file fs h st
  end.
Proof.
  unfold run_main.
  assert (H : hoare (fun st => st = initial_state fs)
                (main env cfg (prog :: input_file :: rest))
                (fun _ st => finished env cfg input_file fs st)
                (stopped env cfg input_file fs)).
  { unfold main.
    eapply hoare_bind; [apply init_ffmpeg_inv|]. intros [].
    eapply hoare_bind; [apply log_hoare|]. intros [].
    eapply hoare_bind; [apply log_hoare|]. intros [].
    eapply hoare_bind; [apply isfile_hoare|]. intros input_is_file.
    eapply hoare_bind.
    - instantiate (1 := fun _ st => inv env cfg input_file fs st).
      destruct input_is_file; [apply hoare_ret; auto|].
      apply error_exit_hoare. simpl. auto.
    - intros []. apply after_check_hoare. }
  specialize (H (initial_state fs) eq_refl).
  destruct (main env cfg (prog :: input_file :: rest) (initial_state fs))
    as [[[]|h] st]; exact H.
Qed.

End RunShape.

(** X17. The encoder is never told to write over its input: when the
    custom containers hold no slash, the two files in the temp area
    differ from the input file, whatever its name and wherever it
    lies. *)
Theorem temp_artifacts_not_input (env : Env) (cfg : Config) (input_file : string) :
  has_char "/" (PREVIEW_CONTAINER cfg) = false ->
  has_char "/" (WORKFLOW_CONTAINER cfg) = false ->
  preview_temp_path env cfg input_file <> input_file
  /\ workflow_temp_path env cfg input_file <> input_file
  /\ (forall ffmpeg use_libx264,
        last (preview_command env cfg ffmpeg use_libx264 input_file)
        <> Some input_file
        /\ last (workflow_command env cfg ffmpeg use_libx264 input_file)
           <> Some input_file).
Proof.
  intros Hp Hw.
  assert (H1 : preview_temp_path env cfg input_file <> input_file).
  { rewrite preview_temp_path_shape.
    change "_preview." with ("_preview" +:+ ".").
    rewrite (str_app_assoc "_preview" "." _).
    apply tagged_name_not_input;
      [apply dir_prefix_dir_like | reflexivity | | discriminate].
    apply get_container_free, Hp. }
  assert (H2 : workflow_temp_path env cfg input_file <> input_file).
  { rewrite workflow_temp_path_shape.
    change "_workflow." with ("_workflow" +:+ ".").
    rewrite (str_app_assoc "_workflow" "." _).
    apply tagged_name_not_input;
      [apply dir_prefix_dir_like | reflexivity | | discriminate].
    apply get_container_free, Hw. }
  split; [exact H1|]. split; [exact H2|]. intros ffmpeg use_libx264. split.
  - unfold preview_command. rewrite last_ffmpeg_command. congruence.
  - unfold workflow_command. rewrite last_ffmpeg_command. congruence.
Qed.

Lemma temp_artifacts_not_input_witness :
  preview_temp_path ideal_env shipped_config "/usr/local/aw/temp/A001_preview.mp4"
  = "/usr/local/aw/temp/A001_preview_preview.mp4"
  /\ preview_temp_path ideal_env shipped_config
       "/usr/local/aw/temp/A001_preview.mp4"
     <> "/usr/local/aw/temp/A001_preview.mp4".
Proof.
  split; [reflexivity|].
  exact (proj1 (temp_artifacts_not_input ideal_env shipped_config
                  "/usr/local/aw/temp/A001_preview.mp4" eq_refl eq_refl)).
Defined.

Lemma workflow_dest_truthy (cfg : Config) (input_file : string) :
  Str.truthy (workflow_dest cfg input_file) = true.
Proof.
  unfold workflow_dest. rewrite build_workflow_path_shape.
  do 3 apply truthy_app_r. reflexivity.
Qed.

Lemma workflow_dest_not_source (env : Env) (cfg : Config) (input_file : string) :
  workflow_dest cfg input_file
  <> store_source cfg (preview_artifact env cfg input_file)
       (workflow_artifact env cfg input_file).
Proof.
  assert (Hempty : workflow_dest cfg input_file <> EmptyString).
  { intros E. pose proof (workflow_dest_truthy cfg input_file) as H.
    rewrite E in H. discriminate. }
  unfold store_source, store_container, workflow_dest, preview_artifact,
    workflow_artifact.
  unfold workflow_dest in Hempty. unfold store_container in *.
  destruct (String.eqb (WORKFLOW_STORE_SOURCE cfg) "preview").
  - destruct (need_preview cfg); [|exact Hempty].
    rewrite preview_temp_path_shape.
    change "_preview." with ("_preview" +:+ ".").
    rewrite (str_app_assoc "_preview" "." _).
    apply dest_not_tagged;
      [apply dir_prefix_dir_like | reflexivity | discriminate | discriminate].
  - destruct (need_workflow cfg); [|exact Hempty].
    rewrite workflow_temp_path_shape.
    change "_workflow." with ("_workflow" +:+ ".").
    rewrite (str_app_assoc "_workflow" "." _).
    apply dest_not_tagged;
      [apply dir_prefix_dir_like | reflexivity | discriminate | discriminate].
Qed.



Section TrimmingMore.
Import Str posixpath.

Lemma startswith_app_l (a b : string) : startswith (a +:+ b) a = true.
Proof.
  unfold startswith. induction a as [|x a IH].
  - destruct (EmptyString +:+ b); reflexivity.
  - rewrite str_app_cons. cbn [String.prefix].
    destruct (ascii_dec x x); [exact IH | congruence].
Qed.

Lemma take_drop (k : nat) (s : string) : s = take k s +:+ drop k s.
Proof.
  revert k. induction s as [|a s IH]; intros [|k]; cbn [take drop];
    rewrite ?str_app_nil_l, ?str_app_cons; try reflexivity.
  f_equal. apply IH.
Qed.

Lemma rstrip_prefix (c : ascii) (s : string) : exists r, s = rstrip s c +:+ r.
Proof. destruct (rstrip_decompose c s) as [k Hk]. eauto. Qed.

(** The directory of a path is the path cut off somewhere. *)
Lemma dirname_prefix (p : string) : exists r, p = dirname p +:+ r.
Proof.
  rewrite dirname_head. unfold head_of.
  set (k := match rfind p sep with Some k => S k | None => 0 end).
  destruct (truthy (take k p) && negb (all_char sep (take k p))).
  - destruct (rstrip_prefix sep (take k p)) as [r Hr].
    exists (r +:+ drop k p). rewrite <- str_app_assoc, <- Hr. apply take_drop.
  - exists (drop k p). apply take_drop.
Qed.

Lemma iter_dirname_prefix (n : nat) (dir : string) :
  exists r, dir = Nat.iter n dirname dir +:+ r.
Proof.
  induction n as [|n [r IH]].
  - exists EmptyString. rewrite str_app_nil_r. reflexivity.
  - rewrite Nat.iter_succ.
    destruct (dirname_prefix (Nat.iter n dirname dir)) as [r' Hr'].
    exists (r' +:+ r). rewrite <- str_app_assoc, <- Hr'. exact IH.
Qed.

Lemma relative_not_all (dir : string) :
  absolute dir = false -> dir <> EmptyString -> all_char sep dir = false.
Proof.
  destruct dir as [|a r]; [congruence|]. intros H _.
  unfold absolute, sep_str in H. rewrite startswith_cons in H.
  cbn [all_char]. rewrite Ascii.eqb_sym, H. reflexivity.
Qed.

Lemma dirname_relative (dir : string) :
  absolute dir = false -> absolute (dirname dir) = false.
Proof.
  intros H. destruct (dirname_prefix dir) as [r Hr].
  destruct (dirname dir) as [|a d]; [reflexivity|].
  rewrite Hr in H. rewrite str_app_cons in H.
  unfold absolute, sep_str in *. rewrite startswith_cons in *. exact H.
Qed.

Lemma iter_dirname_empties (n : nat) (dir : string) :
  absolute dir = false -> String.length dir <= n ->
  Nat.iter n dirname dir = EmptyString.
Proof.
  revert dir. induction n as [|n IH]; intros dir Hrel Hlen.
  - destruct dir; [reflexivity | simpl in Hlen; lia].
  - rewrite Nat.iter_succ_r. destruct dir as [|a r] eqn:Hd.
    + apply IH; [reflexivity | simpl; lia].
    + rewrite <- Hd in *. apply IH; [apply dirname_relative, Hrel|].
      assert (Hall : all_char sep dir = false)
        by (apply relative_not_all; [exact Hrel | congruence]).
      pose proof (dirname_shorter dir Hall). lia.
Qed.

End TrimmingMore.

(** X19. Removing directory levels (step 2 of the path mapping) only
    ever cuts the directory off at its end: the result is a prefix of
    the directory, for every count. A count of zero or less removes
    nothing, and counts add up. A relative directory ends as the empty
    path once the count reaches its length. *)
Theorem remove_levels_cuts (dir : string) (levels more : Z) :
  Str.startswith dir (remove_levels levels dir) = true
  /\ ((levels <= 0)%Z -> remove_levels levels dir = dir)
  /\ ((0 <= levels)%Z -> (0 <= more)%Z ->
      remove_levels (levels + more) dir
      = remove_levels more (remove_levels levels dir))
  /\ (absolute dir = false -> (Z.of_nat (String.length dir) <= levels)%Z ->
      remove_levels levels dir = EmptyString).
Proof.
  split; [|split; [|split]].
  - unfold remove_levels.
    destruct (iter_dirname_prefix (Z.to_nat levels) dir) as [r Hr].
    rewrite Hr at 1. apply startswith_app_l.
  - intros H. unfold remove_levels.
    replace (Z.to_nat levels) with 0 by lia. reflexivity.
  - intros Hl Hm. unfold remove_levels.
    rewrite Z2Nat.inj_add by assumption.
    rewrite Nat.add_comm. apply Nat.iter_add.
  - intros Hrel Hlen. unfold remove_levels.
    apply iter_dirname_empties; [exact Hrel | lia].
Qed.

Lemma remove_levels_cuts_witness :
  remove_levels (-3) "Footage/A-Cam" = "Footage/A-Cam"
  /\ remove_levels (1 + 1) "Footage/A-Cam"
     = remove_levels 1 (remove_levels 1 "Footage/A-Cam")
  /\ remove_levels 13 "Footage/A-Cam" = EmptyString.
Proof.
  pose proof (remove_levels_cuts "Footage/A-Cam" (-3) 0) as (_ & H1 & _).
  pose proof (remove_levels_cuts "Footage/A-Cam" 1 1) as (_ & _ & H2 & _).
  pose proof (remove_levels_cuts "Footage/A-Cam" 13 0) as (_ & _ & _ & H3).
  split; [apply H1; lia|]. split; [apply H2; lia|].
  apply H3; [reflexivity | simpl; lia].
Defined.

(** X20. A doubled slash after the marker folder makes step 1 of the
    path mapping drop the new base and the marker: the pattern matches
    the marker up to the first of the two slashes, what follows begins
    with the second, and [os.path.join] starts over at a component that
    begins with a slash. The directory is then rebuilt as what follows
    the marker alone, from the root, without a warning. *)
Theorem doubled_slash_drops_base (cfg : Config) (before after : list string) :
  Str.truthy (WORKFLOW_PROJECT_FOLDER cfg) = true ->
  Str.truthy (WORKFLOW_NEW_BASE cfg) = true ->
  free_of_slashes (WORKFLOW_PROJECT_FOLDER cfg) = true ->
  Forall (fun x => free_of_slashes x = true) before ->
  ~ In (WORKFLOW_PROJECT_FOLDER cfg) before ->
  after <> [] ->
  replace_base cfg
    (rest_of_path (before ++ WORKFLOW_PROJECT_FOLDER cfg :: EmptyString :: after))
  = (rest_of_path after, []).
Proof.
  intros Hm Hb Hfree Hbefore Hnotin Hafter. unfold replace_base.
  rewrite Hm, Hb. cbn [andb].
  rewrite (search_marker_mid _ before (EmptyString :: after) Hfree Hbefore Hnotin)
    by discriminate.
  rewrite join_with_cons, str_app_nil_l.
  unfold posixpath.join. cbn [fold_left].
  destruct after as [|x after]; [congruence|].
  cbn [rest_of_path]. unfold posixpath.join2 at 1.
  unfold posixpath.sep_str. rewrite startswith_cons, Ascii.eqb_refl. reflexivity.
Qed.

Lemma doubled_slash_drops_base_witness :
  replace_base (with_rule shipped_config "Projects" "/Volumes/Proxies" 1 "proxies")
    "/Volumes/RAW/Projects//2024/BMW"
  = ("/2024/BMW", []).
Proof.
  apply (doubled_slash_drops_base
           (with_rule shipped_config "Projects" "/Volumes/Proxies" 1 "proxies")
           ["Volumes"; "RAW"] ["2024"; "BMW"]); try reflexivity.
  - repeat constructor.
  - simpl. intros [H|[H|[]]]; discriminate H.
  - discriminate.
Defined.

(** X21. The mapped file keeps the base name of its source. For a
    source with a stem that is not empty and a container without dot or
    slash: the name of the mapped file is the stem of the source, then
    [_proxy] if it lands in the directory of the source, then a dot and
    the container; its stem, as [pathlib] reads it, is the stem of the
    source with that suffix; and its directory normalises to what the
    target directory normalises to. *)
Theorem mapped_name_keeps_stem (cfg : Config) (src_file container : string) :
  has_char "/" container = false -> has_char "." container = false ->
  Str.truthy container = true -> Str.truthy (posixpath.stem src_file) = true ->
  let dest := fst (build_workflow_path cfg src_file container) in
  posixpath.name dest
  = posixpath.stem src_file +:+ proxy_suffix cfg src_file +:+ "." +:+ container
  /\ posixpath.stem dest = posixpath.stem src_file +:+ proxy_suffix cfg src_file
  /\ posixpath.normpath (posixpath.dirname dest)
     = posixpath.normpath (fst (workflow_target_dir cfg src_file)).
Proof.
  intros Hslash Hdot Hc Hstem dest.
  change (has_char posixpath.sep container = false) in Hslash.
  unfold dest. rewrite build_workflow_path_shape.
  set (s := posixpath.stem src_file) in *.
  set (sfx := proxy_suffix cfg src_file).
  assert (Hfree : has_char posixpath.sep (s +:+ sfx +:+ "." +:+ container) = false).
  { unfold s, sfx. rewrite !has_char_app, stem_free, proxy_suffix_free, Hslash.
    reflexivity. }
  assert (Hs1 : 0 < String.length s) by (destruct s; [discriminate | simpl; lia]).
  assert (Hc1 : 0 < String.length container)
    by (destruct container; [discriminate | simpl; lia]).
  assert (Hlen : String.length (s +:+ sfx +:+ "." +:+ container)
                 = String.length s + String.length sfx + 1 + String.length container).
  { rewrite !str_length_app. simpl. lia. }
  assert (Hname : posixpath.name
                    (dir_prefix (fst (workflow_target_dir cfg src_file))
                     +:+ s +:+ sfx +:+ "." +:+ container)
                  = s +:+ sfx +:+ "." +:+ container).
  { apply name_dir_name; [apply dir_prefix_dir_like | exact Hfree | |];
      intros E; rewrite E in Hlen; simpl in Hlen; lia. }
  split; [exact Hname|]. split.
  - rewrite stem_of_name_eq, Hname.
    replace (s +:+ sfx +:+ "." +:+ container)
      with ((s +:+ sfx) +:+ String "." container)
      by (rewrite str_app_assoc; reflexivity).
    unfold stem_of_name. rewrite (rfind_app_last "." (s +:+ sfx) container Hdot).
    rewrite !str_length_app. cbn [String.length].
    replace (0 <? String.length s + String.length sfx) with true
      by (symmetry; apply Nat.ltb_lt; lia).
    replace (String.length s + String.length sfx
             <? String.length s + String.length sfx + S (String.length container) - 1)
      with true by (symmetry; apply Nat.ltb_lt; lia).
    cbn [andb]. rewrite <- str_length_app. apply take_app_exact.
  - apply normpath_dirname_join, Hfree.
Qed.

Lemma mapped_name_keeps_stem_witness :
  posixpath.stem
    (fst (build_workflow_path
            (with_rule shipped_config "Projects" "/Volumes/Proxies" 1 "proxies")
            A001 "mp4"))
  = "A001".
Proof.
  refine (eq_trans
    (proj1 (proj2 (mapped_name_keeps_stem
       (with_rule shipped_config "Projects" "/Volumes/Proxies" 1 "proxies")
       A001 "mp4" eq_refl eq_refl eq_refl eq_refl))) _).
  vm_compute. reflexivity.
Defined.

(** X22. An append folder that begins with a slash takes the place of
    the whole directory: [os.path.join] starts over at it, so the target
    directory is that folder, whatever the source directory, the marker
    rule and the number of levels are. Sources outside that folder that
    have the same stem are then mapped to one and the same path,
    whatever their directories and extensions are. *)
Theorem absolute_append_flattens (cfg : Config) (src1 src2 container : string) :
  Str.startswith (WORKFLOW_REPLACE_WITH cfg) "/" = true ->
  fst (workflow_target_dir cfg src1) = WORKFLOW_REPLACE_WITH cfg
  /\ (posixpath.normpath (posixpath.dirname src1)
      <> posixpath.normpath (WORKFLOW_REPLACE_WITH cfg) ->
      posixpath.normpath (posixpath.dirname src2)
      <> posixpath.normpath (WORKFLOW_REPLACE_WITH cfg) ->
      posixpath.stem src1 = posixpath.stem src2 ->
      fst (build_workflow_path cfg src1 container)
      = dir_prefix (WORKFLOW_REPLACE_WITH cfg) +:+ posixpath.stem src1
        +:+ "." +:+ container
      /\ fst (build_workflow_path cfg src2 container)
         = fst (build_workflow_path cfg src1 container)).
Proof.
  intros Habs.
  assert (Htarget : forall src, fst (workflow_target_dir cfg src)
                                = WORKFLOW_REPLACE_WITH cfg).
  { intros src. unfold workflow_target_dir.
    destruct (replace_base cfg (posixpath.dirname src)) as [d w]. cbn [fst].
    unfold append_folder.
    replace (Str.truthy (WORKFLOW_REPLACE_WITH cfg)) with true
      by (destruct (WORKFLOW_REPLACE_WITH cfg); [discriminate Habs | reflexivity]).
    unfold posixpath.join. cbn [fold_left]. unfold posixpath.join2.
    change posixpath.sep_str with "/". rewrite Habs. reflexivity. }
  split; [apply Htarget|]. intros H1 H2 Hstem.
  assert (Hshape : forall src,
            posixpath.normpath (posixpath.dirname src)
            <> posixpath.normpath (WORKFLOW_REPLACE_WITH cfg) ->
            fst (build_workflow_path cfg src container)
            = dir_prefix (WORKFLOW_REPLACE_WITH cfg) +:+ posixpath.stem src
              +:+ "." +:+ container).
  { intros src Hne. rewrite build_workflow_path_shape, Htarget.
    unfold proxy_suffix. rewrite Htarget.
    destruct (String.eqb_spec (posixpath.normpath (WORKFLOW_REPLACE_WITH cfg))
                (posixpath.normpath (posixpath.dirname src))) as [E|_];
      [congruence|].
    rewrite str_app_nil_l. reflexivity. }
  split; [apply Hshape, H1|]. rewrite !Hshape by assumption.
  rewrite Hstem. reflexivity.
Qed.

Lemma absolute_append_flattens_witness :
  fst (build_workflow_path
         (with_rule shipped_config EmptyString EmptyString 1 "/Volumes/Proxies")
         "/Volumes/RAW/B-Cam/A001.mxf" "mp4")
  = fst (build_workflow_path
           (with_rule shipped_config EmptyString EmptyString 1 "/Volumes/Proxies")
           "/Volumes/RAW/A-Cam/A001.mov" "mp4").
Proof.
  apply (absolute_append_flattens
           (with_rule shipped_config EmptyString EmptyString 1 "/Volumes/Proxies")
           "/Volumes/RAW/A-Cam/A001.mov" "/Volumes/RAW/B-Cam/A001.mxf" "mp4");
    try reflexivity; vm_compute; discriminate.
Defined.

Section RunConsequences.
Variable env : Env.
Variable cfg : Config.

Lemma run_stop_facts (prog input_file : string) (rest : list string)
    (fs : gset string) (h : Halt) (st : State) :
  run_main env cfg (prog :: input_file :: rest) fs = (Stop h, st) ->
  Forall (permitted env cfg input_file fs) (trace st)
  /\ explained env cfg input_file h st
  /\ (monotone env -> fs ⊆ files st).
Proof.
  intros Hrun. pose proof (run_main_shape env cfg prog input_file rest fs) as H.
  rewrite Hrun in H. destruct H as ((_ & _ & Ht & Hfs) & Hex). auto.
Qed.

Lemma run_ok_facts (prog input_file : string) (rest : list string)
    (fs : gset string) (st : State) :
  run_main env cfg (prog :: input_file :: rest) fs = (Ok tt, st) ->
  finished env cfg input_file fs st.
Proof.
  intros Hrun. pose proof (run_main_shape env cfg prog input_file rest fs) as H.
  rewrite Hrun in H. exact H.
Qed.

Lemma permitted_not_print (input_file : string) (fs : gset string)
    (l : list Event) :
  Forall (permitted env cfg input_file fs) l -> printed l = [].
Proof.
  induction 1 as [|e l He _ IH]; [reflexivity|].
  rewrite printed_cons, IH. destruct e; try reflexivity. destruct He.
Qed.

Lemma cleanup_not_print (input_file : string) (l : list Event) :
  Forall (cleanup_event env cfg input_file) l -> printed l = [].
Proof.
  induction 1 as [|e l He _ IH]; [reflexivity|].
  rewrite printed_cons, IH. destruct e; try reflexivity; destruct He.
Qed.

(** The events of a run, sorted by where they come from. *)
Lemma run_event_cases (prog input_file : string) (rest : list string)
    (fs : gset string) (e : Event) :
  In e (trace (snd (run_main env cfg (prog :: input_file :: rest) fs))) ->
  permitted env cfg input_file fs e
  \/ (fst (run_main env cfg (prog :: input_file :: rest) fs) = Ok tt
      /\ (cleanup_event env cfg input_file e
          /\ (forall path, e = EvRemove path ->
                path ∉ files (snd (run_main env cfg (prog :: input_file :: rest) fs)))
          \/ e = EvLog ("Returning to P5: " +:+ return_artifact env cfg input_file)
          \/ e = EvLog "========================================"
          \/ e = EvPrint (return_artifact env cfg input_file))).
Proof.
  destruct (run_main env cfg (prog :: input_file :: rest) fs) as [[[]|h] st] eqn:Hrun;
    cbn [fst snd].
  - destruct (run_ok_facts _ _ _ _ _ Hrun)
      as (pre & rms & -> & Hpre & Hrms & _ & Hgone & _).
    rewrite !in_app_iff. intros [Hin|[Hin|Hin]].
    + left. rewrite List.Forall_forall in Hpre. apply Hpre, Hin.
    + right. split; [reflexivity|]. left. split.
      * rewrite List.Forall_forall in Hrms. apply Hrms, Hin.
      * intros path ->. apply Hgone, Hin.
    + right. split; [reflexivity|]. right.
      destruct Hin as [<-|[<-|[<-|[]]]]; auto.
  - destruct (run_stop_facts _ _ _ _ _ _ Hrun) as (Ht & _ & _).
    intros Hin. left. rewrite List.Forall_forall in Ht. apply Ht, Hin.
Qed.

End RunConsequences.






(** X11. Standard output, which P5 reads the result from. A run that
    stops early, for whatever reason, has printed nothing. A run that
    ends normally has printed exactly one line, as the last thing it
    did: the return path, which names a file that exists then. *)
Theorem stdout_discipline (env : Env) (cfg : Config) (argv : list string)
    (fs : gset string) :
  match run_main env cfg argv fs with
  | (Ok _, st) =>
      exists events input_file,
        argv !! 1 = Some input_file
        /\ trace st = events ++ [EvPrint (return_artifact env cfg input_file)]
        /\ printed events = []
        /\ printed (trace st) = [return_artifact env cfg input_file]
        /\ return_artifact env cfg input_file ∈ files st
  | (Stop _, st) => printed (trace st) = []
  end.
Proof.
  destruct argv as [|prog [|input_file rest]]; [reflexivity | reflexivity |].
  destruct (run_main env cfg (prog :: input_file :: rest) fs) as [[[]|h] st] eqn:Hrun.
  - destruct (run_ok_facts env cfg _ _ _ _ _ Hrun)
      as (pre & rms & -> & Hpre & Hrms & Hrp & _).
    eexists (pre ++ rms ++ [_; _]), input_file. split; [reflexivity|]. split.
    + rewrite <- !app_assoc. reflexivity.
    + rewrite !printed_app, (permitted_not_print env cfg _ _ _ Hpre),
        (cleanup_not_print env cfg _ _ Hrms). auto.
  - destruct (run_stop_facts env cfg _ _ _ _ _ _ Hrun) as (Ht & _).
    apply (permitted_not_print env cfg _ _ _ Ht).
Qed.

(** X12. A file is removed only by the cleanup of a run that ends
    normally: if a run has removed a file, then it has not stopped
    early; the file is the temp file of the preview or of the workflow
    tier; it is not the return path; it is gone when the run ends; and
    the run has printed the return path. *)
Theorem removals_are_cleanup (env : Env) (cfg : Config) (prog input_file : string)
    (rest : list string) (fs : gset string) (path : string) :
  let run := run_main env cfg (prog :: input_file :: rest) fs in
  In (EvRemove path) (trace (snd run)) ->
  fst run = Ok tt
  /\ (path = preview_temp_path env cfg input_file
      \/ path = workflow_temp_path env cfg input_file)
  /\ path <> return_artifact env cfg input_file
  /\ (path ∉ files (snd run))
  /\ return_artifact env cfg input_file ∈ files (snd run).
Proof.
  intros run Hin.
  destruct (run_event_cases env cfg prog input_file rest fs _ Hin)
    as [[]|(Hok & [((Hp & Hne) & Hgone)|[E|[E|E]]])]; try discriminate E.
  fold run in Hok, Hgone. split; [exact Hok|]. split; [exact Hp|].
  split; [exact Hne|]. split; [apply Hgone; reflexivity|].
  unfold run in *.
  destruct (run_main env cfg (prog :: input_file :: rest) fs) as [[[]|h] st] eqn:Hrun;
    [|discriminate Hok].
  destruct (run_ok_facts env cfg _ _ _ _ _ Hrun) as (_ & _ & _ & _ & _ & Hrp & _).
  exact Hrp.
Qed.

Lemma removals_are_cleanup_witness :
  let run := run_main ideal_env shipped_config ["p5_proxy_generator.py"; A001]
               A001_only in
  fst run = Ok tt
  /\ ("/usr/local/aw/temp/A001_workflow.mp4" ∉ files (snd run))
  /\ "/usr/local/aw/temp/A001_preview.mp4" ∈ files (snd run).
Proof.
  intros run.
  destruct (removals_are_cleanup ideal_env shipped_config "p5_proxy_generator.py"
              A001 [] A001_only "/usr/local/aw/temp/A001_workflow.mp4")
    as (Hok & _ & _ & Hgone & Hrp).
  - vm_compute. auto 20.
  - auto.
Defined.

(** X13. The copy into the workflow store. Whenever a run copies a
    file, the workflow output is enabled; the file copied is the
    artifact named by the source of the workflow output; the
    destination is the path [build_workflow_path] maps the input file
    to, with the container of that same tier; the destination differs
    from the file copied; and the two names end with the same
    extension, a dot and that container. *)
Theorem store_copy_destination (env : Env) (cfg : Config) (prog input_file : string)
    (rest : list string) (fs : gset string) (source_path dest : string) :
  In (EvCopy source_path dest)
     (trace (snd (run_main env cfg (prog :: input_file :: rest) fs))) ->
  ENABLE_WORKFLOW_STORE cfg = true
  /\ source_path = store_source cfg (preview_artifact env cfg input_file)
                     (workflow_artifact env cfg input_file)
  /\ dest = fst (build_workflow_path cfg input_file (store_container cfg))
  /\ dest <> source_path
  /\ Str.endswith dest ("." +:+ store_container cfg) = true
  /\ (Str.truthy source_path = true ->
      Str.endswith source_path ("." +:+ store_container cfg) = true).
Proof.
  intros Hin.
  destruct (run_event_cases env cfg prog input_file rest fs _ Hin)
    as [(Hen & Hs & Hd)|(_ & [([] & _)|[E|[E|E]]])]; try discriminate E.
  split; [exact Hen|]. split; [exact Hs|]. split; [exact Hd|]. split; [|split].
  - rewrite Hs, Hd. apply workflow_dest_not_source.
  - rewrite Hd. unfold workflow_dest. rewrite build_workflow_path_shape.
    do 3 apply endswith_app_r. apply endswith_refl.
  - rewrite Hs. unfold store_source, store_container, preview_artifact,
      workflow_artifact.
    destruct (String.eqb (WORKFLOW_STORE_SOURCE cfg) "preview").
    + destruct (need_preview cfg); [|discriminate]. intros _.
      rewrite preview_temp_path_shape.
      change "_preview." with ("_preview" +:+ ".").
      rewrite (str_app_assoc "_preview" "." _).
      do 3 apply endswith_app_r. apply endswith_refl.
    + destruct (need_workflow cfg); [|discriminate]. intros _.
      rewrite workflow_temp_path_shape.
      change "_workflow." with ("_workflow" +:+ ".").
      rewrite (str_app_assoc "_workflow" "." _).
      do 3 apply endswith_app_r. apply endswith_refl.
Qed.

Lemma store_copy_destination_witness :
  ENABLE_WORKFLOW_STORE shipped_config = true
  /\ "/Volumes/RAW/Projects/2024/BMW/Footage/proxies/A001.mp4"
     = fst (build_workflow_path shipped_config A001
              (store_container shipped_config))
  /\ "/Volumes/RAW/Projects/2024/BMW/Footage/proxies/A001.mp4"
     <> "/usr/local/aw/temp/A001_workflow.mp4".
Proof.
  destruct (store_copy_destination ideal_env shipped_config "p5_proxy_generator.py"
              A001 [] A001_only "/usr/local/aw/temp/A001_workflow.mp4"
              "/Volumes/RAW/Projects/2024/BMW/Footage/proxies/A001.mp4")
    as (Hen & _ & Hd & Hne & _).
  - vm_compute. auto 20.
  - auto.
Defined.

(** X14. The processes a run starts and the directories it creates.
    The probe is the configured FFmpeg with [-encoders]. An encode is
    started only for a tier that is needed, by the command of that
    tier; the placeholder is made only when the preview output is
    disabled; and all of them run the one FFmpeg that [init_ffmpeg] has
    chosen on the files the run started with, libx264 being asked for
    only if that is the custom one. The only directories created are
    those of the two temp files and of the workflow destination. *)
Theorem processes_and_directories (env : Env) (cfg : Config)
    (prog input_file : string) (rest : list string) (fs : gset string) (e : Event) :
  let ffmpeg := chosen_ffmpeg env cfg fs in
  let use_libx264 := custom_ffmpeg_usable env cfg fs in
  In e (trace (snd (run_main env cfg (prog :: input_file :: rest) fs))) ->
  match e with
  | EvProbe cmd _ => cmd = [FFMPEG_PATH cfg; "-encoders"]
  | EvTranscode proxy_type cmd _ =>
      (proxy_type = "preview_quality" /\ need_preview cfg = true
       /\ cmd = preview_command env cfg ffmpeg use_libx264 input_file)
      \/ (proxy_type = "workflow_quality" /\ need_workflow cfg = true
          /\ cmd = workflow_command env cfg ffmpeg use_libx264 input_file)
  | EvPlaceholder cmd _ =>
      ENABLE_P5_PREVIEW cfg = false
      /\ cmd = placeholder_command ffmpeg (placeholder_path env)
  | EvMakedirs path =>
      path = posixpath.dirname (preview_temp_path env cfg input_file)
      \/ path = posixpath.dirname (workflow_temp_path env cfg input_file)
      \/ path = posixpath.dirname (workflow_dest cfg input_file)
  | _ => True
  end
  /\ (use_libx264 = true -> ffmpeg = FFMPEG_PATH cfg)
  /\ (use_libx264 = false -> ffmpeg = builtin_ffmpeg env).
Proof.
  intros ffmpeg use_libx264 Hin. split.
  - destruct (run_event_cases env cfg prog input_file rest fs _ Hin)
      as [Hp|(_ & [(Hc & _)|[E|[E|E]]])]; try (rewrite E; exact I).
    + destruct e; try exact I; exact Hp.
    + destruct e; try exact I; destruct Hc.
  - unfold ffmpeg, use_libx264, chosen_ffmpeg. split; intros ->; reflexivity.
Qed.

Lemma processes_and_directories_witness :
  preview_command ideal_env shipped_config "/usr/local/aw/bin/ffmpeg" false A001
  = preview_command ideal_env shipped_config
      (chosen_ffmpeg ideal_env shipped_config A001_only)
      (custom_ffmpeg_usable ideal_env shipped_config A001_only) A001.
Proof.
  destruct (processes_and_directories ideal_env shipped_config
              "p5_proxy_generator.py" A001 [] A001_only
              (EvTranscode "preview_quality"
                 (preview_command ideal_env shipped_config
                    "/usr/local/aw/bin/ffmpeg" false A001)
                 (Some {| returncode := 0; stdout := EmptyString;
                          stderr := EmptyString |})))
    as ([(_ & _ & H)|(H & _)] & _).
  - vm_compute. auto 20.
  - exact H.
  - discriminate H.
Defined.

Lemma ideal_env_monotone : monotone ideal_env.
Proof.
  intros cmd fs result fs' H. cbn [subprocess_run ideal_env] in H.
  unfold ideal_encoder in H. injection H as _ <-.
  destruct (last cmd); [|reflexivity].
  intros x Hx. apply elem_of_union_r, Hx.
Qed.

(** X15. A run removes no file but its own. If the external processes
    never take a file away, then every path that names a file when the
    run starts, other than the two temp files of the tiers, still names
    one when the run ends, however it ends. *)
Theorem no_other_file_removed (env : Env) (cfg : Config) (prog input_file : string)
    (rest : list string) (fs : gset string) (x : string) :
  monotone env -> x ∈ fs ->
  x <> preview_temp_path env cfg input_file ->
  x <> workflow_temp_path env cfg input_file ->
  x ∈ files (snd (run_main env cfg (prog :: input_file :: rest) fs)).
Proof.
  intros Hm Hx Hp Hw.
  destruct (run_main env cfg (prog :: input_file :: rest) fs) as [[[]|h] st] eqn:Hrun;
    cbn [snd].
  - destruct (run_ok_facts env cfg _ _ _ _ _ Hrun)
      as (_ & _ & _ & _ & _ & _ & _ & H & _).
    apply H; assumption.
  - destruct (run_stop_facts env cfg _ _ _ _ _ _ Hrun) as (_ & _ & H).
    apply (H Hm), Hx.
Qed.

Lemma no_other_file_removed_witness :
  A001 ∈ files (snd (run_main ideal_env shipped_config
                       ["p5_proxy_generator.py"; A001] A001_only)).
Proof.
  apply (no_other_file_removed ideal_env shipped_config "p5_proxy_generator.py"
           A001 [] A001_only A001 ideal_env_monotone).
  - apply elem_of_singleton. reflexivity.
  - discriminate.
  - discriminate.
Defined.

Section Success.
Variable env : Env.
Variable cfg : Config.
Variable input_file : string.
Variable fs0 : gset string.

Lemma init_ffmpeg_ready :
  exists st,
    init_ffmpeg env cfg (initial_state fs0) = (Ok tt, st) /\ ready env cfg fs0 st.
Proof.
  unfold ready, init_ffmpeg, chosen_ffmpeg, custom_ffmpeg_usable, builtin_ffmpeg.
  run_unfold. simpl.
  destruct (Str.truthy (FFMPEG_PATH cfg) && bool_decide (FFMPEG_PATH cfg ∈ fs0));
    simpl.
  2:{ eexists. split; [reflexivity|]. simpl. auto. }
  destruct (subprocess_run env _ fs0) as [[res fs']|]; simpl.
  - destruct (Str.contains (stdout res) "libx264"); simpl;
      (eexists; split; [reflexivity|]; simpl; auto).
  - eexists. split; [reflexivity|]. simpl. auto.
Qed.

Lemma generate_proxy_ready (st : State)
    (output_file scale vbitrate abitrate proxy_type codec codec_profile
     container crf preset tune : string) :
  ready env cfg fs0 st ->
  Str.truthy (posixpath.dirname output_file) = true ->
  encodes env
    (ffmpeg_command (chosen_ffmpeg env cfg fs0) (custom_ffmpeg_usable env cfg fs0)
       input_file output_file scale vbitrate abitrate codec codec_profile
       container crf preset tune) ->
  exists st',
    generate_proxy env input_file output_file scale vbitrate abitrate proxy_type
      codec codec_profile container crf preset tune st
    = (Ok true, st')
    /\ ready env cfg fs0 st' /\ files st ⊆ files st' /\ output_file ∈ files st'.
Proof.
  intros (Hf & Hu) Hd Henc.
  destruct (Henc (files st)) as (res & fs' & Hrun & Hrc & Hsub & Hout).
  unfold generate_proxy. run_unfold. simpl. rewrite Hd, Hf, Hu. simpl.
  rewrite Hrun. simpl. rewrite Hrc. simpl.
  specialize (Hout _ (last_ffmpeg_command _ _ _ _ _ _ _ _ _ _ _ _ _)).
  destruct (Str.truthy (stderr res)); simpl;
    (eexists; split; [reflexivity|]; unfold ready; simpl; auto).
Qed.

Lemma generate_preview_ready (st : State) :
  ready env cfg fs0 st -> Str.truthy (AW_TEMP env) = true ->
  (need_preview cfg = true ->
   encodes env (preview_command env cfg (chosen_ffmpeg env cfg fs0)
                  (custom_ffmpeg_usable env cfg fs0) input_file)) ->
  exists st',
    generate_preview env cfg input_file st
    = (Ok (preview_artifact env cfg input_file), st')
    /\ ready env cfg fs0 st' /\ files st ⊆ files st'
    /\ (need_preview cfg = true -> preview_temp_path env cfg input_file ∈ files st').
Proof.
  intros Hr Htemp Henc. unfold generate_preview, preview_artifact.
  destruct (need_preview cfg) eqn:Hn.
  - destruct (generate_proxy_ready st (preview_temp_path env cfg input_file)
                (PREVIEW_SCALE cfg) (PREVIEW_VBITRATE cfg) (PREVIEW_ABITRATE cfg)
                "preview_quality" (PREVIEW_CODEC cfg) (PREVIEW_CODEC_PROFILE cfg)
                (get_container (PREVIEW_CODEC cfg) (PREVIEW_CONTAINER cfg))
                (PREVIEW_CRF cfg) (PREVIEW_PRESET cfg) (PREVIEW_TUNE cfg) Hr
                (preview_temp_dir_truthy env cfg input_file Htemp)
                (Henc eq_refl))
      as (st' & Heq & Hr' & Hsub & Hout).
    rewrite (bind_ok _ _ _ _ _ Heq). exists st'. auto.
  - exists st. repeat split; try apply Hr; auto. discriminate.
Qed.

Lemma generate_workflow_ready (st : State) :
  ready env cfg fs0 st -> Str.truthy (AW_TEMP env) = true ->
  (need_workflow cfg = true ->
   encodes env (workflow_command env cfg (chosen_ffmpeg env cfg fs0)
                  (custom_ffmpeg_usable env cfg fs0) input_file)) ->
  exists st',
    generate_workflow env cfg input_file st
    = (Ok (workflow_artifact env cfg input_file), st')
    /\ ready env cfg fs0 st' /\ files st ⊆ files st'
    /\ (need_workflow cfg = true -> workflow_temp_path env cfg input_file ∈ files st').
Proof.
  intros Hr Htemp Henc. unfold generate_workflow, workflow_artifact.
  destruct (need_workflow cfg) eqn:Hn.
  - destruct (generate_proxy_ready st (workflow_temp_path env cfg input_file)
                (WORKFLOW_SCALE cfg) (WORKFLOW_VBITRATE cfg) (WORKFLOW_ABITRATE cfg)
                "workflow_quality" (WORKFLOW_CODEC cfg) (WORKFLOW_CODEC_PROFILE cfg)
                (get_container (WORKFLOW_CODEC cfg) (WORKFLOW_CONTAINER cfg))
                (WORKFLOW_CRF cfg) (WORKFLOW_PRESET cfg) (WORKFLOW_TUNE cfg) Hr
                (workflow_temp_dir_truthy env cfg input_file Htemp)
                (Henc eq_refl))
      as (st' & Heq & Hr' & Hsub & Hout).
    rewrite (bind_ok _ _ _ _ _ Heq). exists st'. auto.
  - exists st. repeat split; try apply Hr; auto. discriminate.
Qed.

Lemma store_workflow_ready (st : State) :
  ready env cfg fs0 st ->
  (ENABLE_WORKFLOW_STORE cfg = true ->
   store_source cfg (preview_artifact env cfg input_file)
     (workflow_artifact env cfg input_file) ∈ files st
   /\ Str.truthy (posixpath.dirname (workflow_dest cfg input_file)) = true) ->
  exists st',
    store_workflow cfg input_file (preview_artifact env cfg input_file)
      (workflow_artifact env cfg input_file) st
    = (Ok tt, st')
    /\ ready env cfg fs0 st' /\ files st ⊆ files st'
    /\ (ENABLE_WORKFLOW_STORE cfg = true -> workflow_dest cfg input_file ∈ files st').
Proof.
  intros Hr Hen. unfold store_workflow.
  destruct (ENABLE_WORKFLOW_STORE cfg).
  2:{ exists st. repeat split; try apply Hr; auto. discriminate. }
  destruct (Hen eq_refl) as [Hsrc Hd]. clear Hen.
  fold (store_source cfg (preview_artifact env cfg input_file)
          (workflow_artifact env cfg input_file)).
  fold (store_container cfg).
  pose proof (workflow_dest_not_source env cfg input_file) as Hne.
  unfold workflow_dest in *.
  destruct (build_workflow_path cfg input_file (store_container cfg))
    as [dest warnings].
  cbn [fst] in *.
  rewrite (bind_ok _ _ _ _ _ (log_all_run warnings st)).
  unfold extend. run_unfold. simpl. rewrite Hd. simpl.
  rewrite bool_decide_true by exact Hsrc. simpl.
  replace (String.eqb _ dest) with false
    by (symmetry; apply String.eqb_neq; congruence).
  simpl. eexists. split; [reflexivity|]. unfold ready. simpl.
  split; [exact Hr|]. split.
  - intros x Hx. apply elem_of_union_r, Hx.
  - intros _. apply elem_of_union_l, elem_of_singleton. reflexivity.
Qed.

Lemma choose_return_ready (st : State) :
  ready env cfg fs0 st ->
  (ENABLE_P5_PREVIEW cfg = false ->
   encodes env (placeholder_command (chosen_ffmpeg env cfg fs0)
                  (placeholder_path env))) ->
  exists st',
    choose_return env cfg (preview_artifact env cfg input_file)
      (workflow_artifact env cfg input_file) st
    = (Ok (return_artifact env cfg input_file), st')
    /\ ready env cfg fs0 st' /\ files st ⊆ files st'
    /\ (ENABLE_P5_PREVIEW cfg = false -> placeholder_path env ∈ files st').
Proof.
  intros Hr Henc. unfold choose_return, return_artifact.
  destruct (ENABLE_P5_PREVIEW cfg).
  { exists st. repeat split; try apply Hr; auto; discriminate. }
  destruct (Henc eq_refl (files st)) as (res & fs' & Hrun & _ & Hsub & Hout).
  destruct Hr as [Hf Hu].
  run_unfold. simpl. rewrite Hf. simpl. rewrite Hrun. simpl.
  eexists. split; [reflexivity|]. unfold ready. simpl.
  repeat split; auto.
Qed.

Lemma ready_extend (st : State) (fs : gset string) (evs : list Event) :
  ready env cfg fs0 st -> ready env cfg fs0 (extend st fs evs).
Proof. intros H. exact H. Qed.

End Success.

Section DestNotTemp.
Import Str posixpath.
Variable env : Env.
Variable cfg : Config.

Lemma store_container_free :
  has_char sep (PREVIEW_CONTAINER cfg) = false ->
  has_char sep (WORKFLOW_CONTAINER cfg) = false ->
  has_char sep (store_container cfg) = false.
Proof.
  intros Hp Hw. unfold store_container.
  destruct (String.eqb (WORKFLOW_STORE_SOURCE cfg) "preview");
    apply get_container_free; assumption.
Qed.

Lemma suffix_not_tag (src_file c e : string) (tag : string) :
  tag = "_preview." \/ tag = "_workflow." ->
  proxy_suffix cfg src_file +:+ "." +:+ c <> tag +:+ e.
Proof.
  unfold proxy_suffix. intros [-> | ->] H; destruct (String.eqb _ _);
    rewrite ?str_app_cons, ?str_app_nil_l in H; discriminate H.
Qed.

(** The workflow destination is neither of the two temp files. *)
Lemma workflow_dest_not_temp (input_file : string) :
  has_char sep (PREVIEW_CONTAINER cfg) = false ->
  has_char sep (WORKFLOW_CONTAINER cfg) = false ->
  workflow_dest cfg input_file <> preview_temp_path env cfg input_file
  /\ workflow_dest cfg input_file <> workflow_temp_path env cfg input_file.
Proof.
  intros Hp Hw. pose proof (store_container_free Hp Hw) as Hc.
  unfold workflow_dest. rewrite build_workflow_path_shape,
    preview_temp_path_shape, workflow_temp_path_shape.
  split; intros H; apply dir_name_unique in H as [_ H];
    try apply dir_prefix_dir_like;
    try (rewrite !has_char_app, stem_free, ?proxy_suffix_free, ?Hc;
         try rewrite (get_container_free _ _ Hp);
         try rewrite (get_container_free _ _ Hw); reflexivity).
  - apply (inj (String.app _)) in H. revert H. apply suffix_not_tag. auto.
  - apply (inj (String.app _)) in H. revert H. apply suffix_not_tag. auto.
Qed.

End DestNotTemp.

Section SuccessSources.
Variable env : Env.
Variable cfg : Config.
Variable input_file : string.

(** With a source among the two tiers, the artifact an enabled output
    names is the temp file of a tier that is needed. *)
Lemma store_source_needed :
  ENABLE_WORKFLOW_STORE cfg = true ->
  WORKFLOW_STORE_SOURCE cfg = "preview" \/ WORKFLOW_STORE_SOURCE cfg = "workflow" ->
  (need_preview cfg = true
   /\ store_source cfg (preview_artifact env cfg input_file)
        (workflow_artifact env cfg input_file)
      = preview_temp_path env cfg input_file)
  \/ (need_workflow cfg = true
      /\ store_source cfg (preview_artifact env cfg input_file)
           (workflow_artifact env cfg input_file)
         = workflow_temp_path env cfg input_file).
Proof.
  intros Hen Hs.
  unfold store_source, preview_artifact, workflow_artifact, need_preview,
    need_workflow.
  rewrite Hen. destruct Hs as [-> | ->]; cbn [String.eqb andb];
    rewrite ?orb_true_r; simpl; auto.
Qed.

Lemma preview_source_needed :
  ENABLE_P5_PREVIEW cfg = true ->
  P5_PREVIEW_SOURCE cfg = "preview" \/ P5_PREVIEW_SOURCE cfg = "workflow" ->
  (need_preview cfg = true
   /\ return_artifact env cfg input_file = preview_temp_path env cfg input_file)
  \/ (need_workflow cfg = true
      /\ return_artifact env cfg input_file = workflow_temp_path env cfg input_file).
Proof.
  intros Hen Hs.
  unfold return_artifact, preview_source, preview_artifact, workflow_artifact,
    need_preview, need_workflow.
  rewrite Hen. destruct Hs as [-> | ->]; simpl; auto.
Qed.

Lemma placeholder_path_truthy : Str.truthy (placeholder_path env) = true.
Proof. rewrite placeholder_path_shape. do 3 apply truthy_app_r. reflexivity. Qed.

End SuccessSources.


Lemma ideal_env_encodes (cmd : list string) : encodes ideal_env cmd.
Proof.
  intros fs. cbn [subprocess_run ideal_env]. unfold ideal_encoder.
  eexists _, _. split; [reflexivity|]. split; [reflexivity|]. split.
  - destruct (last cmd); [|reflexivity]. intros x Hx. apply elem_of_union_r, Hx.
  - intros out ->. apply elem_of_union_l, elem_of_singleton. reflexivity.
Qed.



(** X23. The settings that take effect in an encode recipe, read as
    FFmpeg reads it, option by option. Every recipe scales to the
    configured width with an even height. The video encoder is libx264
    only for h264 with libx264 in use; then CRF and preset are passed,
    the tune only if it is not empty, and the video bitrate is not. For
    h264 without libx264 and for an unknown codec the encoder is
    libopenh264 with the video bitrate, and CRF, preset and tune are not
    passed. For prores and dnxhd neither bitrate, CRF, preset, tune nor
    the audio bitrate is passed: the audio is always PCM, and the profile
    is the one configured for dnxhd (dnxhr_sq if empty) and the number of
    the configured name for prores (1, that of lt, for any other
    name). *)
Theorem recipe_settings_in_effect (use_libx264 : bool)
    (scale vbitrate abitrate codec codec_profile crf preset tune : string) :
  let args := codec_arguments use_libx264 scale vbitrate abitrate codec
                codec_profile crf preset tune in
  let x264 := String.eqb codec "h264" && use_libx264 in
  let prores := String.eqb codec "prores" in
  let intermediate := prores || String.eqb codec "dnxhd" in
  option_value "-vf" args = Some ("scale=" +:+ scale +:+ ":-2")
  /\ option_value "-c:v" args
     = Some (if x264 then "libx264"
             else if prores then "prores_ks"
             else if intermediate then "dnxhd"
             else "libopenh264")
  /\ option_value "-crf" args = (if x264 then Some crf else None)
  /\ option_value "-preset" args = (if x264 then Some preset else None)
  /\ option_value "-tune" args
     = (if x264 && Str.truthy tune then Some tune else None)
  /\ option_value "-b:v" args
     = (if x264 || intermediate then None else Some vbitrate)
  /\ option_value "-c:a" args = Some (if intermediate then "pcm_s16le" else "aac")
  /\ option_value "-b:a" args = (if intermediate then None else Some abitrate)
  /\ option_value "-profile:v" args
     = (if prores
        then Some (if String.eqb codec_profile "proxy" then "0"
                   else if String.eqb codec_profile "lt" then "1"
                   else if String.eqb codec_profile "standard" then "2"
                   else if String.eqb codec_profile "hq" then "3"
                   else "1")
        else if intermediate
        then Some (if Str.truthy codec_profile then codec_profile else "dnxhr_sq")
        else None).
Proof.
  intros args x264 prores intermediate.
  unfold args, x264, prores, intermediate, codec_arguments.
  destruct (String.eqb_spec codec "h264") as [->|Hh].
  - destruct use_libx264; [destruct (Str.truthy tune)|]; repeat split.
  - destruct (String.eqb_spec codec "prores") as [->|Hp].
    + repeat split.
    + destruct (String.eqb_spec codec "dnxhd") as [->|Hd]; repeat split.
Qed.

(** X24. [P5_PREVIEW_SOURCE] is only ever compared with "preview".
    With the preview output enabled and any other source, "workflow" or
    not, the path returned to P5 is that of the workflow tier: if that
    tier is encoded (for the preview output itself, when the source is
    "workflow", or for the workflow store) a run that ends normally
    prints its temp file; if it is not, the return path is empty and no
    run ends normally. *)
Theorem unknown_preview_source (env : Env) (cfg : Config) (argv : list string)
    (fs : gset string) :
  ENABLE_P5_PREVIEW cfg = true -> P5_PREVIEW_SOURCE cfg <> "preview" ->
  (need_workflow cfg = false -> fst (run_main env cfg argv fs) <> Ok tt)
  /\ (need_workflow cfg = true ->
      forall prog input_file rest st,
        argv = prog :: input_file :: rest ->
        run_main env cfg argv fs = (Ok tt, st) ->
        printed (trace st) = [workflow_temp_path env cfg input_file]).
Proof.
  intros Hen Hsrc.
  assert (Hret : forall input_file,
            return_artifact env cfg input_file = workflow_artifact env cfg input_file).
  { intros input_file. unfold return_artifact, preview_source. rewrite Hen.
    apply String.eqb_neq in Hsrc. rewrite Hsrc. reflexivity. }
  split.
  - intros Hn. destruct argv as [|prog [|input_file rest]];
      [discriminate | discriminate |].
    destruct (run_main env cfg (prog :: input_file :: rest) fs) as [[[]|h] st] eqn:Hrun;
      [|discriminate].
    exfalso.
    destruct (run_ok_facts env cfg _ _ _ _ _ Hrun)
      as (_ & _ & _ & _ & _ & _ & _ & _ & Htr).
    rewrite Hret in Htr. unfold workflow_artifact in Htr. rewrite Hn in Htr.
    discriminate Htr.
  - intros Hn prog input_file rest st -> Hrun.
    destruct (run_ok_facts env cfg _ _ _ _ _ Hrun)
      as (pre & rms & -> & Hpre & Hrms & _).
    rewrite !printed_app, (permitted_not_print env cfg _ _ _ Hpre),
      (cleanup_not_print env cfg _ _ Hrms).
    cbn [app printed omap]. simpl. rewrite Hret. unfold workflow_artifact.
    rewrite Hn. reflexivity.
Qed.

Lemma unknown_preview_source_witness :
  fst (run_main ideal_env (with_outputs shipped_config true "high" false "workflow")
         ["p5_proxy_generator.py"; A001] A001_only)
  <> Ok tt
  /\ fst (run_main ideal_env (with_outputs shipped_config true "high" false "workflow")
            ["p5_proxy_generator.py"; A001] A001_only)
     = Stop (SysExit 1).
Proof.
  split; [|vm_compute; reflexivity].
  apply (unknown_preview_source ideal_env
           (with_outputs shipped_config true "high" false "workflow")
           ["p5_proxy_generator.py"; A001] A001_only); [reflexivity | discriminate |].
  reflexivity.
Defined.

Section TempDirFacts.
Import Str posixpath.

Lemma digits_no_sep (d : Decimal.uint) :
  has_char sep (NilEmpty.string_of_uint d) = false.
Proof. induction d; simpl; auto. Qed.

Lemma of_nat_no_sep (n : nat) : has_char sep (of_nat n) = false.
Proof.
  unfold of_nat, NilZero.string_of_uint.
  destruct (Nat.to_uint n) eqn:Hn; try (rewrite <- Hn; apply digits_no_sep).
  reflexivity.
Qed.

Lemma long_name (x : string) :
  2 <= String.length x -> x <> EmptyString /\ x <> ".".
Proof. intros H. split; intros ->; simpl in H; lia. Qed.

End TempDirFacts.

(** X25. The files of a run in the temp area lie directly in the temp
    directory, whatever the name of the input file is: when the custom
    containers hold no slash, the name of each temp file is the stem of
    the input file, the tag of the tier and the container, the name of
    the placeholder is [proxy_dummy_], the process id and [.jpg], and
    the directory of each of the three normalises to what the temp
    directory normalises to. So the directory that [generate_proxy]
    creates for a tier is the temp directory, and no input file name
    leads out of it. *)
Theorem temp_files_in_temp_dir (env : Env) (cfg : Config) (input_file : string) :
  has_char "/" (PREVIEW_CONTAINER cfg) = false ->
  has_char "/" (WORKFLOW_CONTAINER cfg) = false ->
  let preview := preview_temp_path env cfg input_file in
  let workflow := workflow_temp_path env cfg input_file in
  posixpath.name preview
  = posixpath.stem input_file +:+ "_preview."
    +:+ get_container (PREVIEW_CODEC cfg) (PREVIEW_CONTAINER cfg)
  /\ posixpath.name workflow
     = posixpath.stem input_file +:+ "_workflow."
       +:+ get_container (WORKFLOW_CODEC cfg) (WORKFLOW_CONTAINER cfg)
  /\ posixpath.name (placeholder_path env)
     = "proxy_dummy_" +:+ Str.of_nat (getpid env) +:+ ".jpg"
  /\ posixpath.normpath (posixpath.dirname preview)
     = posixpath.normpath (AW_TEMP env)
  /\ posixpath.normpath (posixpath.dirname workflow)
     = posixpath.normpath (AW_TEMP env)
  /\ posixpath.normpath (posixpath.dirname (placeholder_path env))
     = posixpath.normpath (AW_TEMP env).
Proof.
  intros Hp Hw preview workflow. unfold preview, workflow.
  rewrite preview_temp_path_shape, workflow_temp_path_shape, placeholder_path_shape.
  assert (H1 : has_char posixpath.sep
                 (posixpath.stem input_file +:+ "_preview."
                  +:+ get_container (PREVIEW_CODEC cfg) (PREVIEW_CONTAINER cfg))
               = false).
  { rewrite !has_char_app, stem_free, (get_container_free _ _ Hp). reflexivity. }
  assert (H2 : has_char posixpath.sep
                 (posixpath.stem input_file +:+ "_workflow."
                  +:+ get_container (WORKFLOW_CODEC cfg) (WORKFLOW_CONTAINER cfg))
               = false).
  { rewrite !has_char_app, stem_free, (get_container_free _ _ Hw). reflexivity. }
  assert (H3 : has_char posixpath.sep
                 ("proxy_dummy_" +:+ Str.of_nat (getpid env) +:+ ".jpg") = false).
  { rewrite !has_char_app, of_nat_no_sep. reflexivity. }
  repeat split; try (apply normpath_dirname_join; assumption);
    apply name_dir_name; try apply dir_prefix_dir_like; try assumption;
    apply long_name; rewrite !str_length_app; simpl; lia.
Qed.

Lemma temp_files_in_temp_dir_witness :
  posixpath.normpath
    (posixpath.dirname
       (preview_temp_path ideal_env shipped_config "/Volumes/RAW/../../etc/A001.mov"))
  = posixpath.normpath (AW_TEMP ideal_env).
Proof.
  exact (proj1 (proj2 (proj2 (proj2
    (temp_files_in_temp_dir ideal_env shipped_config
       "/Volumes/RAW/../../etc/A001.mov" eq_refl eq_refl))))).
Defined.
Section Appends.

Lemma appends_nil (t : list Event) (good : list Event -> Prop) :
  good [] -> exists evs, t = t ++ evs /\ good evs.
Proof. intros H. exists []. rewrite app_nil_r. auto. Qed.

Lemma appends_snoc (T t : list Event) (e : Event) (good : list Event -> Prop) :
  (exists evs, T = t ++ evs /\ good (evs ++ [e])) ->
  exists evs, T ++ [e] = t ++ evs /\ good evs.
Proof.
  intros (evs & -> & H). exists (evs ++ [e]). rewrite app_assoc. auto.
Qed.

Lemma appends_bind {A B} (m : M A) (k : A -> M B)
    (first : list Event -> Prop) (rest : bool -> list Event -> Prop) :
  appends m (fun _ => first) -> (forall a, appends (k a) rest) ->
  rest false [] ->
  appends (bind m k)
    (fun ok evs => exists evs1 evs2,
       evs = evs1 ++ evs2 /\ first evs1 /\ rest ok evs2).
Proof.
  intros Hm Hk Hnil st. unfold bind.
  destruct (Hm st) as (evs1 & Ht1 & H1).
  destruct (m st) as [[a|h] st']; cbn [snd fst] in *.
  - destruct (Hk a st') as (evs2 & Ht2 & H2).
    exists (evs1 ++ evs2). rewrite Ht2, Ht1, app_assoc. eauto 6.
  - exists evs1. split; [exact Ht1|]. exists evs1, []. rewrite app_nil_r. auto.
Qed.

Lemma bind_assoc {A B C} (m : M A) (k : A -> M B) (k' : B -> M C) (st : State) :
  bind (bind m k) k' st = bind m (fun a => bind (k a) k') st.
Proof. unfold bind. destruct (m st) as [[a|h] st']; reflexivity. Qed.

Lemma bind_ext {A B} (m : M A) (k k' : A -> M B) (st : State) :
  (forall a st', k a st' = k' a st') -> bind m k st = bind m k' st.
Proof. intros H. unfold bind. destruct (m st) as [[a|h] st']; auto. Qed.

Lemma appends_ext {A} (m m' : M A) (good : bool -> list Event -> Prop) :
  (forall st, m st = m' st) -> appends m' good -> appends m good.
Proof. intros E H st. rewrite E. apply H. Qed.

End Appends.

Ltac peel :=
  repeat (apply appends_snoc); apply appends_nil; cbn [app]; try reflexivity.

Section RunPhases.
Variable env : Env.
Variable cfg : Config.

Lemma startup_appends (input_file : string) :
  appends (main_startup env cfg input_file) (fun _ evs => startup_phase evs = true).
Proof.
  intros st. unfold main_startup, init_ffmpeg. run_unfold. simpl.
  destruct (Str.truthy (FFMPEG_PATH cfg) && bool_decide (FFMPEG_PATH cfg ∈ files st));
    simpl.
  - destruct (subprocess_run env _ (files st)) as [[res fs']|]; simpl.
    + destruct (Str.contains (stdout res) "libx264"); simpl;
        destruct (bool_decide (input_file ∈ fs')); simpl; peel.
    + destruct (bool_decide (input_file ∈ files st)); simpl; peel.
  - destruct (bool_decide (input_file ∈ files st)); simpl; peel.
Qed.

Lemma generate_proxy_appends (input_file output_file scale vbitrate abitrate
    tier codec codec_profile container crf preset tune : string) (st : State) :
  exists evs,
    trace (snd (generate_proxy env input_file output_file scale vbitrate
                  abitrate tier codec codec_profile container crf preset tune st))
    = trace st ++ evs
    /\ encode_phase tier evs = true.
Proof.
  unfold generate_proxy. run_unfold. simpl.
  destruct (Str.truthy (posixpath.dirname output_file)); simpl;
    [|peel].
  destruct (FFMPEG st) as [f|]; simpl; [|peel].
  destruct (subprocess_run env _ (files st)) as [[res fs']|]; simpl.
  - destruct (Str.truthy (stderr res)); simpl;
      destruct (returncode res =? 0)%Z; simpl; peel;
      unfold encode_phase; simpl; rewrite String.eqb_refl; reflexivity.
  - peel. unfold encode_phase; simpl; rewrite String.eqb_refl; reflexivity.
Qed.


Lemma generate_preview_appends (input_file : string) :
  appends (generate_preview env cfg input_file)
    (fun _ evs => encode_phase "preview_quality" evs = true).
Proof.
  intros st. unfold generate_preview.
  destruct (need_preview cfg); [|cbn; peel].
  unfold bind at 1.
  destruct (generate_proxy_appends input_file (preview_temp_path env cfg input_file)
              (PREVIEW_SCALE cfg) (PREVIEW_VBITRATE cfg) (PREVIEW_ABITRATE cfg)
              "preview_quality" (PREVIEW_CODEC cfg) (PREVIEW_CODEC_PROFILE cfg)
              (get_container (PREVIEW_CODEC cfg) (PREVIEW_CONTAINER cfg))
              (PREVIEW_CRF cfg) (PREVIEW_PRESET cfg) (PREVIEW_TUNE cfg) st)
    as (evs & Ht & Hp).
  destruct (generate_proxy _ _ _ _ _ _ _ _ _ _ _ _ _ st) as [[[|]|h] st'];
    cbn [snd fst] in *.
  - exists evs. auto.
  - run_unfold. cbn [snd fst trace]. rewrite Ht.
    exists (evs ++ [EvLog "ERROR: Failed to generate preview quality proxy"]).
    rewrite app_assoc. split; [reflexivity|].
    revert Hp. unfold encode_phase, occurrences.
    rewrite forallb_app, !List.filter_app, !length_app. cbn. 
    rewrite !Nat.add_0_r, andb_true_r. auto.
  - exists evs. auto.
Qed.

Lemma generate_workflow_appends (input_file : string) :
  appends (generate_workflow env cfg input_file)
    (fun _ evs => encode_phase "workflow_quality" evs = true).
Proof.
  intros st. unfold generate_workflow.
  destruct (need_workflow cfg); [|cbn; peel].
  unfold bind at 1.
  destruct (generate_proxy_appends input_file (workflow_temp_path env cfg input_file)
              (WORKFLOW_SCALE cfg) (WORKFLOW_VBITRATE cfg) (WORKFLOW_ABITRATE cfg)
              "workflow_quality" (WORKFLOW_CODEC cfg) (WORKFLOW_CODEC_PROFILE cfg)
              (get_container (WORKFLOW_CODEC cfg) (WORKFLOW_CONTAINER cfg))
              (WORKFLOW_CRF cfg) (WORKFLOW_PRESET cfg) (WORKFLOW_TUNE cfg) st)
    as (evs & Ht & Hp).
  destruct (generate_proxy _ _ _ _ _ _ _ _ _ _ _ _ _ st) as [[[|]|h] st'];
    cbn [snd fst] in *.
  - exists evs. auto.
  - run_unfold. cbn [snd fst trace]. rewrite Ht.
    exists (evs ++ [EvLog "ERROR: Failed to generate workflow quality proxy"]).
    rewrite app_assoc. split; [reflexivity|].
    revert Hp. unfold encode_phase, occurrences.
    rewrite forallb_app, !List.filter_app, !length_app. cbn.
    rewrite !Nat.add_0_r, andb_true_r. auto.
  - exists evs. auto.
Qed.


Lemma store_phase_logs (warnings : list string) (evs : list Event) :
  store_phase (map EvLog warnings ++ evs) = store_phase evs.
Proof.
  induction warnings as [|w ws IH]; [reflexivity|].
  rewrite <- IH. reflexivity.
Qed.

Lemma store_workflow_appends (input_file preview_proxy_path workflow_proxy_path : string) :
  appends (store_workflow cfg input_file preview_proxy_path workflow_proxy_path)
    (fun _ evs => store_phase evs = true).
Proof.
  intros st. unfold store_workflow.
  destruct (ENABLE_WORKFLOW_STORE cfg); [|cbn; peel].
  destruct (build_workflow_path cfg input_file _) as [dest warnings].
  rewrite (bind_ok _ _ _ _ _ (log_all_run warnings st)).
  run_unfold. unfold extend. simpl.
  set (source_path := if String.eqb (WORKFLOW_STORE_SOURCE cfg) "preview"
                      then preview_proxy_path else workflow_proxy_path).
  destruct (Str.truthy (posixpath.dirname dest)); simpl.
  - destruct (bool_decide (source_path ∈ files st)); simpl;
      [destruct (String.eqb source_path dest); simpl|];
      repeat (apply appends_snoc); exists (map EvLog warnings);
      (split; [reflexivity|]); rewrite <- !app_assoc, store_phase_logs;
      reflexivity.
  - apply appends_snoc. exists (map EvLog warnings).
    split; [reflexivity|]. rewrite store_phase_logs. reflexivity.
Qed.

Lemma choose_return_appends (preview_proxy_path workflow_proxy_path : string) :
  appends (choose_return env cfg preview_proxy_path workflow_proxy_path)
    (fun _ evs => choose_phase evs = true).
Proof.
  intros st. unfold choose_return.
  destruct (ENABLE_P5_PREVIEW cfg); [cbn; peel|].
  run_unfold. simpl.
  destruct (FFMPEG st) as [f|]; simpl; [|peel].
  destruct (subprocess_run env _ (files st)) as [[res fs']|]; simpl; peel.
Qed.

Lemma verify_return_appends (return_path : string) :
  appends (verify_return return_path) (fun _ evs => verify_phase evs = true).
Proof.
  intros st. unfold verify_return. run_unfold. simpl.
  destruct (negb (Str.truthy return_path)
            || negb (bool_decide (return_path ∈ files st))); simpl; peel.
Qed.

Lemma cleanup_appends (return_path preview_proxy_path workflow_proxy_path : string) :
  appends (cleanup return_path [preview_proxy_path; workflow_proxy_path])
    (fun _ evs => cleanup_phase evs = true).
Proof.
  intros st. unfold cleanup, cleanup_one. cbn [foldr]. run_unfold. simpl.
  destruct (Str.truthy preview_proxy_path
            && bool_decide (preview_proxy_path ∈ files st)
            && negb (String.eqb preview_proxy_path return_path)); simpl.
  - destruct (bool_decide (preview_proxy_path ∈ files st)); simpl; [|peel].
    destruct (Str.truthy workflow_proxy_path && _ && _); simpl; [|peel].
    destruct (bool_decide (workflow_proxy_path ∈ _)); simpl; peel.
  - destruct (Str.truthy workflow_proxy_path && _ && _); simpl; [|peel].
    destruct (bool_decide (workflow_proxy_path ∈ _)); simpl; peel.
Qed.

Lemma finish_appends (return_path : string) :
  appends (main_finish return_path)
    (fun ok evs => finish_phase evs = true /\ (ok = true <-> evs <> [])).
Proof.
  intros st. unfold main_finish. run_unfold. simpl. peel.
  split; [reflexivity|]. split; [discriminate|reflexivity].
Qed.


Lemma appends_conseq {A} (m : M A) (good good' : bool -> list Event -> Prop) :
  appends m good -> (forall ok evs, good ok evs -> good' ok evs) ->
  appends m good'.
Proof.
  intros H Himp st. destruct (H st) as (evs & Ht & Hg). exists evs. auto.
Qed.

Lemma main_regroup (prog input_file : string) (rest : list string) (st : State) :
  main env cfg (prog :: input_file :: rest) st
  = (main_startup env cfg input_file ;;;
     preview_proxy_path <- generate_preview env cfg input_file ;;
     workflow_proxy_path <- generate_workflow env cfg input_file ;;
     store_workflow cfg input_file preview_proxy_path workflow_proxy_path ;;;
     return_path <- choose_return env cfg preview_proxy_path workflow_proxy_path ;;
     verify_return return_path ;;;
     cleanup return_path [preview_proxy_path; workflow_proxy_path] ;;;
     main_finish return_path) st.
Proof.
  unfold main, main_startup, main_finish.
  rewrite bind_assoc. apply bind_ext. intros _ st1.
  rewrite bind_assoc. apply bind_ext. intros _ st2.
  rewrite bind_assoc. apply bind_ext. intros _ st3.
  rewrite bind_assoc. apply bind_ext. intros b st4.
  reflexivity.
Qed.

Lemma main_appends (argv : list string) :
  appends (main env cfg argv) in_phases.
Proof.
  assert (Hstop : forall message : string,
             appends (error_exit (A := unit) message) in_phases).
  { intros message st. run_unfold. cbn [fst snd trace ended].
    exists [EvLog ("ERROR: " +:+ message)]. split; [reflexivity|].
    exists [EvLog ("ERROR: " +:+ message)], [], [], [], [], [], [], [].
    repeat split; try reflexivity; try discriminate. intros H. now elim H. }
  destruct argv as [|prog [|input_file rest]]; try apply Hstop.
  eapply appends_ext; [apply main_regroup|].
  eapply appends_conseq.
  - apply appends_bind; [apply startup_appends| |].
    + intros _. apply appends_bind; [apply generate_preview_appends| |].
      * intros preview_proxy_path.
        apply appends_bind; [apply generate_workflow_appends| |].
        -- intros workflow_proxy_path.
           apply appends_bind; [apply store_workflow_appends| |].
           ++ intros _. apply appends_bind; [apply choose_return_appends| |].
              ** intros return_path.
                 apply appends_bind; [apply verify_return_appends| |].
                 --- intros _. apply appends_bind; [apply cleanup_appends| |].
                     +++ intros _. apply finish_appends.
                     +++ split; [reflexivity|]. split; [discriminate|].
                         intros H. now elim H.
                 --- exists [], []. repeat split; try discriminate.
                     intros H. now elim H.
              ** exists [], []. repeat split; try discriminate.
                 exists [], []. repeat split; try discriminate.
                 intros H. now elim H.
           ++ do 3 (exists [], []; split; [reflexivity|]; split; [reflexivity|]).
              split; [reflexivity|]. split; [discriminate|]. intros H. now elim H.
        -- do 4 (exists [], []; split; [reflexivity|]; split; [reflexivity|]).
           split; [reflexivity|]. split; [discriminate|]. intros H. now elim H.
      * do 5 (exists [], []; split; [reflexivity|]; split; [reflexivity|]).
        split; [reflexivity|]. split; [discriminate|]. intros H. now elim H.
    + do 6 (exists [], []; split; [reflexivity|]; split; [reflexivity|]).
      split; [reflexivity|]. split; [discriminate|]. intros H. now elim H.
  - cbv beta. intros ok evs
      (e1 & r1 & -> & H1 & e2 & r2 & -> & H2 & e3 & r3 & -> & H3
       & e4 & r4 & -> & H4 & e5 & r5 & -> & H5 & e6 & r6 & -> & H6
       & e7 & e8 & -> & H7 & H8 & Hok).
    exists e1, e2, e3, e4, e5, e6, e7, e8. auto 12.
Qed.

End RunPhases.

Section Order.

Lemma occurrences_app (kind : Event -> bool) (l1 l2 : list Event) :
  occurrences kind (l1 ++ l2) = occurrences kind l1 + occurrences kind l2.
Proof. unfold occurrences. rewrite List.filter_app, length_app. reflexivity. Qed.

Lemma occurrences_zero (kinds kind : Event -> bool) (evs : list Event) :
  forallb kinds evs = true -> (forall e, kinds e && kind e = false) ->
  occurrences kind evs = 0.
Proof.
  intros Hall Hno. induction evs as [|e evs IH]; [reflexivity|].
  cbn [forallb] in Hall. apply andb_prop in Hall as [He Hall].
  unfold occurrences. cbn [List.filter].
  specialize (Hno e). rewrite He in Hno. cbn in Hno. rewrite Hno.
  apply IH, Hall.
Qed.

Lemma occurrences_le_length (kind : Event -> bool) (evs : list Event) :
  occurrences kind evs <= length evs.
Proof. apply List.filter_length_le. Qed.

Lemma finish_phase_cases (evs : list Event) :
  finish_phase evs = true ->
  evs = [] \/ exists a b line, evs = [EvLog a; EvLog b; EvPrint line].
Proof.
  destruct evs as [|[] [|[] [|[] [|]]]]; try discriminate; eauto.
Qed.

Lemma steps_within (kinds : Event -> bool) (k : nat) (evs : list Event) :
  forallb kinds evs = true ->
  (forall e n, kinds e = true -> step_of e = Some n -> n = k) ->
  Forall (fun n => n = k) (omap step_of evs).
Proof.
  intros Hall Hk. induction evs as [|e evs IH]; [constructor|].
  cbn [forallb] in Hall. apply andb_prop in Hall as [He Hall].
  change (omap step_of (e :: evs))
    with (match step_of e with
          | Some n => n :: omap step_of evs
          | None => omap step_of evs
          end).
  destruct (step_of e) as [n|] eqn:E; [|auto].
  constructor; [eapply Hk; eauto|auto].
Qed.

Lemma nondecreasing_cons (a : nat) (l : list nat) :
  Forall (fun n => a <= n) l -> nondecreasing l = true ->
  nondecreasing (a :: l) = true.
Proof.
  intros Hl Hs. destruct l as [|b l]; [reflexivity|].
  cbn [nondecreasing]. apply Forall_cons_1 in Hl as [Hab _].
  apply Nat.leb_le in Hab. rewrite Hab. exact Hs.
Qed.

(** A block of steps [k] in front of later steps. *)
Lemma nondecreasing_block (k : nat) (block later : list nat) :
  Forall (fun n => n = k) block -> Forall (fun n => k <= n) later ->
  nondecreasing later = true ->
  nondecreasing (block ++ later) = true
  /\ Forall (fun n => k <= n) (block ++ later).
Proof.
  intros Hb Hl Hs. induction Hb as [|a block -> _ [IH1 IH2]]; [auto|].
  cbn [app]. split; [apply nondecreasing_cons; assumption|].
  constructor; [lia|exact IH2].
Qed.

Lemma later_steps (k k' : nat) (l : list nat) :
  k' <= k -> Forall (fun n => k <= n) l -> Forall (fun n => k' <= n) l.
Proof. intros Hk Hl. eapply Forall_impl; [exact Hl|]. intros n; cbn; lia. Qed.

End Order.

(** X26. Every run of the script, however it ends and whatever the
    arguments are, goes through the same phases in the same order, and
    a phase adds nothing but what belongs to it: the start-up (log
    lines and at most one probe of the custom FFmpeg); the preview
    encode and then the workflow encode (each: log lines, at most one
    directory, at most one encoder call, for that tier); the workflow
    store (log lines, at most one directory, at most one copy); the
    choice of the return path (at most the placeholder process and one
    log line); its check (at most the error line); the cleanup (at most
    two removals); and the end, which is empty or two log lines and the
    printed line. The end is there exactly when the run ends
    normally. *)
Theorem run_phases (env : Env) (cfg : Config) (argv : list string)
    (fs : gset string) :
  let run := run_main env cfg argv fs in
  exists startup preview workflow store choice check cleanup finish,
    trace (snd run)
    = startup ++ preview ++ workflow ++ store ++ choice ++ check
      ++ cleanup ++ finish
    /\ startup_phase startup = true
    /\ encode_phase "preview_quality" preview = true
    /\ encode_phase "workflow_quality" workflow = true
    /\ store_phase store = true
    /\ choose_phase choice = true
    /\ verify_phase check = true
    /\ cleanup_phase cleanup = true
    /\ finish_phase finish = true
    /\ (fst run = Ok tt <-> finish <> []).
Proof.
  intros run. unfold run, run_main.
  destruct (main_appends env cfg argv (initial_state fs))
    as (evs & Ht & e1 & e2 & e3 & e4 & e5 & e6 & e7 & e8 & -> & H).
  cbn [initial_state trace app] in Ht.
  exists e1, e2, e3, e4, e5, e6, e7, e8. split; [exact Ht|].
  destruct H as (H1 & H2 & H3 & H4 & H5 & H6 & H7 & H8 & Hok).
  repeat (split; [assumption|]).
  rewrite <- Hok.
  destruct (fst (main env cfg argv (initial_state fs))) as [[]|h]; cbn [ended];
    split; (reflexivity || discriminate).
Qed.

(** X27. What a run does to the outside happens in a fixed order and a
    bounded number of times, for every configuration, file system and
    behaviour of the external processes, and also in runs that fail:
    first the probe, then the preview encode, the workflow encode, the
    copy to the workflow store, the placeholder, the removals and the
    printed line. There is at most one probe, one encoder call per
    tier, one copy, one placeholder
    process and one printed line, and there are at most two removals
    and three calls of [makedirs]. *)
Theorem actions_ordered (env : Env) (cfg : Config) (argv : list string)
    (fs : gset string) :
  let events := trace (snd (run_main env cfg argv fs)) in
  nondecreasing (omap step_of events) = true
  /\ occurrences is_probe events <= 1
  /\ occurrences (is_transcode_of "preview_quality") events <= 1
  /\ occurrences (is_transcode_of "workflow_quality") events <= 1
  /\ occurrences is_transcode events <= 2
  /\ occurrences is_copy events <= 1
  /\ occurrences is_placeholder events <= 1
  /\ occurrences is_remove events <= 2
  /\ occurrences is_print events <= 1
  /\ occurrences is_makedirs events <= 3.
Proof.
  intros events. unfold events, run_main.
  destruct (main_appends env cfg argv (initial_state fs))
    as (evs & Ht & e1 & e2 & e3 & e4 & e5 & e6 & e7 & e8 & -> & H).
  cbn [initial_state trace app] in Ht. rewrite Ht. clear Ht.
  destruct H as (H1 & H2 & H3 & H4 & H5 & H6 & H7 & H8 & _).
  unfold startup_phase, encode_phase, store_phase, choose_phase, verify_phase,
    cleanup_phase in *.
  rewrite !andb_true_iff, !Nat.leb_le in *.
  destruct H1 as [F1 P1], H2 as [[F2 M2] T2], H3 as [[F3 M3] T3],
    H4 as [[F4 M4] C4], H5 as [[F5 P5] L5], H6 as [F6 L6], H7 as [F7 L7].
  split.
  - rewrite !omap_app.
    assert (S1 := steps_within _ 0 _ F1).
    assert (S2 := steps_within _ 1 _ F2).
    assert (S3 := steps_within _ 2 _ F3).
    assert (S4 := steps_within _ 3 _ F4).
    assert (S5 := steps_within _ 4 _ F5).
    assert (S6 := steps_within _ 4 _ F6).
    assert (S7 := steps_within _ 5 _ F7).
    assert (S8 : nondecreasing (omap step_of e8) = true
                 /\ Forall (fun n => 5 <= n) (omap step_of e8)).
    { destruct (finish_phase_cases _ H8) as [->|(a & b & line & ->)]; cbn.
      - auto.
      - split; [reflexivity|]. repeat constructor. }
    destruct S8 as [N8 G8].
    destruct (nondecreasing_block 5 _ _ (S7 ltac:(intros []; cbn; congruence)) G8 N8)
      as [N7 G7].
    apply (later_steps 5 4) in G7; [|lia].
    destruct (nondecreasing_block 4 _ _ (S6 ltac:(intros []; cbn; congruence)) G7 N7)
      as [N6 G6].
    destruct (nondecreasing_block 4 _ _ (S5 ltac:(intros []; cbn; congruence)) G6 N6)
      as [N5 G5].
    apply (later_steps 4 3) in G5; [|lia].
    destruct (nondecreasing_block 3 _ _ (S4 ltac:(intros []; cbn; congruence)) G5 N5)
      as [N4 G4].
    apply (later_steps 3 2) in G4; [|lia].
    assert (W3 : forall e n,
               is_log e || is_makedirs e || is_transcode_of "workflow_quality" e = true ->
               step_of e = Some n -> n = 2).
    { intros [] n; cbn; try congruence.
      intros E%String.eqb_eq. subst. cbn. congruence. }
    destruct (nondecreasing_block 2 _ _ (S3 W3) G4 N4) as [N3 G3].
    apply (later_steps 2 1) in G3; [|lia].
    assert (W2 : forall e n,
               is_log e || is_makedirs e || is_transcode_of "preview_quality" e = true ->
               step_of e = Some n -> n = 1).
    { intros [] n; cbn; try congruence. intros ->. congruence. }
    destruct (nondecreasing_block 1 _ _ (S2 W2) G3 N3) as [N2 G2].
    apply (later_steps 1 0) in G2; [|lia].
    apply (nondecreasing_block 0 _ _ (S1 ltac:(intros []; cbn; congruence)) G2 N2).
  - assert (L8 : occurrences is_print e8 <= 1
                 /\ forall kind, (forall line, kind (EvPrint line) = false) ->
                                 (forall message, kind (EvLog message) = false) ->
                                 occurrences kind e8 = 0).
    { destruct (finish_phase_cases _ H8) as [->|(a & b & line & ->)].
      - split; [cbn; lia|reflexivity].
      - split; [cbn; lia|]. intros kind Hp Hl. unfold occurrences. cbn.
        rewrite !Hl, Hp. reflexivity. }
    destruct L8 as [L8 Z8].
    pose proof (occurrences_le_length is_remove e7) as R7.
    assert (T2' : occurrences (is_transcode_of "preview_quality") e2
                  <= occurrences is_transcode e2).
    { clear. unfold occurrences. induction e2 as [|[] l IH]; cbn; try lia.
      destruct (String.eqb _ _); cbn; lia. }
    assert (T3' : occurrences (is_transcode_of "workflow_quality") e3
                  <= occurrences is_transcode e3).
    { clear. unfold occurrences. induction e3 as [|[] l IH]; cbn; try lia.
      destruct (String.eqb _ _); cbn; lia. }
    rewrite !occurrences_app.
    rewrite !(Z8 is_probe), !(Z8 (is_transcode_of _)), !(Z8 is_transcode),
      !(Z8 is_copy), !(Z8 is_placeholder), !(Z8 is_remove), !(Z8 is_makedirs)
      by reflexivity.
    repeat match goal with
           | F : forallb ?kinds ?e = true |- context [occurrences ?kind ?e] =>
               rewrite (occurrences_zero kinds kind e F)
                 by (intros []; cbn; rewrite ?andb_false_r; try reflexivity;
                     match goal with
                     | |- String.eqb ?t _ && String.eqb ?t _ = false =>
                         destruct (String.eqb_spec t "preview_quality");
                         [subst; reflexivity
                         |rewrite ?andb_false_r; reflexivity]
                     end)
           end.
    repeat split; lia.
Qed.

Section Creates.

Lemma ends_with_output_app (args : list string) (out : string) :
  ends_with_output (args ++ ["-y"; out]) = Some out.
Proof.
  induction args as [|a [|b args] IH]; [reflexivity|reflexivity|].
  cbn [app ends_with_output] in *. destruct (args ++ ["-y"; out]) eqn:E.
  - destruct args; discriminate.
  - exact IH.
Qed.

Lemma creates_bind {A B} (m : M A) (k : A -> M B) (c1 c2 c : gset string) :
  creates m c1 -> (forall a, creates (k a) c2) ->
  c1 ⊆ c -> c2 ⊆ c -> creates (bind m k) c.
Proof.
  intros Hm Hk H1 H2 st x. unfold bind. specialize (Hm st).
  destruct (m st) as [[a|h] st']; cbn [snd] in *.
  - intros Hx. destruct (Hk a st' x Hx) as [Hx'|Hx'].
    + destruct (Hm x Hx'); [auto|right; apply H1; assumption].
    + right. apply H2. assumption.
  - intros Hx. destruct (Hm x Hx); [auto|right; apply H1; assumption].
Qed.

Lemma creates_ext {A} (m m' : M A) (c : gset string) :
  (forall st, m st = m' st) -> creates m' c -> creates m c.
Proof. intros E H st. rewrite E. apply H. Qed.

Lemma creates_weaken {A} (m : M A) (c c' : gset string) :
  creates m c -> c ⊆ c' -> creates m c'.
Proof.
  intros H Hc st x Hx. destruct (H st x Hx); [auto|right; apply Hc; assumption].
Qed.

End Creates.

Section Footprint.
Variable env : Env.
Variable cfg : Config.
Hypothesis Hcontained : contained env.

Lemma output_of_ffmpeg_command (ffmpeg : string) (use_libx264 : bool)
    (input_file output_file scale vbitrate abitrate codec codec_profile
     container crf preset tune : string) :
  output_of (ffmpeg_command ffmpeg use_libx264 input_file output_file scale
               vbitrate abitrate codec codec_profile container crf preset tune)
  = Some output_file.
Proof.
  unfold ffmpeg_command, output_of. cbn [app].
  change ["-f"; container; "-loglevel"; "error"; "-y"; output_file]
    with (["-f"; container; "-loglevel"; "error"] ++ ["-y"; output_file]).
  rewrite app_assoc.
  apply (ends_with_output_app ("-i" :: input_file :: _)).
Qed.

Lemma startup_creates (input_file : string) :
  creates (main_startup env cfg input_file) ∅.
Proof.
  intros st x. unfold main_startup, init_ffmpeg. run_unfold. simpl.
  destruct (Str.truthy (FFMPEG_PATH cfg) && bool_decide (FFMPEG_PATH cfg ∈ files st));
    simpl.
  - destruct (subprocess_run env _ (files st)) as [[res fs']|] eqn:Hrun; simpl.
    + assert (Hx : x ∈ fs' -> x ∈ files st \/ x ∈ (∅ : gset string)).
      { intros Hx. destruct (Hcontained _ _ _ _ Hrun x Hx) as [H|H]; [auto|].
        discriminate H. }
      destruct (Str.contains (stdout res) "libx264"); simpl;
        destruct (bool_decide (input_file ∈ fs')); simpl; exact Hx.
    + destruct (bool_decide (input_file ∈ files st)); simpl; auto.
  - destruct (bool_decide (input_file ∈ files st)); simpl; auto.
Qed.

Lemma generate_proxy_creates (input_file output_file scale vbitrate abitrate
    tier codec codec_profile container crf preset tune : string) :
  creates (generate_proxy env input_file output_file scale vbitrate
             abitrate tier codec codec_profile container crf preset tune)
    {[ output_file ]}.
Proof.
  intros st x. unfold generate_proxy. run_unfold. simpl.
  destruct (Str.truthy (posixpath.dirname output_file)); simpl; [|auto].
  destruct (FFMPEG st) as [f|]; simpl; [|auto].
  destruct (subprocess_run env _ (files st)) as [[res fs']|] eqn:Hrun; simpl;
    [|auto].
  assert (Hx : x ∈ fs' -> x ∈ files st \/ x ∈ ({[ output_file ]} : gset string)).
  { intros Hx. destruct (Hcontained _ _ _ _ Hrun x Hx) as [H|H]; [auto|].
    rewrite output_of_ffmpeg_command in H. injection H as <-.
    right. apply elem_of_singleton. reflexivity. }
  destruct (Str.truthy (stderr res)); simpl;
    destruct (returncode res =? 0)%Z; simpl; exact Hx.
Qed.


Lemma error_exit_creates {A} (message : string) :
  creates (error_exit (A := A) message) ∅.
Proof. intros st x. run_unfold. simpl. auto. Qed.

Lemma ret_creates {A} (a : A) : creates (ret a) ∅.
Proof. intros st x. cbn. auto. Qed.

Lemma generate_preview_creates (input_file : string) :
  creates (generate_preview env cfg input_file)
    (if need_preview cfg then {[ preview_temp_path env cfg input_file ]} else ∅).
Proof.
  unfold generate_preview. destruct (need_preview cfg); [|apply ret_creates].
  eapply creates_bind; [apply generate_proxy_creates| |reflexivity|].
  - intros [|]; [apply ret_creates|apply error_exit_creates].
  - apply empty_subseteq.
Qed.

Lemma generate_workflow_creates (input_file : string) :
  creates (generate_workflow env cfg input_file)
    (if need_workflow cfg then {[ workflow_temp_path env cfg input_file ]} else ∅).
Proof.
  unfold generate_workflow. destruct (need_workflow cfg); [|apply ret_creates].
  eapply creates_bind; [apply generate_proxy_creates| |reflexivity|].
  - intros [|]; [apply ret_creates|apply error_exit_creates].
  - apply empty_subseteq.
Qed.

Lemma store_workflow_creates (input_file preview_proxy_path workflow_proxy_path : string) :
  creates (store_workflow cfg input_file preview_proxy_path workflow_proxy_path)
    (if ENABLE_WORKFLOW_STORE cfg then {[ workflow_dest cfg input_file ]} else ∅).
Proof.
  intros st x. unfold store_workflow, workflow_dest, store_container.
  destruct (ENABLE_WORKFLOW_STORE cfg); [|cbn; auto].
  destruct (build_workflow_path cfg input_file _) as [dest warnings].
  rewrite (bind_ok _ _ _ _ _ (log_all_run warnings st)).
  run_unfold. unfold extend. simpl.
  set (source_path := if String.eqb (WORKFLOW_STORE_SOURCE cfg) "preview"
                      then preview_proxy_path else workflow_proxy_path).
  destruct (Str.truthy (posixpath.dirname dest)); simpl; [|auto].
  destruct (bool_decide (source_path ∈ files st)); simpl; [|auto].
  destruct (String.eqb source_path dest); simpl; [auto|].
  intros [Hx|Hx]%elem_of_union; auto.
Qed.

Lemma choose_return_creates (preview_proxy_path workflow_proxy_path : string) :
  creates (choose_return env cfg preview_proxy_path workflow_proxy_path)
    (if ENABLE_P5_PREVIEW cfg then ∅ else {[ placeholder_path env ]}).
Proof.
  intros st x. unfold choose_return.
  destruct (ENABLE_P5_PREVIEW cfg); [cbn; auto|].
  run_unfold. simpl.
  destruct (FFMPEG st) as [f|]; simpl; [|auto].
  destruct (subprocess_run env _ (files st)) as [[res fs']|] eqn:Hrun; simpl;
    [|auto].
  intros Hx. destruct (Hcontained _ _ _ _ Hrun x Hx) as [H|H]; [auto|].
  injection H as <-. right. apply elem_of_singleton. reflexivity.
Qed.

Lemma verify_return_creates (return_path : string) :
  creates (verify_return return_path) ∅.
Proof.
  intros st x. unfold verify_return. run_unfold. simpl.
  destruct (negb (Str.truthy return_path)
            || negb (bool_decide (return_path ∈ files st))); simpl; auto.
Qed.

Lemma cleanup_creates (return_path preview_proxy_path workflow_proxy_path : string) :
  creates (cleanup return_path [preview_proxy_path; workflow_proxy_path]) ∅.
Proof.
  intros st x. unfold cleanup, cleanup_one. cbn [foldr]. run_unfold. simpl.
  destruct (Str.truthy preview_proxy_path
            && bool_decide (preview_proxy_path ∈ files st)
            && negb (String.eqb preview_proxy_path return_path)); simpl.
  - destruct (bool_decide (preview_proxy_path ∈ files st)); simpl; [|auto].
    destruct (Str.truthy workflow_proxy_path && _ && _); simpl.
    + destruct (bool_decide (workflow_proxy_path ∈ _)); simpl.
      * intros [[Hx _]%elem_of_difference _]%elem_of_difference. auto.
      * intros [Hx _]%elem_of_difference. auto.
    + intros [Hx _]%elem_of_difference. auto.
  - destruct (Str.truthy workflow_proxy_path && _ && _); simpl; [|auto].
    destruct (bool_decide (workflow_proxy_path ∈ _)); simpl; [|auto].
    intros [Hx _]%elem_of_difference. auto.
Qed.

Lemma finish_creates (return_path : string) :
  creates (main_finish return_path) ∅.
Proof. intros st x. unfold main_finish. run_unfold. simpl. auto. Qed.

Lemma main_creates (prog input_file : string) (rest : list string) :
  creates (main env cfg (prog :: input_file :: rest)) (created_files env cfg input_file).
Proof.
  eapply creates_ext; [apply main_regroup|].
  unfold created_files.
  eapply creates_bind; [apply startup_creates| |apply empty_subseteq|reflexivity].
  intros _.
  eapply creates_bind; [apply generate_preview_creates| | |reflexivity].
  2: { intros x Hx. do 3 (apply elem_of_union; left). exact Hx. }
  intros preview_proxy_path.
  eapply creates_bind; [apply generate_workflow_creates| | |reflexivity].
  2: { intros x Hx. do 2 (apply elem_of_union; left). apply elem_of_union.
       right. exact Hx. }
  intros workflow_proxy_path.
  eapply creates_bind; [apply store_workflow_creates| | |reflexivity].
  2: { intros x Hx. apply elem_of_union; left. apply elem_of_union.
       right. exact Hx. }
  intros _.
  eapply creates_bind; [apply choose_return_creates| | |reflexivity].
  2: { intros x Hx. apply elem_of_union. right. exact Hx. }
  intros return_path.
  eapply creates_bind;
    [apply verify_return_creates| |apply empty_subseteq|reflexivity].
  intros _.
  eapply creates_weaken; [|apply empty_subseteq].
  eapply creates_bind;
    [apply cleanup_creates| |apply empty_subseteq|reflexivity].
  intros _. apply finish_creates.
Qed.

End Footprint.

Lemma writing_env_contained : contained writing_env.
Proof.
  intros cmd fs result fs' H x Hx. cbn in H. unfold writing_encoder in H.
  injection H as _ <-. destruct (output_of cmd) as [out|]; [|auto].
  apply elem_of_union in Hx as [->%elem_of_singleton|Hx]; auto.
Qed.



